(** * html-annotator: the storage layer

    A shallow embedding of the persistence code of html-annotator:

    - [Store]          the namespaced key-value store over [window.localStorage]
                       (the file that exports [LocalStore]);
    - [LocalStorage]   src/storage/localStorage.js;
    - [HttpStorage]    src/storage/httpStorage.js;
    - [StorageAdapter] src/storage.js.

    JavaScript objects that are handed around and mutated in place (the
    caller's annotation, the adapter's [safeCopy], a query object) live in a
    heap and are named by locations, so that "the same object" is a statement
    about locations.  The values held in fields are immutable trees.

    A call that returns a promise is modelled by the settled state of that
    promise together with the world at settlement; one call is followed from
    start to settlement, other tasks of the event loop are not interleaved. *)

From Stdlib Require Import ZArith String Ascii List Lia DecimalString.
From stdpp Require Import gmap strings.

Open Scope string_scope.
Set Warnings "-register-all".

(** ** JavaScript values *)

Module JS.

(** Numbers are the integer-valued ones (identifiers, counts, statuses):
    [VNum n] is the Number value for the integer [n], a finite double.
    [VBigInt] is kept because [JSON.stringify] throws on it. *)
Inductive value : Type :=
| VUndefined
| VNull
| VBool (b : bool)
| VNum (n : Z)
| VBigInt (n : Z)
| VStr (s : string)
| VArr (elems : list value)
| VObj (fields : list (string * value)).

(** An object is its list of own enumerable properties in insertion order. *)
Definition obj : Type := list (string * value).

Definition keys (o : obj) : list string := map fst o.

Fixpoint get_own (k : string) (o : obj) : option value :=
  match o with
  | [] => None
  | (k', v) :: o' => if String.eqb k k' then Some v else get_own k o'
  end.

(** Whether [o] has a property [k] of its own. *)
Definition has_own (k : string) (o : obj) : bool :=
  match get_own k o with Some _ => true | None => false end.

(** [o[k]]: reading a missing property gives [undefined]. *)
Definition get_prop (k : string) (o : obj) : value :=
  match get_own k o with Some v => v | None => VUndefined end.

(** [delete o[k]] *)
Fixpoint delete_prop (k : string) (o : obj) : obj :=
  match o with
  | [] => []
  | (k', v) :: o' =>
      if String.eqb k k' then delete_prop k o' else (k', v) :: delete_prop k o'
  end.

(** [o[k] = v]: an existing property keeps its place, a new one goes last. *)
Fixpoint set_prop (k : string) (v : value) (o : obj) : obj :=
  match o with
  | [] => [(k, v)]
  | (k', v') :: o' =>
      if String.eqb k k' then (k, v) :: delete_prop k o'
      else (k', v') :: set_prop k v o'
  end.

(** ToBoolean *)
Definition truthy (v : value) : bool :=
  match v with
  | VUndefined | VNull => false
  | VBool b => b
  | VNum n | VBigInt n => negb (n =? 0)%Z
  | VStr s => negb (String.eqb s "")
  | VArr _ | VObj _ => true
  end.

(** [typeof v === "undefined" || v === null] *)
Definition is_nullish (v : value) : bool :=
  match v with VUndefined | VNull => true | _ => false end.

Definition Z_to_string (n : Z) : string := NilZero.string_of_int (Z.to_int n).

(** *** Number::toString

    A number is printed with the fewest digits that still denote it, and
    in exponent notation from 10^21 on. *)

(** The double nearest to the integer [n >= 0], ties to even. *)
Definition round_double (n : Z) : Z :=
  let bits := (Z.log2 n + 1)%Z in
  if (bits <=? 53)%Z then n
  else
    let shift := (bits - 53)%Z in
    let q := Z.shiftr n shift in
    let r := (n - Z.shiftl q shift)%Z in
    let half := Z.shiftl 1 (shift - 1) in
    let q := if (half <? r)%Z || ((r =? half)%Z && Z.odd q)
             then (q + 1)%Z else q in
    Z.shiftl q shift.

(** The number of decimal digits of [n > 0]. *)
Definition decimal_digits (n : Z) : Z :=
  Z.of_nat (String.length (Z_to_string n)).

(** The integer with the fewest significant digits, [k] or more, that
    denotes the double [x > 0] of [digits] digits; with [k] digits the
    candidates are [x] cut after [k] digits and the next one, and the one
    closer to [x] is taken, the even one on a tie. *)
Fixpoint shortest_from (fuel : nat) (k digits x : Z) : Z :=
  match fuel with
  | O => x
  | S fuel' =>
      let e := (digits - k)%Z in
      if (e <=? 0)%Z then x
      else
        let p := (10 ^ e)%Z in
        let lo := (x / p * p)%Z in
        let hi := (lo + p)%Z in
        let ok_lo := (round_double lo =? x)%Z in
        let ok_hi := (round_double hi =? x)%Z in
        if ok_lo && ok_hi then
          if (x - lo <? hi - x)%Z then lo
          else if (hi - x <? x - lo)%Z then hi
          else if Z.even (x / p) then lo else hi
        else if ok_lo then lo
        else if ok_hi then hi
        else shortest_from fuel' (k + 1)%Z digits x
  end.

(** A double is told from all others by 17 significant digits. *)
Definition shortest (x : Z) : Z := shortest_from 17 1 (decimal_digits x) x.

Fixpoint strip_zeros (s : string) : string :=
  match s with
  | EmptyString => EmptyString
  | String c s' =>
      match strip_zeros s' with
      | EmptyString => if Ascii.eqb c "0" then EmptyString
                       else String c EmptyString
      | r => String c r
      end
  end.

(** Number::toString of the double nearest to [n > 0]. *)
Definition positive_to_string (n : Z) : string :=
  let x := round_double n in
  if (2 ^ 1024 <=? x)%Z then "Infinity"
  else
    let v := shortest x in
    let n := decimal_digits v in
    if (n <=? 21)%Z then Z_to_string v
    else
      match strip_zeros (Z_to_string v) with
      | EmptyString => EmptyString
      | String d EmptyString =>
          String d ("e+" +:+ Z_to_string (n - 1))
      | String d ds =>
          String d ("." +:+ ds +:+ "e+" +:+ Z_to_string (n - 1))
      end.

Definition number_to_string (n : Z) : string :=
  if (n =? 0)%Z then "0"
  else if (n <? 0)%Z then "-" +:+ positive_to_string (- n)
  else positive_to_string n.

(** ToString, as used by [+] with a string and by property keys. *)
Fixpoint to_string (v : value) : string :=
  match v with
  | VUndefined => "undefined"
  | VNull => "null"
  | VBool true => "true"
  | VBool false => "false"
  | VNum n => number_to_string n
  | VBigInt n => Z_to_string n
  | VStr s => s
  | VArr l =>
      (fix join (l : list value) : string :=
         match l with
         | [] => ""
         | x :: l' =>
             let sx := match x with
                       | VUndefined | VNull => ""
                       | _ => to_string x
                       end in
             match l' with
             | [] => sx
             | _ :: _ => sx +:+ "," +:+ join l'
             end
         end) l
  | VObj _ => "[object Object]"
  end.

(** [v === s] for a string [s] *)
Definition is_string (s : string) (v : value) : bool :=
  match v with VStr s' => String.eqb s' s | _ => false end.

(** [s.indexOf(p) == 0] *)
Definition starts_with (p s : string) : bool := String.prefix p s.

(** [s.slice(n)] for [n >= 0] *)
Fixpoint slice (n : nat) (s : string) : string :=
  match n, s with
  | O, _ => s
  | S n', String _ s' => slice n' s'
  | S _, EmptyString => EmptyString
  end.

(** What [replace] puts in the place of the match, for a pattern without
    groups: in the replacement, [$$] stands for a dollar, [$&] for the
    match, [$`] for what precedes the match and [$'] for what follows it;
    a dollar before anything else stands for itself. *)
Fixpoint substitution (matched before after rep : string) : string :=
  match rep with
  | EmptyString => EmptyString
  | String c rep' =>
      if Ascii.eqb c "$" then
        match rep' with
        | EmptyString => String c EmptyString
        | String d rep'' =>
            if Ascii.eqb d "$" then
              String "$" (substitution matched before after rep'')
            else if Ascii.eqb d "&" then
              matched +:+ substitution matched before after rep''
            else if Ascii.eqb d "`" then
              before +:+ substitution matched before after rep''
            else if Ascii.eqb d "'" then
              after +:+ substitution matched before after rep''
            else String c (substitution matched before after rep')
        end
      else String c (substitution matched before after rep')
  end.

(** The first occurrence of [pat] in [s]: what precedes it and what
    follows it. *)
Fixpoint find_first (pat s : string) : option (string * string) :=
  if String.prefix pat s then
    Some (EmptyString, slice (String.length pat) s)
  else match s with
       | EmptyString => None
       | String c s' =>
           match find_first pat s' with
           | Some (before, after) => Some (String c before, after)
           | None => None
           end
       end.

(** [s.replace(/pat/, rep)] for a pattern [pat] without metacharacters and
    a replacement [rep] that is a string: the first occurrence of [pat] is
    replaced. *)
Definition replace_first (pat rep s : string) : string :=
  match find_first pat s with
  | Some (before, after) =>
      before +:+ substitution pat before after rep +:+ after
  | None => s
  end.

(** *** Errors and completions *)

Inductive error : Type :=
| TypeError (msg : string)
| SyntaxError (msg : string)
| QuotaExceededError
| RequestFailed (status : option Z).

(** A synchronous computation over a state [S] either returns or throws;
    the mutations made before a throw stay. *)
Inductive result (S A : Type) : Type :=
| Return (a : A) (s : S)
| Throw (e : error) (s : S).
Arguments Return {S A} a s.
Arguments Throw {S A} e s.

Definition M (S A : Type) : Type := S -> result S A.

Definition ret {S A} (a : A) : M S A := fun s => Return a s.
Definition throw {S A} (e : error) : M S A := fun s => Throw e s.
Definition bind {S A B} (m : M S A) (f : A -> M S B) : M S B :=
  fun s => match m s with
           | Return a s' => f a s'
           | Throw e s' => Throw e s'
           end.
(** [try { m } catch (error) { h(error) }] *)
Definition try_catch {S A} (m : M S A) (h : error -> M S A) : M S A :=
  fun s => match m s with
           | Return a s' => Return a s'
           | Throw e s' => h e s'
           end.
Definition gets {S A} (f : S -> A) : M S A := fun s => Return (f s) s.
Definition modify {S} (f : S -> S) : M S unit := fun s => Return tt (f s).

Declare Scope js_scope.
Delimit Scope js_scope with js.
Notation "'let*' x := m 'in' k" := (bind m (fun x => k))
  (at level 10, x name, m at level 100, k at level 200) : js_scope.
Notation "m ;; k" := (bind m (fun _ => k))
  (at level 100, k at level 200, right associativity) : js_scope.

Definition final_state {S A} (r : result S A) : S :=
  match r with Return _ s | Throw _ s => s end.

(** [o.hasOwnProperty(k)], for an object with the properties [o]. The
    method is looked up on the object: a property named [hasOwnProperty]
    of its own comes before the method of [Object.prototype], and as no
    value here is a function, calling it throws. *)
Definition hasOwnProperty {S} (o : obj) (k : string) : M S bool :=
  if has_own "hasOwnProperty" o then
    throw (TypeError "hasOwnProperty is not a function")
  else ret (has_own k o).

(** *** JSON *)

(** [JSON.stringify] throws a TypeError when it meets a BigInt. A property
    whose value is [undefined] is skipped before its value is looked at. *)
Fixpoint has_bigint (v : value) : bool :=
  match v with
  | VBigInt _ => true
  | VArr l => existsb has_bigint l
  | VObj fs => existsb (fun kv => has_bigint (snd kv)) fs
  | _ => false
  end.

(** The document denoted by the text [JSON.stringify(v)], for [v] other than
    [undefined]: properties holding [undefined] are left out and [undefined]
    array elements are written as [null]. *)
Fixpoint json_doc (v : value) : value :=
  match v with
  | VArr l =>
      VArr (map (fun x => match x with
                          | VUndefined => VNull
                          | _ => json_doc x
                          end) l)
  | VObj fs =>
      VObj ((fix fields (fs : list (string * value)) : list (string * value) :=
               match fs with
               | [] => []
               | (k, VUndefined) :: fs' => fields fs'
               | (k, x) :: fs' => (k, json_doc x) :: fields fs'
               end) fs)
  | _ => v
  end.

(** A string held by [localStorage]. A JSON text is kept as the document it
    denotes, so that [JSON.parse] after [JSON.stringify] is [json_doc]; any
    other string (such as the text [undefined]) is kept as it is and does not
    parse. *)
Inductive text : Type :=
| JsonText (doc : value)
| RawText (s : string).

(** [JSON.stringify(v)]: a text, or [undefined] for [undefined]. *)
Definition JSON_stringify {S} (v : value) : M S (option text) :=
  if has_bigint v then throw (TypeError "Do not know how to serialize a BigInt")
  else match v with
       | VUndefined => ret None
       | _ => ret (Some (JsonText (json_doc v)))
       end.

(** ToString of the value handed to [setItem]. *)
Definition text_of (j : option text) : text :=
  match j with Some t => t | None => RawText "undefined" end.

(** [JSON.parse(x)] where [x] is what [getItem] gave: [null] is read as the
    text [null]. *)
Definition JSON_parse {S} (x : option text) : M S value :=
  match x with
  | None => ret VNull
  | Some (JsonText d) => ret d
  | Some (RawText _) => throw (SyntaxError "Unexpected token in JSON")
  end.

(** [!x] for what [getItem] gave: [null] and the empty string are falsy. *)
Definition text_falsy (x : option text) : bool :=
  match x with
  | None => true
  | Some (RawText s) => String.eqb s ""
  | Some (JsonText _) => false
  end.

End JS.

(** ** The key-value store over [window.localStorage] *)

Module Store.
Import JS.
Local Open Scope js_scope.

(** [this.localStorage]: the keys of a Storage object are enumerated in an
    order of the browser's choosing, which is the order of [map_to_list]. *)
Abbreviation storage := (gmap string text).

Definition KEY_PREFIX : string := "annotator.offline/".
Definition CACHE_DELIMITER : string := "--cache--".

(** A Storage object has no [Symbol.iterator] method. *)
Definition Storage_iterator : option (storage -> list string) := None.

(** The methods that [Store.prototype] defines; [publish] is not one of
    them, and [Store] inherits from [Object.prototype] only. *)
Definition Store_methods : list string :=
  ["isSupported"; "now"; "all"; "get"; "set"; "remove"; "clear";
   "prefixed"; "checkCache"].

Section WithQuota.

(** The browser accepts a write when the contents it would lead to fit the
    quota of the origin. *)
Variable fits : storage -> bool.

Definition getItem (k : string) : M storage (option text) :=
  gets (fun ls => ls !! k).

Definition setItem (k : string) (t : text) : M storage unit :=
  fun ls =>
    let ls' := <[k := t]> ls in
    if fits ls' then Return tt ls' else Throw QuotaExceededError ls.

Definition removeItem (k : string) : M storage unit :=
  modify (fun ls => delete k ls).

(** [Store.prototype.prefixed] *)
Definition prefixed (key : string) : string := KEY_PREFIX +:+ key.

(** [Store.prototype.remove] *)
Definition remove (key : string) : M storage unit :=
  removeItem (prefixed key).

(** [Store.prototype.get]; the expiry check is commented out in the source. *)
Definition get (key : string) : M storage value :=
  let* value := getItem (prefixed key) in
  (if text_falsy value then remove key else ret tt) ;;
  JSON_parse value.

(** [this.publish('error', [error, this])]: calling a method that the object
    does not have throws a TypeError. *)
Definition publish (event : string) (error : JS.error) : M storage unit :=
  if existsb (String.eqb "publish") Store_methods then ret tt
  else throw (TypeError "this.publish is not a function").

(** [Store.prototype.set]; it returns [this]. *)
Definition set (key : string) (value time : JS.value) : M storage unit :=
  let* value := JSON_stringify value in
  if truthy time then
    try_catch (setItem (prefixed key) (text_of value))
              (fun error => publish "error" error)
  else ret tt.

(** The body of the [for (var key in this.localStorage)] loop of [all]. *)
Fixpoint all_loop (prefix : string) (ks : list string) (values : list value)
  : M storage (list value) :=
  match ks with
  | [] => ret values
  | key :: ks' =>
      let* own := gets (fun ls => bool_decide (is_Some (ls !! key))) in
      if own && starts_with prefix key then
        let* value := get (slice (String.length KEY_PREFIX) key) in
        all_loop prefix ks' (values ++ [value])
      else all_loop prefix ks' values
  end.

(** [Store.prototype.all] *)
Definition all (partial : JS.value) : M storage (list value) :=
  let partial := if truthy partial then partial else VStr "" in
  let prefix := prefixed (to_string partial) in
  let* ks := gets (fun ls => (map_to_list ls).*1) in
  all_loop prefix ks [].

(** [Store.prototype.clear]: [for (key of localStorage)] asks the Storage
    object for its iterator. *)
Definition clear : M storage unit :=
  match Storage_iterator with
  | None => throw (TypeError "localStorage is not iterable")
  | Some iterate =>
      let* ks := gets iterate in
      modify (fun ls =>
        fold_left (fun ls key =>
                     if starts_with KEY_PREFIX key then delete key ls else ls)
                  ks ls)
  end.

End WithQuota.

End Store.

(** ** The browser as the storage code sees it *)

Module Browser.
Import JS.

Definition loc : Type := nat.

(** What a variable holds: an object of the heap, or a value nobody else
    holds (a primitive, a freshly parsed document, an object literal). *)
Inductive jsref : Type :=
| Ref (l : loc)
| Val (v : value).

(** The configuration handed to [axios]. *)
Record request : Type := Request {
  method : value;
  url : string;
  data : obj;
  params : obj;
}.

(** How a request ends: with a response body, or with a failure that
    carries the status of the response when there was one. *)
Inductive response : Type :=
| Success (body : value)
| Failure (status : option Z).

(** Whose [onError] a notification went to. *)
Inductive receiver : Type :=
| TheStorage
| GlobalSelf.

Record world : Type := World {
  heap : gmap loc obj;
  localStorage : gmap string text;
  (** [LocalStorage.prototype.cache], shared by all instances *)
  cache : gmap string jsref;
  (** [window.location.href] *)
  href : string;
  (** [Math.random()] and [new Date().getTime()]: the n-th call of [UUID()]
      returns [uuid_source n] *)
  uuid_source : nat -> string;
  entropy : nat;
  (** the quota of the origin *)
  quota : gmap string text -> bool;
  (** whether the global object [self] has a function [onError] *)
  self_onError : bool;
  (** calls of the [onError] of the local backend *)
  reported : list error;
  (** calls of an [onError] by the HTTP backend *)
  notified : list (receiver * string * value);
  (** requests handed to [axios], oldest first *)
  sent : list request;
}.

Definition with_heap (h : gmap loc obj) (w : world) : world :=
  World h (localStorage w) (cache w) (href w) (uuid_source w) (entropy w)
        (quota w) (self_onError w) (reported w) (notified w) (sent w).
Definition with_localStorage (ls : gmap string text) (w : world) : world :=
  World (heap w) ls (cache w) (href w) (uuid_source w) (entropy w)
        (quota w) (self_onError w) (reported w) (notified w) (sent w).
Definition with_cache (c : gmap string jsref) (w : world) : world :=
  World (heap w) (localStorage w) c (href w) (uuid_source w) (entropy w)
        (quota w) (self_onError w) (reported w) (notified w) (sent w).
Definition with_entropy (n : nat) (w : world) : world :=
  World (heap w) (localStorage w) (cache w) (href w) (uuid_source w) n
        (quota w) (self_onError w) (reported w) (notified w) (sent w).
Definition with_reported (r : list error) (w : world) : world :=
  World (heap w) (localStorage w) (cache w) (href w) (uuid_source w) (entropy w)
        (quota w) (self_onError w) r (notified w) (sent w).
Definition with_notified (n : list (receiver * string * value)) (w : world)
  : world :=
  World (heap w) (localStorage w) (cache w) (href w) (uuid_source w) (entropy w)
        (quota w) (self_onError w) (reported w) n (sent w).
Definition with_sent (rs : list request) (w : world) : world :=
  World (heap w) (localStorage w) (cache w) (href w) (uuid_source w) (entropy w)
        (quota w) (self_onError w) (reported w) (notified w) rs.

(** The properties of the object at [l]. *)
Definition content (l : loc) (w : world) : obj :=
  match heap w !! l with Some o => o | None => [] end.

Definition set_content (l : loc) (o : obj) (w : world) : world :=
  with_heap (<[l := o]> (heap w)) w.

(** A new object, at a location that is not in use. *)
Definition alloc (o : obj) (w : world) : loc * world :=
  let l := fresh (dom (heap w)) in (l, set_content l o w).

(** [l[k]] *)
Definition read (l : loc) (k : string) : M world value :=
  gets (fun w => get_prop k (content l w)).

(** [l[k] = v] *)
Definition write (l : loc) (k : string) (v : value) : M world unit :=
  modify (fun w => set_content l (set_prop k v (content l w)) w).

(** A method of the key-value store, run on [window.localStorage]. *)
Definition on_localStorage {A}
  (m : (gmap string text -> bool) -> M (gmap string text) A) : M world A :=
  fun w =>
    match m (quota w) (localStorage w) with
    | Return a ls => Return a (with_localStorage ls w)
    | Throw e ls => Throw e (with_localStorage ls w)
    end.

End Browser.

(** ** src/storage/localStorage.js *)

Module LocalStorage.
Import JS Browser.
Local Open Scope js_scope.

Definition ANNOTATION_PREFIX : string := "annotation.".

Definition URI : M world string := gets href.

Definition UUID : M world string :=
  fun w => Return (uuid_source w (entropy w)) (with_entropy (S (entropy w)) w).

(** [this.onError(error)]: the configured handler is called. *)
Definition onError (error : JS.error) : M world unit :=
  modify (fun w => with_reported (reported w ++ [error]) w).

Definition getUniqueKey (annotation : loc) : M world value :=
  let* uuid := read annotation "uuid" in
  let* uuid' := (if truthy uuid then ret uuid
                 else let* s := UUID in ret (VStr s)) in
  write annotation "uuid" uuid' ;;
  read annotation "uuid".

Definition keyForAnnotation (annotation : loc) : M world value :=
  getUniqueKey annotation.

Definition keyForStore (annotation : loc) : M world string :=
  let* uuid := keyForAnnotation annotation in
  ret (ANNOTATION_PREFIX +:+ to_string uuid).

Definition removeStoredAnnotation (annotation : loc) : M world loc :=
  let* uuid := keyForAnnotation annotation in
  let* key := keyForStore annotation in
  on_localStorage (fun fits => Store.remove key) ;;
  modify (fun w => with_cache (delete (to_string uuid) (cache w)) w) ;;
  ret annotation.

Definition updateStoredAnnotation (annotation : loc) : M world loc :=
  let* uuid := keyForAnnotation annotation in
  let* key := keyForStore annotation in
  let* local := gets (fun w => cache w !! to_string uuid) in
  let* fields := gets (content annotation) in
  on_localStorage (fun fits =>
    Store.set fits key (VObj fields) (VNum 3600)) ;;
  ret annotation.

Definition addAnnotation (annotation : loc) : M world loc :=
  let* uuid := keyForAnnotation annotation in
  let* key := keyForStore annotation in
  let* fields := gets (content annotation) in
  let* k := on_localStorage (fun fits =>
              Store.set fits key (VObj fields) (VNum 3600)) in
  ret annotation.

(** [annotation && annotation.hasOwnProperty('uri') &&
     annotation.uri === this.URI()]. A value that is not an object is
    falsy, or has the method of [Object.prototype] and no [uri] of its
    own. *)
Definition belongs_to (annotation : value) : M world bool :=
  match annotation with
  | VObj fields =>
      let* own := hasOwnProperty fields "uri" in
      if own then
        let* uri := URI in
        ret (is_string uri (get_prop "uri" fields))
      else ret false
  | _ => ret false
  end.

(** [annotation.id] of a value *)
Definition id_of (annotation : value) : value :=
  match annotation with
  | VObj fields => get_prop "id" fields
  | _ => VUndefined
  end.

(** The [for (let annotation of annotations)] loop. *)
Fixpoint load_loop (annotations current : list value) : M world (list value) :=
  match annotations with
  | [] => ret current
  | annotation :: rest =>
      let* belongs := belongs_to annotation in
      if belongs then
        modify (fun w =>
          with_cache (<[to_string (id_of annotation) := Val annotation]>
                        (cache w)) w) ;;
        load_loop rest (current ++ [annotation])
      else load_loop rest current
  end.

Definition loadAnnotationsFromStore : M world (list value) :=
  let* annotations :=
    on_localStorage (fun fits => Store.all (VStr ANNOTATION_PREFIX)) in
  load_loop annotations [].

(** [LocalStorage.prototype.create] *)
Definition create (annotation : loc) : M world loc :=
  try_catch
    (let* uri := URI in
     write annotation "uri" (VStr uri) ;;
     let* annotation := addAnnotation annotation in
     let* id := read annotation "id" in
     modify (fun w =>
       with_cache (<[to_string id := Ref annotation]> (cache w)) w))
    (fun error => onError error) ;;
  ret annotation.

(** [LocalStorage.prototype.update] *)
Definition update (annotation : loc) : M world loc :=
  try_catch
    (updateStoredAnnotation annotation ;; ret tt)
    (fun error => onError error) ;;
  ret annotation.

(** [LocalStorage.prototype["delete"]] *)
Definition delete_ (annotation : loc) : M world loc :=
  try_catch
    (removeStoredAnnotation annotation ;; ret tt)
    (fun error => onError error) ;;
  ret annotation.

(** What [query] returns: the object literal [{results, meta: {total}}]. *)
Definition query_result (results : list value) : value :=
  VObj [("results", VArr results);
        ("meta", VObj [("total", VNum (Z.of_nat (length results)))])].

(** [LocalStorage.prototype.query]; [queryObj] is not looked at. *)
Definition query (queryObj : jsref) : M world value :=
  let* results :=
    try_catch loadAnnotationsFromStore
      (fun error => onError error ;; ret []) in
  ret (query_result results).

End LocalStorage.

(** ** src/storage/httpStorage.js *)

Module HttpStorage.
Import JS Browser.
Local Open Scope js_scope.

(** [this.options], and whether [this.onError] is a function. The prefix
    is the string it is documented to be, or [None] for [undefined] and
    [null]; the URL templates are values of any kind. *)
Record options : Type := Options {
  emulateHTTP : bool;
  emulateJSON : bool;
  headers : obj;
  onError_is_function : bool;
  prefix : option string;
  urls : obj;
}.

(** [HttpStorage.options] *)
Definition default_options : options :=
  {| emulateHTTP := false;
     emulateJSON := false;
     headers := [];
     onError_is_function := true;
     prefix := Some "/store";
     urls := [("create", VStr "/annotations");
              ("update", VStr "/annotations/{id}");
              ("destroy", VStr "/annotations/{id}");
              ("search", VStr "/annotations/")] |}.

(** [x.status] *)
Definition status_of {S} (x : value) : M S value :=
  match x with
  | VUndefined | VNull =>
      throw (TypeError "Cannot read properties of undefined")
  | VObj fields => ret (get_prop "status" fields)
  | _ => ret VUndefined
  end.

(** [v === n] for a number [n] *)
Definition is_num (n : Z) (v : value) : bool :=
  match v with VNum n' => (n' =? n)%Z | _ => false end.

(** [v == s] for a string [s], on the values a method table gives *)
Definition is_method (s : string) (v : value) : bool := is_string s v.

Section Instance.

Variable this : options.

(** [util.gettext] *)
Variable _t : string -> string.

(** The transport: what the n-th request handed to [axios] ends with. *)
Variable axios : nat -> request -> response.

Definition UUID : M world string :=
  fun w => Return (uuid_source w (entropy w)) (with_entropy (S (entropy w)) w).

Definition URI : M world string := gets href.

(** [HttpStorage.prototype._urlFor]; [url] is a string from the start, so
    [+=] concatenates whatever the template is, and [replace] is given the
    id as a replacement, which it turns into a string. *)
Definition _urlFor (action : string) (id : value) : string :=
  let id := if is_nullish id then VStr "" else id in
  let url := match prefix this with Some p => p | None => "" end in
  let url := url +:+ to_string (get_prop action (urls this)) in
  let url := replace_first "{id}" (to_string id) url in
  url +:+ "/".

(** [HttpStorage.prototype._methodFor] *)
Definition _methodFor (action : string) : value :=
  let table := [("create", VStr "POST");
                ("update", VStr "PUT");
                ("destroy", VStr "DELETE");
                ("search", VStr "GET")] in
  get_prop action table.

(** [typeof r.onError === "function"] for the receiver [r] of [_onError] *)
Definition has_onError (r : receiver) (w : world) : bool :=
  match r with
  | TheStorage => onError_is_function this
  | GlobalSelf => self_onError w
  end.

(** [HttpStorage.prototype._onError], called on the receiver [r] *)
Definition _onError (r : receiver) (xhr : value) : M world unit :=
  let* is_function := gets (has_onError r) in
  if negb is_function then ret tt
  else
    let* status := status_of xhr in
    let message :=
      if is_num 400 status then
        _t ("The annotation store did not understand the request! "
            +:+ "(Error 400)")
      else if is_num 401 status then
        _t ("You must be logged in to perform this operation! "
            +:+ "(Error 401)")
      else if is_num 403 status then
        _t ("You don't have permission to perform this operation! "
            +:+ "(Error 403)")
      else if is_num 404 status then
        _t ("Could not connect to the annotation store! " +:+ "(Error 404)")
      else if is_num 500 status then
        _t ("Internal error in annotation store! " +:+ "(Error 500)")
      else
        _t "Unknown error while speaking to annotation store!" in
    modify (fun w => with_notified (notified w ++ [(r, message, xhr)]) w).

(** [await axios(config)]: the request goes out, a failure is thrown. *)
Definition await_axios (config : request) : M world value :=
  fun w =>
    let w' := with_sent (sent w ++ [config]) w in
    match axios (length (sent w)) config with
    | Success body => Return body w'
    | Failure status => Throw (RequestFailed status) w'
    end.

(** [HttpStorage.prototype._apiRequest]. It is an async function: what it
    returns is the value its promise resolves to, what it throws is the
    reason its promise is rejected with. In the [catch] block [self] is the
    global object, no local [self] being declared, and [arguments] are
    [action] and [obj]. *)
Definition _apiRequest (action : string) (obj : loc) : M world loc :=
  let* id := read obj "id" in
  let url := _urlFor action id in
  let method := _methodFor action in
  let* uuid := UUID in
  write obj "uuid" (VStr uuid) ;;
  let* uri := URI in
  write obj "uri" (VStr uri) ;;
  write obj "user" (VStr "hello") ;;
  let* data := (if is_method "PUT" method || is_method "POST" method
                then gets (content obj) else ret []) in
  let* params := (if String.eqb action "search"
                  then let* uri := read obj "uri" in
                       let* user := read obj "user" in
                       ret [("uri", uri); ("user", user)]
                  else ret []) in
  try_catch
    (let* res := await_axios {| method := method; url := url;
                                data := data; params := params |} in
     ret tt)
    (fun error => _onError GlobalSelf (VStr action)) ;;
  ret obj.

(** [HttpStorage.prototype.create] *)
Definition create (annotation : loc) : M world loc :=
  _apiRequest "create" annotation.

(** [HttpStorage.prototype.update] *)
Definition update (annotation : loc) : M world loc :=
  _apiRequest "update" annotation.

(** [HttpStorage.prototype["delete"]] *)
Definition delete_ (annotation : loc) : M world loc :=
  _apiRequest "destroy" annotation.

(** The object literal [{results: rows, meta: obj}] *)
Record query_result : Type := QueryResult {
  results : value;
  meta : loc;
}.

(** [HttpStorage.prototype.query] *)
Definition query (queryObj : loc) : M world query_result :=
  let* obj := _apiRequest "search" queryObj in
  let* rows := read obj "rows" in
  modify (fun w => set_content obj (delete_prop "rows" (content obj w)) w) ;;
  ret {| results := rows; meta := obj |}.

End Instance.

End HttpStorage.

(** ** src/storage.js *)

Module StorageAdapter.
Import JS Browser.
Local Open Scope js_scope.

(** A promise, once settled. *)
Inductive settled (A : Type) : Type :=
| Fulfilled (a : A)
| Rejected (e : error).
Arguments Fulfilled {A} a.
Arguments Rejected {A} e.

(** What a call of an adapter method gives its caller: an exception, or a
    promise. *)
Inductive completion (A : Type) : Type :=
| Thrown (e : error)
| Promise (p : settled A).
Arguments Thrown {A} e.
Arguments Promise {A} p.

(** What the adapter does to its collaborators, with the properties the
    object handed over has at that moment. *)
Inductive event : Type :=
| HookRun (name : string) (obj : loc) (fields : JS.obj)
| StoreCall (func : string) (copy : loc) (fields : JS.obj).

Definition state : Type := world * list event.

(** The index keys ["0"], ["1"], ... of the elements [l], from [i] on. *)
Fixpoint indexed (i : nat) (l : list value) : obj :=
  match l with
  | [] => []
  | x :: l' => (Z_to_string (Z.of_nat i), x) :: indexed (S i) l'
  end.

Fixpoint chars (s : string) : list value :=
  match s with
  | EmptyString => []
  | String c s' => VStr (String c EmptyString) :: chars s'
  end.

(** The properties [for (name in v)] goes through, with [v[name]]. *)
Definition enumerable (v : value) : obj :=
  match v with
  | VObj fields => fields
  | VArr l => indexed 0 l
  | VStr s => indexed 0 (chars s)
  | _ => []
  end.

Definition fields_of (r : jsref) (w : world) : obj :=
  match r with
  | Ref l => content l w
  | Val v => enumerable v
  end.

(** [$.extend(target, source)]: every property of [source] that is not
    [undefined] is assigned to [target]. *)
Definition extend (target source : obj) : obj :=
  fold_left (fun target name =>
               match get_prop name source with
               | VUndefined => target
               | copy => set_prop name copy target
               end)
            (keys source) target.

Fixpoint strip_undefined (l : list value) : list value :=
  match l with
  | [] => []
  | x :: l' =>
      match x, strip_undefined l' with
      | VUndefined, [] => []
      | _, l'' => x :: l''
      end
  end.

(** [$.extend(true, {}, v)] on one value: plain objects and arrays are
    copied recursively, properties holding [undefined] are not copied, and an
    array ends with its last element that is not [undefined]. *)
Fixpoint deep_copy (v : value) : value :=
  match v with
  | VArr l => VArr (strip_undefined (map deep_copy l))
  | VObj fs =>
      VObj ((fix fields (fs : list (string * value)) : list (string * value) :=
               match fs with
               | [] => []
               | (k, VUndefined) :: fs' => fields fs'
               | (k, x) :: fs' => (k, deep_copy x) :: fields fs'
               end) fs)
  | _ => v
  end.

(** [var safeCopy = $.extend(true, {}, obj); delete safeCopy._local;] *)
Definition safe_copy (o : obj) : obj :=
  delete_prop "_local" (enumerable (deep_copy (VObj o))).

(** The body of the loop that empties [obj] without changing its
    identity, for the names [ks] still to be visited. *)
Fixpoint empty_loop (obj : loc) (ks : list string) : M world unit :=
  match ks with
  | [] => ret tt
  | k :: ks' =>
      let* fields := gets (content obj) in
      let* own := hasOwnProperty fields k in
      (if own then
         if negb (String.eqb k "_local") then
           modify (fun w =>
             set_content obj (delete_prop k (content obj w)) w)
         else ret tt
       else ret tt) ;;
      empty_loop obj ks'
  end.

(** [for (var k in obj) { if (obj && obj.hasOwnProperty(k)) { if (k !==
    "_local") { delete obj[k]; } } }] *)
Definition empty_but_local (obj : loc) : M world unit :=
  let* fields := gets (content obj) in
  empty_loop obj (keys fields).

Section Adapter.

(** [this.runHook(name, [obj])]: what the hooks do to the world, and how the
    promise they give settles. *)
Variable runHook : string -> loc -> world -> settled unit * world.

(** [this.store[storeFunc](copy)] coerced by [Promise.resolve]: what the
    backend does to the world, and what its result settles to. *)
Variable store : string -> loc -> world -> settled jsref * world.

(** [StorageAdapter.prototype._cycle] *)
Definition _cycle (obj : loc) (storeFunc beforeEvent afterEvent : string)
  (s : state) : completion loc * state :=
  let '(w, tr) := s in
  let tr := (tr ++ [HookRun beforeEvent obj (content obj w)])%list in
  match runHook beforeEvent obj w with
  | (Rejected e, w) => (Promise (Rejected e), (w, tr))
  | (Fulfilled _, w) =>
      let '(safeCopy, w) := alloc (safe_copy (content obj w)) w in
      let tr :=
        (tr ++ [StoreCall storeFunc safeCopy (content safeCopy w)])%list in
      match store storeFunc safeCopy w with
      | (Rejected e, w) => (Promise (Rejected e), (w, tr))
      | (Fulfilled ret, w) =>
          match empty_but_local obj w with
          | Throw e w => (Promise (Rejected e), (w, tr))
          | Return _ w =>
              let w := set_content obj
                         (extend (content obj w) (fields_of ret w)) w in
              let tr :=
                (tr ++ [HookRun afterEvent obj (content obj w)])%list in
              let '(_, w) := runHook afterEvent obj w in
              (Promise (Fulfilled obj), (w, tr))
          end
      end
  end.

(** [StorageAdapter.prototype.create]; [None] is [undefined] or [null]. *)
Definition create (obj : option loc) (s : state) : completion loc * state :=
  let '(obj, s) :=
    match obj with
    | Some l => (l, s)
    | None => let '(l, w) := alloc [] (fst s) in (l, (w, snd s))
    end in
  _cycle obj "create" "beforeAnnotationCreated" "annotationCreated" s.

(** [StorageAdapter.prototype.update] *)
Definition update (obj : loc) (s : state) : completion loc * state :=
  if is_nullish (get_prop "uuid" (content obj (fst s))) then
    (Thrown (TypeError "annotation must have an id for update()"), s)
  else
    _cycle obj "update" "beforeAnnotationUpdated" "annotationUpdated" s.

(** [StorageAdapter.prototype["delete"]] *)
Definition delete_ (obj : loc) (s : state) : completion loc * state :=
  if is_nullish (get_prop "uuid" (content obj (fst s))) then
    (Thrown (TypeError "annotation must have an id for delete()"), s)
  else
    _cycle obj "delete" "beforeAnnotationDeleted" "annotationDeleted" s.

End Adapter.

End StorageAdapter.

(** ** More of the key-value store *)

Module StoreProbe.
Import JS.

(** [typeof (Storage)]: ["function"] where the browser defines the Storage
    interface and ["undefined"] where it does not; [typeof] of a name that
    is not declared does not throw. *)
Definition typeof_Storage (defined : bool) : string :=
  if defined then "function" else "undefined".

(** [Store.prototype.isSupported]: nothing in the [try] throws, so the
    [catch] is never entered. *)
Definition isSupported (Storage_defined : bool) : bool :=
  if truthy (VStr (typeof_Storage Storage_defined)) then true else false.

End StoreProbe.

(** ** More of src/storage/httpStorage.js *)

Module HttpRequestOptions.
Import JS HttpStorage.
Local Open Scope js_scope.

(** Here [this.options] is state: [opts.headers] is the object
    [this.options.headers] itself, so that what is assigned to the one is
    assigned to the other, and the headers of the storage are the headers of
    every [opts] it has handed out. *)
Definition with_headers (h : obj) (this : options) : options :=
  {| emulateHTTP := emulateHTTP this;
     emulateJSON := emulateJSON this;
     headers := h;
     onError_is_function := onError_is_function this;
     prefix := prefix this;
     urls := urls this |}.

(** [HttpStorage.prototype.setHeader] *)
Definition setHeader (key : string) (value : JS.value) : M options unit :=
  modify (fun this => with_headers (set_prop key value (headers this)) this).

(** [obj && JSON.stringify(obj)]: a falsy [obj] itself, or its JSON text. *)
Inductive json_payload : Type :=
| Unserialized (obj : value)
| Serialized (t : text).

(** [opts.data] *)
Inductive ajax_data : Type :=
| NoData
| QueryData (obj : value)
| JsonData (data : json_payload)
| FormData (json : json_payload) (_method : option value).

(** The [opts] of a request, but for [opts.headers]. The [error] callback
    applies [_onError] to [self], which is declared here and is the
    storage. *)
Record ajax_options : Type := AjaxOptions {
  type : value;
  dataType : string;
  error_receiver : Browser.receiver;
  data : ajax_data;
  contentType : option string;
}.

(** [HttpStorage.prototype._apiRequestOptions] *)
Definition _apiRequestOptions (action : string) (obj : value)
  : M options ajax_options :=
  let method := _methodFor action in
  let* emulateHTTP := gets emulateHTTP in
  let* emulateJSON := gets emulateJSON in
  let* type :=
    (if emulateHTTP && (is_string "PUT" method || is_string "DELETE" method)
     then
       modify (fun this =>
         with_headers
           (StorageAdapter.extend (headers this)
              [("X-HTTP-Method-Override", method)]) this) ;;
       ret (VStr "POST")
     else ret method) in
  if String.eqb action "search" then
    ret {| type := type; dataType := "json";
           error_receiver := Browser.TheStorage;
           data := match obj with
                   | VUndefined => NoData
                   | _ => QueryData obj
                   end;
           contentType := None |}
  else
    let* data :=
      (if truthy obj then
         let* t := JSON_stringify obj in
         ret (match t with
              | Some t => Serialized t
              | None => Unserialized VUndefined
              end)
       else ret (Unserialized obj)) in
    if emulateJSON then
      ret {| type := type; dataType := "json";
             error_receiver := Browser.TheStorage;
             data := FormData data
                       (if emulateHTTP then Some method else None);
             contentType := None |}
    else
      ret {| type := type; dataType := "json";
             error_receiver := Browser.TheStorage;
             data := match data with
                     | Unserialized VUndefined => NoData
                     | _ => JsonData data
                     end;
             contentType := Some "application/json; charset=utf-8" |}.

End HttpRequestOptions.

(** ** More of src/storage.js *)

(** *** The [noop] and [debug] stores *)

Module SimpleStores.
Import JS Browser.
Local Open Scope js_scope.

(** A session: the page, the [counter] of [id], and what [console.debug]
    was given. *)
Record session : Type := Session {
  browser : world;
  counter : Z;
  console : list (string * value);
}.

(** The state of a session before the first call of [id]. *)
Definition start (w : world) : session :=
  {| browser := w; counter := (-1)%Z; console := [] |}.

Definition on_browser {A} (m : M world A) : M session A :=
  fun s =>
    match m (browser s) with
    | Return a w => Return a (Session w (counter s) (console s))
    | Throw e w => Throw e (Session w (counter s) (console s))
    end.

(** [counter += 1] on a double: up to 2^53 the sum is exact, and 2^53 + 1
    rounds to 2^53. *)
Definition add_one (n : Z) : Z :=
  if (n <? 2 ^ 53)%Z then (n + 1)%Z else n.

(** [id] *)
Definition id : M session value :=
  fun s =>
    let c := add_one (counter s) in
    Return (VNum c) (Session (browser s) c (console s)).

(** [trace] of [debug]; [JSON.parse(undefined)] throws. *)
Definition trace (action : string) (annotation : value) : M session unit :=
  let* t := JSON_stringify annotation in
  let* copyAnno :=
    match t with
    | Some t => JSON_parse (Some t)
    | None => throw (SyntaxError "Unexpected token in JSON")
    end in
  modify (fun s =>
    Session (browser s) (counter s)
      (console s
       ++ [("annotator.storage.debug: " +:+ action, copyAnno)])%list).

(** The object literal [{results: [], meta: {total: 0}}] *)
Definition no_results_and_total : value :=
  VObj [("results", VArr []); ("meta", VObj [("total", VNum 0)])].

(** The object literal [{results: []}] *)
Definition no_results : value := VObj [("results", VArr [])].

Module debug.

Definition create (annotation : loc) : M session loc :=
  let* i := id in
  on_browser (write annotation "id" i) ;;
  let* fields := on_browser (gets (content annotation)) in
  trace "create" (VObj fields) ;;
  ret annotation.

Definition update (annotation : loc) : M session loc :=
  let* fields := on_browser (gets (content annotation)) in
  trace "update" (VObj fields) ;;
  ret annotation.

Definition delete_ (annotation : loc) : M session loc :=
  let* fields := on_browser (gets (content annotation)) in
  trace "destroy" (VObj fields) ;;
  ret annotation.

Definition query (queryObj : value) : M session value :=
  trace "query" queryObj ;;
  ret no_results_and_total.

End debug.

Module noop.

Definition create (annotation : loc) : M session loc :=
  let* i := on_browser (read annotation "id") in
  (if is_nullish i then
     let* i := id in on_browser (write annotation "id" i)
   else ret tt) ;;
  ret annotation.

Definition update (annotation : loc) : M session loc := ret annotation.

Definition delete_ (annotation : loc) : M session loc := ret annotation.

Definition query : M session value := ret no_results.

End noop.

End SimpleStores.

(** *** [query] and [load] of the adapter *)

Module AdapterLoading.
Import JS Browser StorageAdapter.

(** What [query] and [load] do to their collaborators. *)
Inductive load_event : Type :=
| QueryCall
| LoadedHook (name : string) (arguments : list value).

Section Loading.

(** The queries the store takes, and what its [query] resolves to. *)
Variables Q D : Type.

(** [data.results]; [None] where [data] is [undefined] or [null] and
    reading a property of it throws. *)
Variable results_of : D -> option value.

(** [this.store.query(query)] coerced by [Promise.resolve]: the store
    throws, or what it returns settles. *)
Variable store_query : Q -> world -> completion D * world.

(** [this.runHook(name, arguments)] *)
Variable runHook : string -> list value -> world -> settled unit * world.

(** [StorageAdapter.prototype.query] *)
Definition query (query : Q) (s : world * list load_event)
  : completion D * (world * list load_event) :=
  let '(w, tr) := s in
  let tr := (tr ++ [QueryCall])%list in
  let '(c, w) := store_query query w in
  (c, (w, tr)).

(** [StorageAdapter.prototype.load]: the promise of the hook is dropped,
    and the callback returns [undefined]. *)
Definition load (q : Q) (s : world * list load_event)
  : completion unit * (world * list load_event) :=
  match query q s with
  | (Thrown e, s) => (Thrown e, s)
  | (Promise (Rejected e), s) => (Promise (Rejected e), s)
  | (Promise (Fulfilled data), (w, tr)) =>
      match results_of data with
      | None =>
          (Promise (Rejected
                      (TypeError "Cannot read properties of undefined")),
           (w, tr))
      | Some results =>
          let tr :=
            (tr ++ [LoadedHook "annotationsLoaded" [results]])%list in
          let '(_, w) := runHook "annotationsLoaded" [results] w in
          (Promise (Fulfilled tt), (w, tr))
      end
  end.

End Loading.

Arguments query {Q D} store_query query s.
Arguments load {Q D} results_of store_query runHook q s.

End AdapterLoading.

(** ** Statements about the code, and the inputs they are tried on *)

Module Spec.
Import JS Browser.

(** The call [m], made in the world [w] on the object [obj], ends normally
    after handing one request to [axios]; by then [obj.user] is ["hello"] and
    [obj.uuid] is the identifier that [UUID()] generated during the call, and
    a request with a body (PUT or POST) carries both. *)
Definition stamps {A} (obj : loc) (w : world) (m : M world A) : Prop :=
  exists (a : A) (w' : world) (r : request),
    m w = Return a w' /\
    sent w' = (sent w ++ [r])%list /\
    get_prop "user" (content obj w') = VStr "hello" /\
    get_prop "uuid" (content obj w') = VStr (uuid_source w (entropy w)) /\
    (HttpStorage.is_method "PUT" (method r)
     || HttpStorage.is_method "POST" (method r) = true ->
     get_prop "user" (data r) = VStr "hello" /\
     get_prop "uuid" (data r) = VStr (uuid_source w (entropy w))).

(** The properties of [obj] once [_apiRequest] has stamped it. *)
Definition stamped (obj : loc) (w : world) : JS.obj :=
  set_prop "user" (VStr "hello")
    (set_prop "uri" (VStr (href w))
       (set_prop "uuid" (VStr (uuid_source w (entropy w))) (content obj w))).

(** The request [_apiRequest] hands to [axios]. *)
Definition request_of (this : HttpStorage.options) (action : string)
  (obj : loc) (w : world) : request :=
  {| method := HttpStorage._methodFor action;
     url := HttpStorage._urlFor this action (get_prop "id" (content obj w));
     data := if HttpStorage.is_method "PUT" (HttpStorage._methodFor action)
                || HttpStorage.is_method "POST" (HttpStorage._methodFor action)
             then stamped obj w else [];
     params := if String.eqb action "search"
               then [("uri", VStr (href w)); ("user", VStr "hello")]
               else [] |}.

(** The notifications that went to the [onError] of the storage. *)
Definition to_storage (ns : list (receiver * string * value))
  : list (receiver * string * value) :=
  List.filter (fun n => match fst (fst n) with
                        | TheStorage => true
                        | GlobalSelf => false
                        end) ns.

(** A page at [http://example.org/doc] whose heap holds the annotation
    [{text: "hi"}] at location 0; the n-th identifier generated is [id-n]. *)
Definition page : world :=
  {| heap := <[0%nat := [("text", VStr "hi")]]> ∅;
     localStorage := ∅;
     cache := ∅;
     href := "http://example.org/doc";
     uuid_source := fun n => "id-" +:+ Z_to_string (Z.of_nat n);
     entropy := 0;
     quota := fun _ => true;
     self_onError := false;
     reported := [];
     notified := [];
     sent := [] |}.

(** The same page with another object at location 0. *)
Definition page_with (o : obj) : world := set_content 0%nat o page.

(** The page with the annotation [{text: "hi", _local: {highlights: []}}]. *)
Definition annotated_page : world :=
  page_with [("text", VStr "hi"); ("_local", VObj [("highlights", VArr [])])].

(** A server that answers every request with
    [{rows: [{uuid: "a"}], total: 1}]. *)
Definition one_row : nat -> request -> response :=
  fun _ _ => Success (VObj [("rows", VArr [VObj [("uuid", VStr "a")]]);
                            ("total", VNum 1)]).

(** A server that fails every request with the given status. *)
Definition failing (status : Z) : nat -> request -> response :=
  fun _ _ => Failure (Some status).

(** *** The key-value store *)

(** The string [set] hands to [setItem] for the value [v]. *)
Definition serialized (v : value) : text :=
  match v with
  | VUndefined => RawText "undefined"
  | _ => JsonText (json_doc v)
  end.

(** *** The local backend *)

(** The prefix of the keys under which annotations are stored. *)
Definition annotation_namespace : string :=
  Store.KEY_PREFIX +:+ LocalStorage.ANNOTATION_PREFIX.

(** The document of an entry of the storage, if it is a JSON text stored
    under the annotation prefix. *)
Definition record_of (kt : string * text) : option value :=
  if starts_with annotation_namespace (fst kt) then
    match snd kt with
    | JsonText d => Some d
    | RawText _ => None
    end
  else None.

(** The documents stored under the annotation prefix, in the order in which
    the browser enumerates the keys. *)
Definition stored_records (ls : gmap string text) : list value :=
  omap record_of (map_to_list ls).

(** The worlds [w] and [w'] differ at most in the heap, in the cache and in
    how many identifiers have been generated. *)
Definition same_page (w w' : world) : Prop :=
  localStorage w' = localStorage w /\
  href w' = href w /\
  uuid_source w' = uuid_source w /\
  quota w' = quota w /\
  reported w' = reported w.

(** Every string stored under the annotation prefix is a JSON text. *)
Definition well_formed (ls : gmap string text) : Prop :=
  forall k t,
    ls !! k = Some t -> starts_with annotation_namespace k = true ->
    exists d, t = JsonText d.

(** The record [v] is an object whose [uri] is the string [uri]. *)
Definition on_page (uri : string) (v : value) : bool :=
  match v with
  | VObj fields =>
      match get_own "uri" fields with
      | Some (VStr u) => String.eqb u uri
      | _ => false
      end
  | _ => false
  end.

(** The value [v] is not an object with a property named
    [hasOwnProperty]. *)
Definition ordinary (v : value) : Prop :=
  match v with
  | VObj fields => get_own "hasOwnProperty" fields = None
  | _ => True
  end.

(** Every document stored under the annotation prefix is ordinary. *)
Definition ordinary_records (ls : gmap string text) : Prop :=
  forall k d,
    ls !! k = Some (JsonText d) -> starts_with annotation_namespace k = true ->
    ordinary d.

(** An identifier is not an array or an object. *)
Definition plain (v : value) : Prop :=
  match v with
  | VArr _ | VObj _ => False
  | _ => True
  end.

(** *** The adapter *)

Import StorageAdapter.

Inductive operation : Type := Create | Update | Delete.

Definition storeFunc (op : operation) : string :=
  match op with Create => "create" | Update => "update" | Delete => "delete" end.

Definition beforeEvent (op : operation) : string :=
  match op with
  | Create => "beforeAnnotationCreated"
  | Update => "beforeAnnotationUpdated"
  | Delete => "beforeAnnotationDeleted"
  end.

Definition afterEvent (op : operation) : string :=
  match op with
  | Create => "annotationCreated"
  | Update => "annotationUpdated"
  | Delete => "annotationDeleted"
  end.

(** The adapter method for [op], called on the annotation [obj]. *)
Definition run (runHook : string -> loc -> world -> settled unit * world)
  (store : string -> loc -> world -> settled jsref * world)
  (op : operation) (obj : loc) : state -> completion loc * state :=
  match op with
  | Create => create runHook store (Some obj)
  | Update => update runHook store obj
  | Delete => delete_ runHook store obj
  end.

(** The world once [obj] has been emptied and updated with [ret]. *)
Definition merged (obj : loc) (ret : jsref) (w : world) : world :=
  let w := final_state (empty_but_local obj w) in
  set_content obj (extend (content obj w) (fields_of ret w)) w.

(** The value is [undefined], or an array or object with [undefined]
    somewhere inside. *)
Fixpoint holds_undefined (v : value) : bool :=
  match v with
  | VUndefined => true
  | VArr l => existsb holds_undefined l
  | VObj fs => existsb (fun kv => holds_undefined (snd kv)) fs
  | _ => false
  end.

(** Hooks that leave a mark on the annotation: the name of the last hook
    that ran. *)
Definition marking_hooks : string -> loc -> world -> settled unit * world :=
  fun name obj w =>
    (Fulfilled tt, set_content obj (set_prop "hook" (VStr name) (content obj w)) w).

(** A backend whose every function returns [{id: 7}]. *)
Definition returns_id_7 : string -> loc -> world -> settled jsref * world :=
  fun _ _ w => (Fulfilled (Val (VObj [("id", VNum 7)])), w).

(** A backend method as the adapter sees it. *)
Definition as_store (m : loc -> M world loc)
  : loc -> world -> settled jsref * world :=
  fun copy w =>
    match m copy w with
    | Return l w' => (Fulfilled (Ref l), w')
    | Throw e w' => (Rejected e, w')
    end.

(** The local backend as the [store] of an adapter. *)
Definition local_store : string -> loc -> world -> settled jsref * world :=
  fun func =>
    if String.eqb func "create" then as_store LocalStorage.create
    else if String.eqb func "update" then as_store LocalStorage.update
    else as_store LocalStorage.delete_.

End Spec.

(** ** Further statements about the code *)

Module Spec2.
Import JS Browser.

(** The document of an entry of the storage, if its key starts with
    [prefix] and it holds a JSON text. *)
Definition document_under (prefix : string) (kt : string * text)
  : option value :=
  if starts_with prefix (fst kt) then
    match snd kt with
    | JsonText d => Some d
    | RawText _ => None
    end
  else None.

(** *** The local backend *)

(** The identifier [getUniqueKey] settles on: the [uuid] of the annotation
    if that is truthy, a generated one otherwise. *)
Definition chosen (annotation : loc) (w : world) : value :=
  if truthy (get_prop "uuid" (content annotation w))
  then get_prop "uuid" (content annotation w)
  else VStr (uuid_source w (entropy w)).

(** The world [getUniqueKey] leaves. *)
Definition keyed (annotation : loc) (w : world) : world :=
  set_content annotation
    (set_prop "uuid" (chosen annotation w) (content annotation w))
    (if truthy (get_prop "uuid" (content annotation w)) then w
     else with_entropy (S (entropy w)) w).

(** The world once [create] has set the [uri] of the annotation. *)
Definition uri_set (annotation : loc) (w : world) : world :=
  set_content annotation
    (set_prop "uri" (VStr (href w)) (content annotation w)) w.

(** The storage key of an annotation whose identifier is [uuid]. *)
Definition record_key (uuid : value) : string :=
  Store.prefixed (LocalStorage.ANNOTATION_PREFIX +:+ to_string uuid).

(** Every identifier the page generates is a non-empty string, as those of
    [UUID()] are. *)
Definition generates_identifiers (w : world) : Prop :=
  forall n, uuid_source w n <> "".

(** A call of a method of the local backend, and the world it leaves. *)
Inductive local_call : Type :=
| Creating (annotation : loc)
| Updating (annotation : loc)
| Deleting (annotation : loc)
| Querying (queryObj : jsref).

Definition after_call (w : world) (c : local_call) : world :=
  match c with
  | Creating annotation => final_state (LocalStorage.create annotation w)
  | Updating annotation => final_state (LocalStorage.update annotation w)
  | Deleting annotation => final_state (LocalStorage.delete_ annotation w)
  | Querying queryObj => final_state (LocalStorage.query queryObj w)
  end.

(** The world after the calls [cs], made one after the other. *)
Definition after_calls (cs : list local_call) (w : world) : world :=
  fold_left after_call cs w.

(** The annotation of a [create] or an [update] has no property named
    [hasOwnProperty] when the call is made. *)
Definition ordinary_call (w : world) (c : local_call) : Prop :=
  match c with
  | Creating annotation | Updating annotation =>
      get_own "hasOwnProperty" (content annotation w) = None
  | Deleting _ | Querying _ => True
  end.

Fixpoint ordinary_calls (cs : list local_call) (w : world) : Prop :=
  match cs with
  | [] => True
  | c :: cs' => ordinary_call w c /\ ordinary_calls cs' (after_call w c)
  end.

(** *** The HTTP backend *)

(** What [_urlFor] puts in the place of the id. *)
Definition id_text (id : value) : string :=
  if is_nullish id then "" else to_string id.

(** The string [s] has no opening brace, hence no [{id}]. *)
Fixpoint no_brace (s : string) : bool :=
  match s with
  | EmptyString => true
  | String c s' => negb (Ascii.eqb c "{") && no_brace s'
  end.

(** The string [s] has no dollar, hence no replacement pattern. *)
Fixpoint no_dollar (s : string) : bool :=
  match s with
  | EmptyString => true
  | String c s' => negb (Ascii.eqb c "$") && no_dollar s'
  end.

(** The world after the transport has answered the request for [action]
    with [resp], [w] being the world in which the request went out. *)
Definition answered (_t : string -> string) (action : string)
  (resp : response) (w : world) : world :=
  match resp with
  | Success _ => w
  | Failure _ =>
      if self_onError w then
        with_notified
          (notified w
           ++ [(GlobalSelf,
                _t "Unknown error while speaking to annotation store!",
                VStr action)])%list w
      else w
  end.

(** *** The adapter over the backends *)

(** Hooks that do nothing and are fulfilled. *)
Definition silent_hooks
  : string -> loc -> world -> StorageAdapter.settled unit * world :=
  fun _ _ w => (StorageAdapter.Fulfilled tt, w).

(** The HTTP backend as the [store] of an adapter: its methods return
    promises, which the adapter waits for. *)
Definition http_store (this : HttpStorage.options) (_t : string -> string)
  (axios : nat -> request -> response)
  : string -> loc -> world -> StorageAdapter.settled jsref * world :=
  fun func =>
    if String.eqb func "create" then
      Spec.as_store (HttpStorage.create this _t axios)
    else if String.eqb func "update" then
      Spec.as_store (HttpStorage.update this _t axios)
    else Spec.as_store (HttpStorage.delete_ this _t axios).

(** The document has no property [k]. *)
Definition lacks (k : string) (doc : value) : Prop :=
  exists fields, doc = VObj fields /\ get_own k fields = None.

(** [data.results] for a value [data]. *)
Definition results_of_value (data : value) : option value :=
  match data with
  | VUndefined | VNull => None
  | VObj fields => Some (get_prop "results" fields)
  | _ => Some VUndefined
  end.

(** [query] of the local backend as the adapter calls it: it returns a
    value, and an exception of it would be thrown on. *)
Definition local_query (queryObj : jsref) (w : world)
  : StorageAdapter.completion value * world :=
  match LocalStorage.query queryObj w with
  | Return data w' => (StorageAdapter.Promise (StorageAdapter.Fulfilled data), w')
  | Throw e w' => (StorageAdapter.Thrown e, w')
  end.

(** [query] of the HTTP backend as the adapter calls it: it returns a
    promise. *)
Definition http_query (this : HttpStorage.options) (_t : string -> string)
  (axios : nat -> request -> response) (queryObj : loc) (w : world)
  : StorageAdapter.completion HttpStorage.query_result * world :=
  match HttpStorage.query this _t axios queryObj w with
  | Return data w' => (StorageAdapter.Promise (StorageAdapter.Fulfilled data), w')
  | Throw e w' => (StorageAdapter.Promise (StorageAdapter.Rejected e), w')
  end.

(** [data.results] for what [query] of the HTTP backend resolves to, which
    is an object. *)
Definition results_of_http (data : HttpStorage.query_result) : option value :=
  Some (HttpStorage.results data).

(** An [annotationsLoaded] hook that is rejected. *)
Definition failing_loaded_hook
  : string -> list value -> world -> StorageAdapter.settled unit * world :=
  fun _ _ w => (StorageAdapter.Rejected (TypeError "cannot draw"), w).

(** *** The [noop] and [debug] stores *)

(** The annotations [annotations] created one after the other. *)
Fixpoint created_in_turn (create : loc -> M SimpleStores.session loc)
  (annotations : list loc) : M SimpleStores.session unit :=
  match annotations with
  | [] => ret tt
  | annotation :: rest =>
      bind (create annotation) (fun _ => created_in_turn create rest)
  end.

(** The [id] of the annotation at [l]. *)
Definition id_in (s : SimpleStores.session) (l : loc) : value :=
  get_prop "id" (content l (SimpleStores.browser s)).

End Spec2.

(** * Properties *)

(** ** Objects *)

Module ObjFacts.
Import JS.

Example to_string_values :
  map to_string [VUndefined; VNum 7; VNum (-3); VStr "a";
                 VArr [VNum 1; VNull; VArr [VNum 2; VNum 3]]; VObj []]
  = ["undefined"; "7"; "-3"; "a"; "1,,2,3"; "[object Object]"].
Proof. reflexivity. Qed.

Example json_doc_drops_undefined :
  json_doc (VObj [("a", VUndefined); ("b", VArr [VUndefined; VNum 1])])
  = VObj [("b", VArr [VNull; VNum 1])].
Proof. reflexivity. Qed.

Lemma get_own_delete_prop_eq (k : string) (o : obj) :
  get_own k (delete_prop k o) = None.
Proof.
  induction o as [|[k' v] o IH]; simpl; [reflexivity|].
  destruct (String.eqb k k') eqn:E; [exact IH|].
  simpl. rewrite E. exact IH.
Qed.

Lemma get_own_delete_prop_ne (k k' : string) (o : obj) :
  k <> k' -> get_own k' (delete_prop k o) = get_own k' o.
Proof.
  intros Hne. induction o as [|[k0 v] o IH]; simpl; [reflexivity|].
  destruct (String.eqb k k0) eqn:E.
  - apply String.eqb_eq in E. subst k0.
    destruct (String.eqb k' k) eqn:E'.
    + apply String.eqb_eq in E'. congruence.
    + exact IH.
  - simpl. destruct (String.eqb k' k0); [reflexivity | exact IH].
Qed.

Lemma get_own_set_prop_eq (k : string) (v : value) (o : obj) :
  get_own k (set_prop k v o) = Some v.
Proof.
  induction o as [|[k' v'] o IH]; simpl.
  - now rewrite String.eqb_refl.
  - destruct (String.eqb k k') eqn:E; simpl.
    + now rewrite String.eqb_refl.
    + rewrite E. exact IH.
Qed.

Lemma get_own_set_prop_ne (k k' : string) (v : value) (o : obj) :
  k <> k' -> get_own k' (set_prop k v o) = get_own k' o.
Proof.
  intros Hne. induction o as [|[k0 v0] o IH]; simpl.
  - destruct (String.eqb k' k) eqn:E; [|reflexivity].
    apply String.eqb_eq in E. congruence.
  - destruct (String.eqb k k0) eqn:E; simpl.
    + apply String.eqb_eq in E. subst k0.
      destruct (String.eqb k' k) eqn:E'.
      * apply String.eqb_eq in E'. congruence.
      * now apply get_own_delete_prop_ne.
    + destruct (String.eqb k' k0); [reflexivity | exact IH].
Qed.

Lemma get_prop_set_prop_eq (k : string) (v : value) (o : obj) :
  get_prop k (set_prop k v o) = v.
Proof. unfold get_prop. now rewrite get_own_set_prop_eq. Qed.

Lemma get_prop_set_prop_ne (k k' : string) (v : value) (o : obj) :
  k <> k' -> get_prop k' (set_prop k v o) = get_prop k' o.
Proof. intros. unfold get_prop. now rewrite get_own_set_prop_ne. Qed.

Lemma get_prop_delete_prop_ne (k k' : string) (o : obj) :
  k <> k' -> get_prop k' (delete_prop k o) = get_prop k' o.
Proof. intros. unfold get_prop. now rewrite get_own_delete_prop_ne. Qed.

Lemma get_own_In (k : string) (v : value) (o : obj) :
  get_own k o = Some v -> In k (keys o).
Proof.
  induction o as [|[k' v'] o IH]; simpl; [discriminate|].
  destruct (String.eqb k k') eqn:E.
  - apply String.eqb_eq in E. now left.
  - intros H. right. now apply IH.
Qed.

(** [s.slice(p.length)] gives back what follows the prefix [p]. *)
Lemma prefix_slice (p s : string) :
  String.prefix p s = true -> p +:+ slice (String.length p) s = s.
Proof.
  revert s. induction p as [|c p IH]; intros s H.
  - reflexivity.
  - destruct s as [|c' s]; simpl in H; [discriminate|].
    destruct (Ascii.ascii_dec c c') as [->|]; [|discriminate].
    change (String c' (p +:+ slice (String.length p) s) = String c' s).
    f_equal. now apply IH.
Qed.

Lemma prefix_app (p q s : string) :
  String.prefix (p +:+ q) s = true -> String.prefix p s = true.
Proof.
  revert s. induction p as [|c p IH]; intros s H.
  - now destruct s.
  - change (String.prefix (String c (p +:+ q)) s = true) in H.
    destruct s as [|c' s]; simpl in *; [discriminate|].
    destruct (Ascii.ascii_dec c c'); [now apply IH | discriminate].
Qed.

Lemma prefix_app_same (p s : string) : String.prefix p (p +:+ s) = true.
Proof.
  induction p as [|c p IH].
  - now destruct s.
  - change (String.prefix (String c p) (String c (p +:+ s)) = true).
    simpl. destruct (Ascii.ascii_dec c c); [exact IH | congruence].
Qed.

End ObjFacts.

(** ** The heap *)

Module BrowserFacts.
Import JS Browser.

Lemma content_set_content_eq (l : loc) (o : obj) (w : world) :
  content l (set_content l o w) = o.
Proof. unfold content, set_content. simpl. now rewrite lookup_insert_eq. Qed.

Lemma content_set_content_ne (l l' : loc) (o : obj) (w : world) :
  l <> l' -> content l' (set_content l o w) = content l' w.
Proof.
  intros. unfold content, set_content. simpl. now rewrite lookup_insert_ne.
Qed.

Lemma alloc_fresh (o : obj) (w : world) :
  heap w !! fst (alloc o w) = None /\
  content (fst (alloc o w)) (snd (alloc o w)) = o.
Proof.
  unfold alloc. simpl. split.
  - apply not_elem_of_dom. apply is_fresh.
  - apply content_set_content_eq.
Qed.

End BrowserFacts.

(** ** The key-value store *)

Module StoreFacts.
Import JS Store Spec.

(** C7. [set(key, value, time)] with a falsy [time] writes nothing: whether
    it returns or throws, the storage is what it was, and a [get] of a key
    that was not stored before returns [null]. *)
Theorem set_without_expiry_writes_nothing
  (fits : storage -> bool) (key : string) (value time : JS.value)
  (ls : storage) :
  truthy time = false ->
  final_state (set fits key value time ls) = ls /\
  (ls !! prefixed key = None ->
   get key (final_state (set fits key value time ls)) = Return VNull ls).
Proof.
  intros Htime.
  assert (Hfinal : final_state (set fits key value time ls) = ls).
  { unfold set, bind, JSON_stringify.
    destruct (has_bigint value); [reflexivity|].
    destruct value; simpl; rewrite Htime; reflexivity. }
  split; [exact Hfinal|].
  intros Habsent. rewrite Hfinal.
  unfold get, bind, getItem, gets. rewrite Habsent. simpl.
  unfold remove, removeItem, modify, bind, JSON_parse, ret.
  now rewrite delete_id.
Qed.

Lemma set_without_expiry_writes_nothing_witness :
  truthy (VNum 0) = false /\
  final_state (set (fun _ => true) "name" (VStr "Aron") (VNum 0) ∅) = ∅ /\
  get "name" (final_state (set (fun _ => true) "name" (VStr "Aron") (VNum 0) ∅))
  = Return VNull ∅.
Proof.
  split; [reflexivity|].
  destruct (set_without_expiry_writes_nothing
              (fun _ => true) "name" (VStr "Aron") (VNum 0) ∅ eq_refl)
    as [H1 H2].
  split; [exact H1 | apply H2; reflexivity].
Defined.

(** C8, counterexample. [set] does not return when the value cannot be
    serialized: [JSON.stringify] is called before the [try]. *)
Lemma set_raises_on_bigint :
  ~ exists ls',
      set (fun _ => true) "key" (VObj [("n", VBigInt 1)]) (VNum 3000) ∅
      = Return tt ls'.
Proof. intros [ls' H]. vm_compute in H. discriminate. Qed.

(** C8, as amended. [set] throws the TypeError of [JSON.stringify] to its
    caller and writes nothing; when the value can be serialized, [set]
    returns if [time] is falsy, having written nothing, and if the browser
    accepts the write, having written the serialized value. *)
Theorem set_raises_or_returns
  (fits : storage -> bool) (key : string) (value time : JS.value)
  (ls : storage) :
  (has_bigint value = true ->
   set fits key value time ls
   = Throw (TypeError "Do not know how to serialize a BigInt") ls) /\
  (has_bigint value = false -> truthy time = false ->
   set fits key value time ls = Return tt ls) /\
  (has_bigint value = false -> truthy time = true ->
   fits (<[prefixed key := serialized value]> ls) = true ->
   set fits key value time ls
   = Return tt (<[prefixed key := serialized value]> ls)).
Proof.
  unfold set, bind, JSON_stringify. repeat split.
  - now intros ->.
  - intros -> Ht. now destruct value; simpl; rewrite Ht.
  - intros -> Ht Hfits.
    destruct value; simpl in *; rewrite Ht;
      unfold try_catch, setItem; simpl; now rewrite Hfits.
Qed.

Lemma set_raises_or_returns_witness :
  set (fun _ => true) "key" (VObj [("n", VBigInt 1)]) (VNum 3000) ∅
  = Throw (TypeError "Do not know how to serialize a BigInt") ∅ /\
  set (fun _ => true) "key" (VNum 12345) VUndefined ∅ = Return tt ∅ /\
  set (fun _ => true) "temporary" (VObj [("user", VNum 1)]) (VNum 3000) ∅
  = Return tt
      (<[prefixed "temporary" := JsonText (VObj [("user", VNum 1)])]> ∅).
Proof.
  split; [|split].
  - apply (set_raises_or_returns (fun _ => true) "key"
             (VObj [("n", VBigInt 1)]) (VNum 3000) ∅). reflexivity.
  - apply (set_raises_or_returns (fun _ => true) "key" (VNum 12345)
             VUndefined ∅); reflexivity.
  - apply (set_raises_or_returns (fun _ => true) "temporary"
             (VObj [("user", VNum 1)]) (VNum 3000) ∅); reflexivity.
Defined.

(** When the browser refuses the write, the [catch] block calls
    [this.publish], which [Store] does not have. *)
Example set_on_a_refused_write :
  set (fun _ => false) "key" (VObj [("user", VNum 1)]) (VNum 3000) ∅
  = Throw (TypeError "this.publish is not a function") ∅.
Proof. reflexivity. Qed.

(** C9. [clear()] throws a TypeError in every state of the storage and
    removes nothing. *)
Theorem clear_throws (ls : storage) :
  clear ls = Throw (TypeError "localStorage is not iterable") ls.
Proof. reflexivity. Qed.

End StoreFacts.

(** ** The local backend *)

Module LocalFacts.
Import JS Browser LocalStorage Spec.

(** *** Reading the stored records *)

Lemma namespace_key (k : string) :
  starts_with annotation_namespace k = true ->
  Store.prefixed (slice (String.length Store.KEY_PREFIX) k) = k.
Proof.
  intros H. apply ObjFacts.prefix_slice.
  exact (ObjFacts.prefix_app Store.KEY_PREFIX ANNOTATION_PREFIX k H).
Qed.

Lemma get_stored (ls : gmap string text) (k : string) (d : value) :
  ls !! k = Some (JsonText d) ->
  starts_with annotation_namespace k = true ->
  Store.get (slice (String.length Store.KEY_PREFIX) k) ls = Return d ls.
Proof.
  intros Hk Hp. unfold Store.get, bind, Store.getItem, gets.
  rewrite (namespace_key k Hp), Hk. reflexivity.
Qed.

Lemma all_loop_spec (ls : gmap string text) (kts : list (string * text))
  (values : list value) :
  well_formed ls ->
  (forall k t, In (k, t) kts -> ls !! k = Some t) ->
  Store.all_loop annotation_namespace (kts.*1) values ls
  = Return (values ++ omap record_of kts)%list ls.
Proof.
  intros Hwf. revert values.
  induction kts as [|[k t] kts IH]; intros values Hin.
  - simpl. now rewrite app_nil_r.
  - assert (Hk : ls !! k = Some t) by (apply Hin; now left).
    rewrite fmap_cons. cbn [Store.all_loop fst omap list_omap].
    unfold bind at 1, gets at 1. rewrite Hk.
    rewrite bool_decide_true by eauto. rewrite andb_true_l.
    unfold record_of at 1. cbn [fst snd].
    destruct (starts_with annotation_namespace k) eqn:Hp.
    + destruct (Hwf k t Hk Hp) as [d ->].
      unfold bind at 1. rewrite (get_stored ls k d Hk Hp).
      rewrite IH by (intros; apply Hin; now right).
      now rewrite <- app_assoc.
    + apply IH. intros; apply Hin; now right.
Qed.

Lemma all_spec (ls : gmap string text) :
  well_formed ls ->
  Store.all (VStr ANNOTATION_PREFIX) ls = Return (stored_records ls) ls.
Proof.
  intros Hwf. unfold Store.all, bind, gets. simpl truthy. cbv iota.
  change (Store.prefixed (to_string (VStr ANNOTATION_PREFIX)))
    with annotation_namespace.
  rewrite (all_loop_spec ls (map_to_list ls) [] Hwf).
  - reflexivity.
  - intros k t H. apply elem_of_map_to_list. now apply list_elem_of_In.
Qed.

(** *** The identifier of an annotation *)

Lemma same_page_refl (w : world) : same_page w w.
Proof. now repeat split. Qed.

Lemma same_page_trans (w1 w2 w3 : world) :
  same_page w1 w2 -> same_page w2 w3 -> same_page w1 w3.
Proof.
  unfold same_page. intros (?&?&?&?&?) (?&?&?&?&?).
  repeat split; congruence.
Qed.

Lemma getUniqueKey_spec (annotation : loc) (w : world) :
  exists uuid w',
    getUniqueKey annotation w = Return uuid w' /\
    content annotation w' = set_prop "uuid" uuid (content annotation w) /\
    (uuid = get_prop "uuid" (content annotation w) /\ truthy uuid = true
     \/ exists s, uuid = VStr s) /\
    same_page w w'.
Proof.
  unfold getUniqueKey, bind, read, write, gets, modify, UUID, ret.
  destruct (truthy (get_prop "uuid" (content annotation w))) eqn:Ht;
    cbv beta iota.
  - rewrite !BrowserFacts.content_set_content_eq.
    rewrite ObjFacts.get_prop_set_prop_eq.
    do 2 eexists. split; [reflexivity|].
    rewrite BrowserFacts.content_set_content_eq.
    repeat split; auto.
  - change (content annotation (with_entropy (S (entropy w)) w))
      with (content annotation w).
    rewrite !BrowserFacts.content_set_content_eq.
    rewrite ObjFacts.get_prop_set_prop_eq.
    do 2 eexists. split; [reflexivity|].
    rewrite BrowserFacts.content_set_content_eq.
    repeat split; eauto.
Qed.

(** *** Writing a record *)

Lemma set_with_expiry (fits : gmap string text -> bool) (key : string)
  (fields : obj) (ls : gmap string text) :
  Store.set fits key (VObj fields) (VNum 3600) ls
  = if has_bigint (VObj fields) then
      Throw (TypeError "Do not know how to serialize a BigInt") ls
    else if fits (<[Store.prefixed key := JsonText (json_doc (VObj fields))]> ls)
    then Return tt
           (<[Store.prefixed key := JsonText (json_doc (VObj fields))]> ls)
    else Throw (TypeError "this.publish is not a function") ls.
Proof.
  unfold Store.set, bind, JSON_stringify.
  destruct (has_bigint (VObj fields)); [reflexivity|].
  unfold ret, try_catch, Store.setItem. cbn [truthy Z.eqb negb text_of].
  now destruct (fits _).
Qed.

Lemma addAnnotation_spec (annotation : loc) (w : world) :
  exists uuid w2,
    get_own "uuid" (content annotation w2) = Some uuid /\
    (uuid = get_prop "uuid" (content annotation w) /\ truthy uuid = true
     \/ exists s, uuid = VStr s) /\
    (forall k, k <> "uuid" ->
       get_own k (content annotation w2) = get_own k (content annotation w)) /\
    same_page w w2 /\
    addAnnotation annotation w
    = match Store.set (quota w) (ANNOTATION_PREFIX +:+ to_string uuid)
              (VObj (content annotation w2)) (VNum 3600) (localStorage w) with
      | Return _ ls => Return annotation (with_localStorage ls w2)
      | Throw e ls => Throw e (with_localStorage ls w2)
      end.
Proof.
  destruct (getUniqueKey_spec annotation w)
    as (u1 & w1 & Hg1 & Hc1 & Hu1 & Hp1).
  destruct (getUniqueKey_spec annotation w1)
    as (u2 & w2 & Hg2 & Hc2 & Hu2 & Hp2).
  exists u2, w2.
  assert (Hp : same_page w w2) by (eapply same_page_trans; eauto).
  split; [|split; [|split; [|split]]].
  - rewrite Hc2. apply ObjFacts.get_own_set_prop_eq.
  - destruct Hu2 as [[-> Ht] | ?]; [|now right].
    rewrite Hc1, ObjFacts.get_prop_set_prop_eq in *.
    destruct Hu1 as [[-> ?] | ?]; [now left | now right].
  - intros k Hk. rewrite Hc2, Hc1.
    now rewrite !ObjFacts.get_own_set_prop_ne by congruence.
  - exact Hp.
  - unfold addAnnotation, keyForStore, keyForAnnotation, bind.
    rewrite Hg1, Hg2. unfold ret, gets, on_localStorage.
    destruct Hp as (Hls & _ & _ & Hq & _).
    rewrite Hq, Hls. now destruct (Store.set _ _ _ _ _).
Qed.

Lemma app_one_neq {A} (l : list A) (x : A) : (l ++ [x])%list <> l.
Proof.
  intros H. apply (f_equal (@length A)) in H.
  rewrite length_app in H. simpl in H. lia.
Qed.

Lemma create_success (annotation : loc) (w w1 : world) :
  create annotation w = Return annotation w1 ->
  reported w1 = reported w ->
  exists uuid,
    get_own "uuid" (content annotation w1) = Some uuid /\
    (uuid = get_prop "uuid" (content annotation w) /\ truthy uuid = true
     \/ exists s, uuid = VStr s) /\
    get_own "uri" (content annotation w1) = Some (VStr (href w)) /\
    has_bigint (VObj (content annotation w1)) = false /\
    localStorage w1
    = <[Store.prefixed (ANNOTATION_PREFIX +:+ to_string uuid)
        := JsonText (json_doc (VObj (content annotation w1)))]>
        (localStorage w) /\
    href w1 = href w /\
    (forall k, k <> "uuid" -> k <> "uri" ->
       get_own k (content annotation w1) = get_own k (content annotation w)).
Proof.
  unfold create, URI, write, bind, gets, modify, try_catch, read, ret, onError.
  cbv beta iota.
  set (w0 := set_content annotation _ w).
  destruct (addAnnotation_spec annotation w0)
    as (uuid & w2 & Hu & Hor & Hother & Hp & Hadd).
  assert (Hc0 : content annotation w0
                = set_prop "uri" (VStr (href w)) (content annotation w))
    by apply BrowserFacts.content_set_content_eq.
  destruct Hp as (Hls & Hh & _ & _ & Hrep).
  change (localStorage w0) with (localStorage w) in *.
  change (href w0) with (href w) in *.
  change (reported w0) with (reported w) in *.
  change (quota w0) with (quota w) in *.
  rewrite Hadd, set_with_expiry. clear Hadd.
  destruct (has_bigint (VObj (content annotation w2))) eqn:Hbig.
  { unfold modify. intros [= <-] Hr. simpl in Hr. rewrite Hrep in Hr.
    now apply app_one_neq in Hr. }
  destruct (quota w _) eqn:Hfits.
  2:{ unfold modify. intros [= <-] Hr. simpl in Hr. rewrite Hrep in Hr.
      now apply app_one_neq in Hr. }
  unfold gets. intros [= <-] _.
  change (content annotation (with_cache _ (with_localStorage _ w2)))
    with (content annotation w2).
  exists uuid. split; [exact Hu|].
  split; [|split; [|split; [|split; [|split]]]].
  - destruct Hor as [[-> Ht] | ?]; [left | now right].
    rewrite Hc0 in *.
    now rewrite ObjFacts.get_prop_set_prop_ne in * by discriminate.
  - rewrite Hother by discriminate. rewrite Hc0.
    apply ObjFacts.get_own_set_prop_eq.
  - exact Hbig.
  - reflexivity.
  - exact Hh.
  - intros k Hk Hk'. rewrite Hother by exact Hk. rewrite Hc0.
    apply ObjFacts.get_own_set_prop_ne. congruence.
Qed.

(** *** Loading the records of the page *)

Lemma In_stored_records (ls : gmap string text) (v : value) :
  In v (stored_records ls) <->
  exists k,
    starts_with annotation_namespace k = true /\ ls !! k = Some (JsonText v).
Proof.
  unfold stored_records. rewrite <- list_elem_of_In, list_elem_of_omap.
  split.
  - intros ([k t] & Hin & Hrec). apply elem_of_map_to_list in Hin.
    unfold record_of in Hrec. simpl in Hrec.
    destruct (starts_with annotation_namespace k) eqn:Hp; [|discriminate].
    destruct t; [|discriminate]. injection Hrec as ->. eauto.
  - intros (k & Hp & Hk). exists (k, JsonText v). split.
    + now apply elem_of_map_to_list.
    + unfold record_of. simpl. now rewrite Hp.
Qed.

(** On an ordinary record the test of the loop answers whether the record
    is on the page. *)
Lemma belongs_to_ordinary (v : value) (w : world) :
  ordinary v -> belongs_to v w = Return (on_page (href w) v) w.
Proof.
  destruct v as [| | | | | |l|fields]; try reflexivity.
  intros Hord. simpl in Hord.
  unfold belongs_to, bind, hasOwnProperty, has_own. rewrite Hord.
  unfold ret, on_page, get_prop.
  destruct (get_own "uri" fields) as [u|]; [|reflexivity].
  unfold URI, gets. now destruct u.
Qed.

(** On a record with a property named [hasOwnProperty] it throws. *)
Lemma belongs_to_shadowed (fields : obj) (w : world) :
  get_own "hasOwnProperty" fields <> None ->
  belongs_to (VObj fields) w
  = Throw (TypeError "hasOwnProperty is not a function") w.
Proof.
  intros H. unfold belongs_to, bind, hasOwnProperty, has_own.
  now destruct (get_own "hasOwnProperty" fields).
Qed.

Lemma belongs_to_frame (v : value) (w : world) :
  final_state (belongs_to v w) = w.
Proof.
  destruct v as [| | | | | |l|fields]; try reflexivity.
  unfold belongs_to, bind, hasOwnProperty.
  destruct (has_own "hasOwnProperty" fields); [reflexivity|].
  unfold ret. now destruct (has_own "uri" fields).
Qed.

(** The loop changes the cache only, whether it returns or throws. *)
Lemma load_loop_frame (annotations current : list value) (w : world) :
  same_page w (final_state (load_loop annotations current w)).
Proof.
  revert current w.
  induction annotations as [|a rest IH]; intros current w.
  - apply same_page_refl.
  - cbn [load_loop]. unfold bind at 1.
    pose proof (belongs_to_frame a w) as Hf.
    destruct (belongs_to a w) as [[] w0 | e w0]; simpl in Hf; subst w0.
    + unfold bind at 1, modify at 1.
      exact (IH (current ++ [a])%list (with_cache _ w)).
    + apply IH.
    + apply same_page_refl.
Qed.

Lemma load_loop_spec (annotations current : list value) (w : world) :
  (forall a, In a annotations -> ordinary a) ->
  exists w',
    load_loop annotations current w
    = Return (current ++ List.filter (on_page (href w)) annotations)%list w'
    /\ same_page w w'.
Proof.
  revert current w.
  induction annotations as [|a rest IH]; intros current w Hord.
  - exists w. simpl. unfold ret. rewrite app_nil_r.
    split; [reflexivity | apply same_page_refl].
  - cbn [load_loop List.filter]. unfold bind at 1.
    rewrite belongs_to_ordinary by (apply Hord; now left).
    destruct (on_page (href w) a).
    + unfold bind at 1, modify at 1.
      set (w0 := with_cache _ w).
      destruct (IH (current ++ [a])%list w0) as (w' & Hl & Hp);
        [intros; apply Hord; now right|].
      exists w'. rewrite Hl. rewrite <- app_assoc. split; [reflexivity|].
      exact Hp.
    + apply IH. intros; apply Hord; now right.
Qed.

(** [query] leaves the storage as it is. *)
Lemma query_frame (queryObj : jsref) (w : world) :
  well_formed (localStorage w) ->
  localStorage (final_state (query queryObj w)) = localStorage w.
Proof.
  intros Hwf.
  unfold query, bind, try_catch, loadAnnotationsFromStore, on_localStorage.
  unfold bind. rewrite (all_spec _ Hwf).
  pose proof (load_loop_frame (stored_records (localStorage w)) []
                (with_localStorage (localStorage w) w)) as (Hl & _).
  destruct (load_loop _ _ _) as [rs w' | e w']; simpl in *;
    unfold ret; simpl; exact Hl.
Qed.

Lemma query_spec (queryObj : jsref) (w : world) :
  well_formed (localStorage w) ->
  ordinary_records (localStorage w) ->
  exists w',
    query queryObj w
    = Return (query_result
                (List.filter (on_page (href w))
                   (stored_records (localStorage w)))) w' /\
    same_page w w'.
Proof.
  intros Hwf Hord.
  unfold query, bind, try_catch, loadAnnotationsFromStore, on_localStorage.
  unfold bind. rewrite (all_spec _ Hwf).
  destruct (load_loop_spec (stored_records (localStorage w)) []
              (with_localStorage (localStorage w) w)) as (w' & Hl & Hp).
  - intros a Ha. apply In_stored_records in Ha as (k & Hk & Hls).
    exact (Hord k a Hls Hk).
  - rewrite Hl. exists w'. split; [reflexivity | exact Hp].
Qed.

(** *** JSON documents *)

Lemma json_doc_plain (v : value) : plain v -> json_doc v = v.
Proof. now destruct v. Qed.

Lemma get_own_json_doc (k : string) (v : value) (fields : obj) :
  get_own k fields = Some v -> v <> VUndefined ->
  exists fields',
    json_doc (VObj fields) = VObj fields' /\
    get_own k fields' = Some (json_doc v).
Proof.
  intros Hk Hv. induction fields as [|[k' x] fields IH]; [discriminate|].
  simpl in Hk. destruct (String.eqb k k') eqn:E.
  - injection Hk as ->.
    destruct v; try congruence;
      (eexists; split; [reflexivity|]; simpl; now rewrite E).
  - destruct (IH Hk) as (fields' & Hj & Hg). simpl in Hj.
    injection Hj as Hj.
    destruct x;
      (eexists; split; [simpl; rewrite Hj; reflexivity|];
       simpl; rewrite ?E; exact Hg).
Qed.

Lemma get_own_json_doc_none (k : string) (fields : obj) :
  get_own k fields = None ->
  exists fields',
    json_doc (VObj fields) = VObj fields' /\ get_own k fields' = None.
Proof.
  induction fields as [|[k' x] fields IH]; intros Hk.
  - now exists [].
  - simpl in Hk. destruct (String.eqb k k') eqn:E; [discriminate|].
    destruct (IH Hk) as (fields' & Hj & Hg). simpl in Hj.
    injection Hj as Hj.
    destruct x;
      (eexists; split; [simpl; rewrite Hj; reflexivity|];
       simpl; rewrite ?E; exact Hg).
Qed.

Lemma json_doc_ordinary (fields : obj) :
  get_own "hasOwnProperty" fields = None -> ordinary (json_doc (VObj fields)).
Proof.
  intros H. destruct (get_own_json_doc_none _ _ H) as (fields' & -> & Hg).
  exact Hg.
Qed.

Lemma namespace_prefixed (x : string) :
  starts_with annotation_namespace
    (Store.prefixed (ANNOTATION_PREFIX +:+ x)) = true.
Proof.
  change (Store.prefixed (ANNOTATION_PREFIX +:+ x))
    with (annotation_namespace +:+ x).
  apply ObjFacts.prefix_app_same.
Qed.

Lemma well_formed_insert (ls : gmap string text) (k : string) (d : value) :
  well_formed ls -> well_formed (<[k := JsonText d]> ls).
Proof.
  intros Hwf k' t Hk Hp. destruct (decide (k = k')) as [-> | Hne].
  - rewrite lookup_insert_eq in Hk. injection Hk as <-. eauto.
  - rewrite lookup_insert_ne in Hk by exact Hne. eauto.
Qed.

Lemma ordinary_records_insert (ls : gmap string text) (k : string)
  (d : value) :
  ordinary_records ls -> ordinary d ->
  ordinary_records (<[k := JsonText d]> ls).
Proof.
  intros Hord Hd k' d' Hk Hp. destruct (decide (k = k')) as [-> | Hne].
  - rewrite lookup_insert_eq in Hk. now injection Hk as <-.
  - rewrite lookup_insert_ne in Hk by exact Hne. eauto.
Qed.




(** *** The storage stays well formed *)

Lemma well_formed_delete (ls : gmap string text) (k : string) :
  well_formed ls -> well_formed (delete k ls).
Proof.
  intros Hwf k' t Hk Hp. apply lookup_delete_Some in Hk as [_ Hk]. eauto.
Qed.

Lemma updateStoredAnnotation_spec (annotation : loc) (w : world) :
  exists uuid w2,
    same_page w w2 /\
    (forall k, k <> "uuid" ->
       get_own k (content annotation w2) = get_own k (content annotation w)) /\
    updateStoredAnnotation annotation w
    = match Store.set (quota w) (ANNOTATION_PREFIX +:+ to_string uuid)
              (VObj (content annotation w2)) (VNum 3600) (localStorage w) with
      | Return _ ls => Return annotation (with_localStorage ls w2)
      | Throw e ls => Throw e (with_localStorage ls w2)
      end.
Proof.
  destruct (getUniqueKey_spec annotation w)
    as (u1 & w1 & Hg1 & Hc1 & _ & Hp1).
  destruct (getUniqueKey_spec annotation w1)
    as (u2 & w2 & Hg2 & Hc2 & _ & Hp2).
  exists u2, w2.
  assert (Hp : same_page w w2) by (eapply same_page_trans; eauto).
  split; [exact Hp|]. split.
  { intros k Hk. rewrite Hc2, Hc1.
    now rewrite !ObjFacts.get_own_set_prop_ne by congruence. }
  unfold updateStoredAnnotation, keyForStore, keyForAnnotation, bind.
  rewrite Hg1, Hg2. unfold ret, gets, on_localStorage.
  destruct Hp as (Hls & _ & _ & Hq & _).
  rewrite Hq, Hls. now destruct (Store.set _ _ _ _ _).
Qed.

Lemma set_keeps_well_formed (fits : gmap string text -> bool) (key : string)
  (fields : obj) (ls : gmap string text) :
  well_formed ls ->
  well_formed (final_state (Store.set fits key (VObj fields) (VNum 3600) ls)).
Proof.
  intros Hwf. rewrite set_with_expiry.
  destruct (has_bigint (VObj fields)); [exact Hwf|].
  destruct (fits _); [now apply well_formed_insert | exact Hwf].
Qed.

(** [create], [update], [delete] and [query] write JSON texts only, or
    nothing. *)
Lemma local_backend_keeps_well_formed (annotation : loc) (queryObj : jsref)
  (w : world) :
  well_formed (localStorage w) ->
  well_formed (localStorage (final_state (create annotation w))) /\
  well_formed (localStorage (final_state (update annotation w))) /\
  well_formed (localStorage (final_state (delete_ annotation w))) /\
  well_formed (localStorage (final_state (query queryObj w))).
Proof.
  intros Hwf. split; [|split; [|split]].
  - unfold create, bind at 1, try_catch, bind at 1, URI, gets, bind at 1,
      write, modify.
    set (w0 := set_content annotation _ w).
    destruct (addAnnotation_spec annotation w0)
      as (uuid & w2 & _ & _ & _ & _ & Hadd).
    unfold bind at 1. rewrite Hadd.
    pose proof (set_keeps_well_formed (quota w0)
                  (ANNOTATION_PREFIX +:+ to_string uuid)
                  (content annotation w2) (localStorage w0) Hwf) as Hset.
    destruct (Store.set _ _ _ _ _); exact Hset.
  - unfold update, bind at 1, try_catch, bind at 1.
    destruct (updateStoredAnnotation_spec annotation w)
      as (uuid & w2 & _ & _ & Hupd).
    rewrite Hupd.
    pose proof (set_keeps_well_formed (quota w)
                  (ANNOTATION_PREFIX +:+ to_string uuid)
                  (content annotation w2) (localStorage w) Hwf) as Hset.
    destruct (Store.set _ _ _ _ _); exact Hset.
  - unfold delete_, bind at 1, try_catch, bind at 1, removeStoredAnnotation,
      keyForStore, keyForAnnotation, bind.
    destruct (getUniqueKey_spec annotation w)
      as (u1 & w1 & Hg1 & _ & _ & Hp1).
    destruct (getUniqueKey_spec annotation w1)
      as (u2 & w2 & Hg2 & _ & _ & Hp2).
    rewrite Hg1, Hg2. simpl.
    destruct Hp1 as (Hl1 & _), Hp2 as (Hl2 & _).
    rewrite Hl2, Hl1. now apply well_formed_delete.
  - now rewrite query_frame.
Qed.

(** *** The stored records stay ordinary *)

Lemma ordinary_records_delete (ls : gmap string text) (k : string) :
  ordinary_records ls -> ordinary_records (delete k ls).
Proof.
  intros Hord k' d Hk Hp. apply lookup_delete_Some in Hk as [_ Hk]. eauto.
Qed.

Lemma set_keeps_ordinary (fits : gmap string text -> bool) (key : string)
  (fields : obj) (ls : gmap string text) :
  ordinary_records ls ->
  get_own "hasOwnProperty" fields = None ->
  ordinary_records
    (final_state (Store.set fits key (VObj fields) (VNum 3600) ls)).
Proof.
  intros Hord Hown. rewrite set_with_expiry.
  destruct (has_bigint (VObj fields)); [exact Hord|].
  destruct (fits _); [|exact Hord].
  apply ordinary_records_insert; [exact Hord|].
  now apply json_doc_ordinary.
Qed.

(** [create] and [update] of an annotation without a property named
    [hasOwnProperty], [delete] and [query] leave ordinary records only. *)
Lemma local_backend_keeps_ordinary (annotation : loc) (queryObj : jsref)
  (w : world) :
  well_formed (localStorage w) ->
  ordinary_records (localStorage w) ->
  (get_own "hasOwnProperty" (content annotation w) = None ->
   ordinary_records (localStorage (final_state (create annotation w)))) /\
  (get_own "hasOwnProperty" (content annotation w) = None ->
   ordinary_records (localStorage (final_state (update annotation w)))) /\
  ordinary_records (localStorage (final_state (delete_ annotation w))) /\
  ordinary_records (localStorage (final_state (query queryObj w))).
Proof.
  intros Hwf Hord. split; [|split; [|split]].
  - intros Hown.
    unfold create, bind at 1, try_catch, bind at 1, URI, gets, bind at 1,
      write, modify.
    set (w0 := set_content annotation _ w).
    destruct (addAnnotation_spec annotation w0)
      as (uuid & w2 & _ & _ & Hother & _ & Hadd).
    unfold bind at 1. rewrite Hadd.
    assert (Hown2 : get_own "hasOwnProperty" (content annotation w2) = None).
    { rewrite Hother by discriminate. subst w0.
      rewrite BrowserFacts.content_set_content_eq.
      now rewrite ObjFacts.get_own_set_prop_ne by discriminate. }
    pose proof (set_keeps_ordinary (quota w0)
                  (ANNOTATION_PREFIX +:+ to_string uuid)
                  (content annotation w2) (localStorage w0) Hord Hown2)
      as Hset.
    destruct (Store.set _ _ _ _ _); exact Hset.
  - intros Hown. unfold update, bind at 1, try_catch, bind at 1.
    destruct (updateStoredAnnotation_spec annotation w)
      as (uuid & w2 & _ & Hother & Hupd).
    rewrite Hupd.
    assert (Hown2 : get_own "hasOwnProperty" (content annotation w2) = None)
      by now rewrite Hother by discriminate.
    pose proof (set_keeps_ordinary (quota w)
                  (ANNOTATION_PREFIX +:+ to_string uuid)
                  (content annotation w2) (localStorage w) Hord Hown2)
      as Hset.
    destruct (Store.set _ _ _ _ _); exact Hset.
  - unfold delete_, bind at 1, try_catch, bind at 1, removeStoredAnnotation,
      keyForStore, keyForAnnotation, bind.
    destruct (getUniqueKey_spec annotation w)
      as (u1 & w1 & Hg1 & _ & _ & Hp1).
    destruct (getUniqueKey_spec annotation w1)
      as (u2 & w2 & Hg2 & _ & _ & Hp2).
    rewrite Hg1, Hg2. simpl.
    destruct Hp1 as (Hl1 & _), Hp2 as (Hl2 & _).
    rewrite Hl2, Hl1. now apply ordinary_records_delete.
  - now rewrite query_frame.
Qed.

(** Deleting an annotation twice reports no error the second time. *)
Example delete_twice :
  reported (final_state (delete_ 0%nat (final_state (delete_ 0%nat page)))) = [].
Proof. reflexivity. Qed.

(** An [update] of an annotation that has no [uuid] stores it under a new
    key. *)
Example update_without_uuid :
  map_to_list (localStorage (final_state (update 0%nat page)))
  = [("annotator.offline/annotation.id-0",
      JsonText (VObj [("text", VStr "hi"); ("uuid", VStr "id-0")]))].
Proof. vm_compute. reflexivity. Qed.


End LocalFacts.

(** ** The HTTP backend *)

Module HttpFacts.
Import JS Browser HttpStorage Spec.

Example urlFor_update :
  _urlFor default_options "update" (VNum 12) = "/store/annotations/12/".
Proof. reflexivity. Qed.

Example urlFor_without_id :
  _urlFor default_options "destroy" VUndefined = "/store/annotations//".
Proof. reflexivity. Qed.

Example methodFor_actions :
  map _methodFor ["create"; "update"; "destroy"; "search"]
  = [VStr "POST"; VStr "PUT"; VStr "DELETE"; VStr "GET"].
Proof. reflexivity. Qed.

Lemma stamped_user obj w : get_prop "user" (stamped obj w) = VStr "hello".
Proof. apply ObjFacts.get_prop_set_prop_eq. Qed.

Lemma stamped_uri obj w : get_prop "uri" (stamped obj w) = VStr (href w).
Proof.
  unfold stamped. rewrite ObjFacts.get_prop_set_prop_ne by discriminate.
  apply ObjFacts.get_prop_set_prop_eq.
Qed.

Lemma stamped_uuid obj w :
  get_prop "uuid" (stamped obj w) = VStr (uuid_source w (entropy w)).
Proof.
  unfold stamped. rewrite !ObjFacts.get_prop_set_prop_ne by discriminate.
  apply ObjFacts.get_prop_set_prop_eq.
Qed.

Lemma stamped_other (k : string) obj w :
  k <> "user" -> k <> "uri" -> k <> "uuid" ->
  get_prop k (stamped obj w) = get_prop k (content obj w).
Proof.
  intros. unfold stamped.
  now rewrite !ObjFacts.get_prop_set_prop_ne by congruence.
Qed.

Section Instance.

Variable this : options.
Variable _t : string -> string.
Variable axios : nat -> request -> response.

(** [_apiRequest] always resolves with [obj]; it stamps [obj], sends one
    request, and notifies nobody but the global object. *)
Lemma apiRequest_resolves (action : string) (obj : loc) (w : world) :
  exists w',
    _apiRequest this _t axios action obj w = Return obj w' /\
    content obj w' = stamped obj w /\
    sent w' = (sent w ++ [request_of this action obj w])%list /\
    to_storage (notified w') = to_storage (notified w) /\
    (self_onError w = false -> notified w' = notified w).
Proof.
  unfold _apiRequest, UUID, URI, bind, read, write, gets, modify, ret.
  cbv beta iota.
  change (content obj (with_entropy (S (entropy w)) w)) with (content obj w).
  rewrite !BrowserFacts.content_set_content_eq.
  change (href (set_content obj _ (with_entropy _ w))) with (href w).
  fold (stamped obj w).
  set (w1 := set_content obj (stamped obj w) _).
  assert (Hc : content obj w1 = stamped obj w)
    by (subst w1; apply BrowserFacts.content_set_content_eq).
  assert (Hs : sent w1 = sent w) by reflexivity.
  assert (Hn : notified w1 = notified w) by reflexivity.
  assert (Hg : self_onError w1 = self_onError w) by reflexivity.
  clearbody w1.
  assert (Hreq :
    {| method := _methodFor action;
       url := _urlFor this action (get_prop "id" (content obj w));
       data := if is_method "PUT" (_methodFor action)
                  || is_method "POST" (_methodFor action)
               then content obj w1 else [];
       params := if String.eqb action "search"
                 then [("uri", get_prop "uri" (content obj w1));
                       ("user", get_prop "user" (content obj w1))]
                 else [] |} = request_of this action obj w).
  { unfold request_of. rewrite Hc, stamped_uri, stamped_user. reflexivity. }
  revert Hreq.
  destruct (is_method "PUT" (_methodFor action)
            || is_method "POST" (_methodFor action));
    destruct (String.eqb action "search");
    cbv beta iota; intros Hreq;
    unfold try_catch, await_axios; rewrite Hreq; clear Hreq; rewrite Hs;
    (destruct (axios (length (sent w)) (request_of this action obj w));
     [ eexists; split; [reflexivity|]; simpl; rewrite ?Hs, ?Hn; auto
     | unfold _onError, bind, gets, has_onError; simpl; rewrite ?Hg;
       destruct (self_onError w); simpl;
       eexists; (split; [reflexivity|]); simpl; rewrite ?Hs, ?Hn;
       repeat split; auto; try discriminate;
       unfold to_storage; rewrite List.filter_app; simpl;
       now rewrite app_nil_r ]).
Qed.

Lemma request_of_data action obj w :
  is_method "PUT" (method (request_of this action obj w))
  || is_method "POST" (method (request_of this action obj w)) = true ->
  data (request_of this action obj w) = stamped obj w.
Proof. simpl. now intros ->. Qed.

Lemma apiRequest_stamps (action : string) (obj : loc) (w : world) :
  stamps obj w (_apiRequest this _t axios action obj).
Proof.
  destruct (apiRequest_resolves action obj w) as (w' & Hr & Hc & Hs & _).
  exists obj, w', (request_of this action obj w).
  rewrite Hc, stamped_user, stamped_uuid. repeat split; auto.
  - rewrite request_of_data by assumption. apply stamped_user.
  - rewrite request_of_data by assumption. apply stamped_uuid.
Qed.


(** [query] resolves to the rows of the query object and to the query
    object itself, whatever the server answered. *)
Lemma query_resolves (queryObj : loc) (w : world) :
  exists w',
    query this _t axios queryObj w
    = Return {| results := get_prop "rows" (content queryObj w);
                meta := queryObj |} w' /\
    content queryObj w' = delete_prop "rows" (stamped queryObj w).
Proof.
  destruct (apiRequest_resolves "search" queryObj w) as (w' & Hr & Hc & _).
  unfold query, bind, read, gets, modify, ret. rewrite Hr, Hc.
  rewrite stamped_other by discriminate.
  eexists. split; [reflexivity|]. apply BrowserFacts.content_set_content_eq.
Qed.

End Instance.

(** C4. The query [{uri: ...}], answered by the server with
    [{rows: [{uuid: "a"}], total: 1}], resolves to [results = undefined] and
    to a [meta] that is the query object with its stamps: the response is
    not looked at. *)
Theorem query_ignores_the_response :
  exists w',
    query default_options (fun s => s) one_row 0%nat
      (page_with [("uri", VStr "http://example.org/doc")])
    = Return {| results := VUndefined; meta := 0%nat |} w' /\
    content 0%nat w'
    = [("uri", VStr "http://example.org/doc");
       ("uuid", VStr "id-0"); ("user", VStr "hello")] /\
    sent w'
    = [{| method := VStr "GET"; url := "/store/annotations//"; data := [];
          params := [("uri", VStr "http://example.org/doc");
                     ("user", VStr "hello")] |}].
Proof.
  eexists. split; [vm_compute; reflexivity|]. split; reflexivity.
Qed.

(** Called on the storage with a failed request, [_onError] tells the
    [onError] of the storage the message for the status. *)
Example onError_by_status :
  map (fun status =>
         notified (final_state
           (_onError default_options (fun s => s) TheStorage
              (VObj [("status", VNum status)]) page)))
      [404; 418]%Z
  = [[(TheStorage, "Could not connect to the annotation store! (Error 404)",
       VObj [("status", VNum 404)])];
     [(TheStorage, "Unknown error while speaking to annotation store!",
       VObj [("status", VNum 418)])]].
Proof. reflexivity. Qed.

(** C5. When the transport fails, [_onError] runs on the global object and
    is given the action instead of the failure. The [onError] of the
    storage is therefore never called, whatever the status; if the global
    object has an [onError], that one is told of an unknown error. On a page
    without one, a [create] that fails with status 404 notifies nobody. *)
Theorem transport_failure_is_not_reported :
  (forall this _t axios action obj w,
     exists w',
       _apiRequest this _t axios action obj w = Return obj w' /\
       to_storage (notified w') = to_storage (notified w)) /\
  (exists w',
     create default_options (fun s => s) (failing 404) 0%nat page
     = Return 0%nat w' /\
     notified w' = []) /\
  (exists w',
     create default_options (fun s => s) (failing 404) 0%nat
       (World (heap page) ∅ ∅ (href page) (uuid_source page) 0 (quota page)
              true [] [] [])
     = Return 0%nat w' /\
     notified w'
     = [(GlobalSelf, "Unknown error while speaking to annotation store!",
         VStr "create")]).
Proof.
  split; [|split].
  - intros this _t axios action o w.
    destruct (apiRequest_resolves this _t axios action o w)
      as (w' & Hr & _ & _ & Hn & _).
    now exists w'.
  - eexists. split; [vm_compute; reflexivity | reflexivity].
  - eexists. split; [vm_compute; reflexivity | reflexivity].
Qed.

End HttpFacts.
(** ** The adapter *)

Module AdapterFacts.
Import JS Browser StorageAdapter Spec.

(** *** Emptying an object *)

Lemma hasOwnProperty_plain {S} (o : obj) (k : string) (s : S) :
  has_own "hasOwnProperty" o = false ->
  hasOwnProperty o k s = Return (has_own k o) s.
Proof. intros H. unfold hasOwnProperty. now rewrite H. Qed.

Lemma has_own_delete_prop (k k' : string) (o : obj) :
  has_own k' o = false -> has_own k' (delete_prop k o) = false.
Proof.
  unfold has_own. intros H. destruct (String.string_dec k k') as [-> | Hne].
  - now rewrite ObjFacts.get_own_delete_prop_eq.
  - now rewrite ObjFacts.get_own_delete_prop_ne.
Qed.

(** A world that differs from [w] in the heap only. *)
Lemma heap_only_trans (w w1 w2 : world) :
  with_heap (heap w1) w = w1 -> with_heap (heap w2) w1 = w2 ->
  with_heap (heap w2) w = w2.
Proof. intros <- <-. reflexivity. Qed.

(** The loop, on an object that has the method of [Object.prototype]:
    the names visited are deleted, [_local] apart. *)
Lemma empty_loop_returns (obj : loc) (ks : list string) (w : world) :
  has_own "hasOwnProperty" (content obj w) = false ->
  exists w',
    empty_loop obj ks w = Return tt w' /\
    with_heap (heap w') w = w' /\
    (forall l, l <> obj -> content l w' = content l w) /\
    (forall k,
       get_own k (content obj w')
       = if negb (String.eqb k "_local") && existsb (String.eqb k) ks
         then None else get_own k (content obj w)).
Proof.
  revert w. induction ks as [|k0 ks IH]; intros w Hplain.
  - exists w. split; [reflexivity|]. split; [now destruct w|].
    split; [reflexivity|]. intros k. now rewrite andb_false_r.
  - cbn [empty_loop]. unfold bind at 1, gets at 1. unfold bind at 1.
    rewrite hasOwnProperty_plain by exact Hplain.
    unfold bind at 1.
    destruct (has_own k0 (content obj w) && negb (String.eqb k0 "_local"))
      eqn:Hdel.
    + apply andb_true_iff in Hdel as [Hown Hk0]. rewrite Hown, Hk0.
      unfold modify at 1.
      set (w1 := set_content obj (delete_prop k0 (content obj w)) w).
      assert (Hc1 : content obj w1 = delete_prop k0 (content obj w))
        by apply BrowserFacts.content_set_content_eq.
      destruct (IH w1) as (w' & Hrun & Hheap & Hother & Hget).
      { rewrite Hc1. now apply has_own_delete_prop. }
      exists w'. split; [exact Hrun|]. split; [|split].
      * now apply (heap_only_trans w w1 w').
      * intros l Hl. rewrite Hother by exact Hl. subst w1.
        apply BrowserFacts.content_set_content_ne. congruence.
      * intros k. rewrite Hget, Hc1. cbn [existsb].
        destruct (String.eqb k k0) eqn:E.
        -- apply String.eqb_eq in E. subst k0. rewrite Hk0. cbn [andb orb].
           rewrite ObjFacts.get_own_delete_prop_eq.
           now destruct (existsb (String.eqb k) ks).
        -- cbn [orb]. apply String.eqb_neq in E.
           now rewrite ObjFacts.get_own_delete_prop_ne by congruence.
    + assert (Hstep :
        (if has_own k0 (content obj w) then
           if negb (String.eqb k0 "_local") then
             modify (fun w0 =>
               set_content obj (delete_prop k0 (content obj w0)) w0)
           else ret tt
         else ret tt) w = Return tt w).
      { destruct (has_own k0 (content obj w)); [|reflexivity].
        simpl in Hdel. now rewrite Hdel. }
      rewrite Hstep.
      destruct (IH w Hplain) as (w' & Hrun & Hheap & Hother & Hget).
      exists w'. split; [exact Hrun|]. split; [exact Hheap|].
      split; [exact Hother|].
      intros k. rewrite Hget. cbn [existsb].
      destruct (String.eqb k k0) eqn:E; [|reflexivity].
      apply String.eqb_eq in E. subst k0. cbn [orb].
      destruct (negb (String.eqb k "_local")) eqn:Hk; [|reflexivity].
      cbn [andb]. rewrite andb_true_r in Hdel. unfold has_own in Hdel.
      destruct (get_own k (content obj w)); [discriminate|].
      now destruct (existsb (String.eqb k) ks).
Qed.

Lemma existsb_keys (k : string) (o : obj) :
  existsb (String.eqb k) (keys o) = false -> get_own k o = None.
Proof.
  induction o as [|[k' v] o IH]; [reflexivity|].
  simpl. destruct (String.eqb k k'); [discriminate | exact IH].
Qed.

(** After the loop only [_local] is left. *)
Lemma empty_but_local_returns (obj : loc) (w : world) :
  has_own "hasOwnProperty" (content obj w) = false ->
  exists w',
    empty_but_local obj w = Return tt w' /\
    with_heap (heap w') w = w' /\
    (forall l, l <> obj -> content l w' = content l w) /\
    (forall k,
       get_own k (content obj w')
       = if String.eqb k "_local" then get_own k (content obj w) else None).
Proof.
  intros Hplain.
  destruct (empty_loop_returns obj (keys (content obj w)) w Hplain)
    as (w' & Hrun & Hheap & Hother & Hget).
  exists w'. split; [exact Hrun|]. split; [exact Hheap|].
  split; [exact Hother|].
  intros k. rewrite Hget.
  destruct (String.eqb k "_local"); [reflexivity|]. cbn [negb andb].
  destruct (existsb (String.eqb k) (keys (content obj w))) eqn:E;
    [reflexivity|].
  now apply existsb_keys.
Qed.

(** On an object with a property named [hasOwnProperty] the loop throws
    at the first name, before anything is deleted. *)
Lemma empty_but_local_throws (obj : loc) (w : world) :
  has_own "hasOwnProperty" (content obj w) = true ->
  empty_but_local obj w
  = Throw (TypeError "hasOwnProperty is not a function") w.
Proof.
  intros Hshadow. unfold empty_but_local, bind, gets.
  destruct (content obj w) as [|[k v] o] eqn:Hc; [discriminate|].
  cbn [keys map fst empty_loop]. unfold bind, gets.
  rewrite Hc. unfold hasOwnProperty. now rewrite Hshadow.
Qed.

(** *** Merging the return value *)

Lemma extend_loop_other (source : obj) (k : string) (ks : list string)
  (target : obj) :
  ~ In k ks ->
  get_own k (fold_left (fun target name =>
               match get_prop name source with
               | VUndefined => target
               | copy => set_prop name copy target
               end) ks target) = get_own k target.
Proof.
  revert target. induction ks as [|k0 ks IH]; intros target Hin; simpl.
  - reflexivity.
  - rewrite IH by (intros H; apply Hin; now right).
    assert (k0 <> k) by (intros ->; apply Hin; now left).
    destruct (get_prop k0 source); try reflexivity;
      now apply ObjFacts.get_own_set_prop_ne.
Qed.

Lemma extend_loop_visited (source : obj) (k : string) (ks : list string)
  (target : obj) :
  In k ks ->
  get_own k (fold_left (fun target name =>
               match get_prop name source with
               | VUndefined => target
               | copy => set_prop name copy target
               end) ks target)
  = match get_prop k source with
    | VUndefined => get_own k target
    | copy => Some copy
    end.
Proof.
  revert target. induction ks as [|k0 ks IH]; intros target Hin; simpl.
  - destruct Hin.
  - destruct (in_dec String.string_dec k ks) as [Hks | Hks].
    + rewrite IH by exact Hks.
      destruct (get_prop k source) eqn:Ek; try reflexivity.
      destruct (String.string_dec k0 k) as [-> | Hne].
      * now rewrite Ek.
      * destruct (get_prop k0 source); try reflexivity;
          now apply ObjFacts.get_own_set_prop_ne.
    + destruct Hin as [-> | Hin]; [|contradiction].
      rewrite extend_loop_other by exact Hks.
      destruct (get_prop k source); try reflexivity;
        apply ObjFacts.get_own_set_prop_eq.
Qed.

(** [$.extend(target, source)] property by property. *)
Lemma get_own_extend (k : string) (target source : obj) :
  get_own k (extend target source)
  = match get_prop k source with
    | VUndefined => get_own k target
    | copy => Some copy
    end.
Proof.
  unfold extend. destruct (in_dec String.string_dec k (keys source)) as [H|H].
  - now apply extend_loop_visited.
  - rewrite extend_loop_other by exact H.
    unfold get_prop. destruct (get_own k source) eqn:E; [|reflexivity].
    exfalso. apply H. eapply ObjFacts.get_own_In; eauto.
Qed.

(** What the annotation holds once it has been emptied and updated. *)
Lemma merged_own (obj : loc) (rv : jsref) (w : world) :
  rv <> Ref obj ->
  has_own "hasOwnProperty" (content obj w) = false ->
  forall k,
    get_own k (content obj (merged obj rv w))
    = match get_prop k (fields_of rv w) with
      | VUndefined =>
          if String.eqb k "_local" then get_own k (content obj w) else None
      | v => Some v
      end.
Proof.
  intros Hne Hplain k. unfold merged.
  destruct (empty_but_local_returns obj w Hplain)
    as (w' & Hrun & _ & Hother & Hget).
  rewrite Hrun. cbn [final_state].
  rewrite BrowserFacts.content_set_content_eq.
  assert (Hf : fields_of rv w' = fields_of rv w).
  { destruct rv as [l | v]; [|reflexivity]. simpl.
    apply Hother. congruence. }
  rewrite Hf, get_own_extend, Hget. reflexivity.
Qed.

(** The update touches no other object, and nothing but the heap. *)
Lemma merged_other (obj : loc) (rv : jsref) (w : world) :
  has_own "hasOwnProperty" (content obj w) = false ->
  (forall l, l <> obj -> content l (merged obj rv w) = content l w) /\
  with_heap (heap (merged obj rv w)) w = merged obj rv w.
Proof.
  intros Hplain. unfold merged.
  destruct (empty_but_local_returns obj w Hplain)
    as (w' & Hrun & Hheap & Hother & _).
  rewrite Hrun. cbn [final_state]. split.
  - intros l Hl. rewrite BrowserFacts.content_set_content_ne by congruence.
    now apply Hother.
  - now rewrite <- Hheap.
Qed.

(** *** The copy handed to the store *)

Lemma strip_undefined_defined (l : list value) :
  existsb holds_undefined l = false -> strip_undefined l = l.
Proof.
  induction l as [|x l IH]; [reflexivity|].
  cbn [existsb]. intros H. apply orb_false_iff in H as [Hx Hl].
  cbn [strip_undefined]. rewrite (IH Hl).
  destruct x; try reflexivity. discriminate.
Qed.

(** A value without [undefined] inside is copied as it is. *)
Lemma deep_copy_complete (v : value) :
  holds_undefined v = false -> deep_copy v = v.
Proof.
  revert v. fix IH 1.
  intros [| | b | n | n | s | l | fs] H; try reflexivity.
  - cbn [deep_copy]. f_equal.
    assert (Hmap : map deep_copy l = l).
    { cbn [holds_undefined] in H. induction l as [|x l IHl]; [reflexivity|].
      cbn [existsb] in H. apply orb_false_iff in H as [Hx Hl].
      cbn [map]. now rewrite (IH x Hx), (IHl Hl). }
    rewrite Hmap. now apply strip_undefined_defined.
  - cbn [deep_copy]. f_equal.
    cbn [holds_undefined] in H. induction fs as [|[k x] fs IHfs];
      [reflexivity|].
    cbn [existsb snd] in H. apply orb_false_iff in H as [Hx Hfs].
    rewrite (IHfs Hfs), (IH x Hx).
    destruct x; try reflexivity. discriminate.
Qed.

(** The copy has the properties of the annotation that hold a value,
    copied, and no [_local]. *)
Lemma safe_copy_own (o : obj) (k : string) :
  k <> "_local" ->
  (forall v, get_own k o = Some v -> v <> VUndefined ->
     get_own k (safe_copy o) = Some (deep_copy v)) /\
  (get_own k o = None -> get_own k (safe_copy o) = None).
Proof.
  intros Hk. unfold safe_copy.
  rewrite ObjFacts.get_own_delete_prop_ne by congruence.
  cbn [deep_copy enumerable].
  induction o as [|[k' x] o IH]; [split; [discriminate | reflexivity]|].
  destruct IH as [IHsome IHnone].
  cbn [get_own]. destruct (String.eqb k k') eqn:E.
  - split; [|discriminate]. intros v [= ->] Hv.
    destruct v; try congruence; cbn [get_own]; now rewrite E.
  - split.
    + intros v Hv Hdef.
      destruct x; cbn [get_own]; rewrite ?E; now apply IHsome.
    + intros Hv. destruct x; cbn [get_own]; rewrite ?E; now apply IHnone.
Qed.

Lemma safe_copy_no_local (o : obj) : get_own "_local" (safe_copy o) = None.
Proof. apply ObjFacts.get_own_delete_prop_eq. Qed.

(** *** One cycle *)

Section Adapter.

Variable runHook : string -> loc -> world -> settled unit * world.
Variable store : string -> loc -> world -> settled jsref * world.

Lemma run_cases (op : operation) (obj : loc) (s : state) :
  run runHook store op obj s
  = _cycle runHook store obj (storeFunc op) (beforeEvent op) (afterEvent op) s
  \/ (op <> Create /\
      is_nullish (get_prop "uuid" (content obj (fst s))) = true /\
      exists msg, run runHook store op obj s = (Thrown (TypeError msg), s)).
Proof.
  destruct op; simpl.
  - now left.
  - unfold update.
    destruct (is_nullish (get_prop "uuid" (content obj (fst s)))) eqn:E;
      [right | now left].
    repeat split; [discriminate | eauto].
  - unfold delete_.
    destruct (is_nullish (get_prop "uuid" (content obj (fst s)))) eqn:E;
      [right | now left].
    repeat split; [discriminate | eauto].
Qed.

(** The cycle, once the before-hook is fulfilled. *)
Lemma cycle_after_the_hook (obj : loc) (f b a : string) (w w1 : world)
  (tr : list event) :
  runHook b obj w = (Fulfilled tt, w1) ->
  let copy := fst (alloc (safe_copy (content obj w1)) w1) in
  let w2 := snd (alloc (safe_copy (content obj w1)) w1) in
  _cycle runHook store obj f b a (w, tr)
  = match store f copy w2 with
    | (Rejected e, w3) =>
        (Promise (Rejected e),
         (w3, (tr ++ [HookRun b obj (content obj w);
                      StoreCall f copy (safe_copy (content obj w1))])%list))
    | (Fulfilled rv, w3) =>
        match empty_but_local obj w3 with
        | Throw e w4 =>
            (Promise (Rejected e),
             (w4, (tr ++ [HookRun b obj (content obj w);
                          StoreCall f copy
                            (safe_copy (content obj w1))])%list))
        | Return _ _ =>
            (Promise (Fulfilled obj),
             (snd (runHook a obj (merged obj rv w3)),
              (tr ++ [HookRun b obj (content obj w);
                      StoreCall f copy (safe_copy (content obj w1));
                      HookRun a obj
                        (content obj (merged obj rv w3))])%list))
        end
    end.
Proof.
  intros Hb copy w2. unfold _cycle. rewrite Hb.
  destruct (alloc (safe_copy (content obj w1)) w1) as [copy' w2'] eqn:Ha.
  assert (Hcopy : content copy' w2' = safe_copy (content obj w1)).
  { pose proof (BrowserFacts.alloc_fresh (safe_copy (content obj w1)) w1)
      as [_ H]. now rewrite Ha in H. }
  subst copy w2. cbn [fst snd]. rewrite Hcopy.
  destruct (store f copy' w2') as [[rv | e] w3].
  - unfold merged.
    destruct (empty_but_local obj w3) as [[] w4 | e w4]; cbn [final_state].
    + destruct (runHook a obj _) as [x w5].
      cbn [snd]. now rewrite <- !app_assoc.
    + now rewrite <- !app_assoc.
  - now rewrite <- !app_assoc.
Qed.

(** C3. On an annotation whose [uuid] is [undefined] or [null], [update] and
    [delete] throw a TypeError at once: the world is untouched and no hook
    and no store function has been called. *)
Theorem update_and_delete_require_uuid (obj : loc) (w : world)
  (tr : list event) :
  is_nullish (get_prop "uuid" (content obj w)) = true ->
  update runHook store obj (w, tr)
  = (Thrown (TypeError "annotation must have an id for update()"), (w, tr)) /\
  delete_ runHook store obj (w, tr)
  = (Thrown (TypeError "annotation must have an id for delete()"), (w, tr)).
Proof.
  intros H. unfold update, delete_. simpl. rewrite H. split; reflexivity.
Qed.

(** A call that is fulfilled has gone through every step. *)
Lemma adapter_steps (op : operation) (obj : loc) (w : world)
  (tr : list event) (r : loc) (w' : world) (tr' : list event) :
  run runHook store op obj (w, tr) = (Promise (Fulfilled r), (w', tr')) ->
  r = obj /\
  exists w1 copy w2 rv w3,
    runHook (beforeEvent op) obj w = (Fulfilled tt, w1) /\
    alloc (safe_copy (content obj w1)) w1 = (copy, w2) /\
    store (storeFunc op) copy w2 = (Fulfilled rv, w3) /\
    w' = snd (runHook (afterEvent op) obj (merged obj rv w3)) /\
    has_own "hasOwnProperty" (content obj w3) = false.
Proof.
  intros Hrun.
  destruct (run_cases op obj (w, tr)) as [Hc | (_ & _ & msg & Ht)];
    [|rewrite Ht in Hrun; discriminate].
  rewrite Hc in Hrun.
  destruct (runHook (beforeEvent op) obj w) as [[[] | e] w1] eqn:Hb.
  2:{ unfold _cycle in Hrun. rewrite Hb in Hrun. discriminate. }
  rewrite (cycle_after_the_hook _ _ _ _ _ _ _ Hb) in Hrun.
  destruct (alloc (safe_copy (content obj w1)) w1) as [copy w2] eqn:Ha.
  cbn [fst snd] in Hrun.
  destruct (store (storeFunc op) copy w2) as [[rv | e] w3] eqn:Hs;
    [|discriminate].
  destruct (has_own "hasOwnProperty" (content obj w3)) eqn:Hplain.
  { rewrite (empty_but_local_throws obj w3 Hplain) in Hrun. discriminate. }
  destruct (empty_but_local obj w3) as [[] w4 | e w4]; [|discriminate].
  injection Hrun as <- <- _. split; [reflexivity|].
  now exists w1, copy, w2, rv, w3.
Qed.

(** C1. A call of [create], [update] or [delete] that is fulfilled is
    fulfilled with the annotation it was given. When the store returned
    something other than that very object (the copy it was given is another
    object), the annotation handed to the after-hook has, apart from
    [_local], the properties of the store's return value that hold a value,
    and no other; so reading any property but [_local] gives what the return
    value gives. If the store returned only [{id: 7}], [id] is 7 and nothing
    else but [_local] is left. *)
Theorem adapter_replaces_fields (op : operation) (obj : loc) (w : world)
  (tr : list event) (r : loc) (w' : world) (tr' : list event) :
  run runHook store op obj (w, tr) = (Promise (Fulfilled r), (w', tr')) ->
  r = obj /\
  exists w1 copy w2 ret w3,
    runHook (beforeEvent op) obj w = (Fulfilled tt, w1) /\
    alloc (safe_copy (content obj w1)) w1 = (copy, w2) /\
    store (storeFunc op) copy w2 = (Fulfilled ret, w3) /\
    w' = snd (runHook (afterEvent op) obj (merged obj ret w3)) /\
    (is_Some (heap w1 !! obj) -> Ref copy <> Ref obj) /\
    (ret <> Ref obj ->
     (forall k, k <> "_local" ->
        get_own k (content obj (merged obj ret w3))
        = match get_prop k (fields_of ret w3) with
          | VUndefined => None
          | v => Some v
          end) /\
     (forall k, k <> "_local" ->
        get_prop k (content obj (merged obj ret w3))
        = get_prop k (fields_of ret w3)) /\
     get_own "_local" (content obj (merged obj ret w3))
     = match get_prop "_local" (fields_of ret w3) with
       | VUndefined => get_own "_local" (content obj w3)
       | v => Some v
       end /\
     (fields_of ret w3 = [("id", VNum 7)] ->
      get_prop "id" (content obj (merged obj ret w3)) = VNum 7 /\
      forall k, k <> "id" -> k <> "_local" ->
        has_own k (content obj (merged obj ret w3)) = false)).
Proof.
  intros Hrun.
  destruct (adapter_steps op obj w tr _ _ _ Hrun)
    as (-> & w1 & copy & w2 & rv & w3 & Hb & Ha & Hs & Hw & Hplain).
  split; [reflexivity|].
  exists w1, copy, w2, rv, w3.
  split; [exact Hb|]. split; [exact Ha|]. split; [exact Hs|].
  split; [exact Hw|]. split.
  { intros [o Ho] [= ->].
    pose proof (BrowserFacts.alloc_fresh (safe_copy (content obj w1)) w1)
      as [Hf _].
    rewrite Ha in Hf. simpl in Hf. congruence. }
  intros Hne.
  pose proof (merged_own obj rv w3 Hne Hplain) as Hown.
  assert (Hother : forall k, k <> "_local" ->
            get_own k (content obj (merged obj rv w3))
            = match get_prop k (fields_of rv w3) with
              | VUndefined => None
              | v => Some v
              end).
  { intros k Hk. rewrite Hown.
    apply String.eqb_neq in Hk. now rewrite Hk. }
  split; [exact Hother|]. split; [|split].
  - intros k Hk. unfold get_prop at 1. rewrite (Hother k Hk).
    now destruct (get_prop k (fields_of rv w3)).
  - rewrite Hown. reflexivity.
  - intros Hid. split.
    + unfold get_prop at 1. rewrite Hother by discriminate.
      now rewrite Hid.
    + intros k Hk Hl. unfold has_own. rewrite (Hother k Hl), Hid.
      unfold get_prop. simpl. apply String.eqb_neq in Hk. now rewrite Hk.
Qed.

(** C2. A call of [create], or of [update] or [delete] on an annotation
    with a uuid, whose before-hook and whose backend method are both
    fulfilled, on an annotation that has no property of its own named
    [hasOwnProperty] when the backend has answered, is fulfilled with the
    annotation and adds exactly three events, in this order: the
    before-hook with the annotation as it was given; the backend method
    with the copy made once the hook has settled; the after-hook with the
    annotation once it has been emptied and updated, in the world the
    backend left. The copy is a new object: it is not
    the annotation, it did not exist before, and making it changes no
    other object; it has no [_local], and apart from [_local] it has no
    property the annotation lacks and every property of the annotation
    whose value has no [undefined] inside, with that value. The update
    changes no other object, and when the backend returned something other
    than the annotation itself, the annotation then holds the properties
    of the returned value that are not [undefined], and its old [_local]
    if the returned value has none. *)
Theorem adapter_events_in_order (op : operation) (obj : loc) (w : world)
  (tr : list event) (w1 : world) (copy : loc) (w2 : world) (rv : jsref)
  (w3 : world) :
  op = Create \/ is_nullish (get_prop "uuid" (content obj w)) = false ->
  runHook (beforeEvent op) obj w = (Fulfilled tt, w1) ->
  is_Some (heap w1 !! obj) ->
  alloc (safe_copy (content obj w1)) w1 = (copy, w2) ->
  store (storeFunc op) copy w2 = (Fulfilled rv, w3) ->
  get_own "hasOwnProperty" (content obj w3) = None ->
  run runHook store op obj (w, tr)
  = (Promise (Fulfilled obj),
     (snd (runHook (afterEvent op) obj (merged obj rv w3)),
      (tr ++ [HookRun (beforeEvent op) obj (content obj w);
              StoreCall (storeFunc op) copy (content copy w2);
              HookRun (afterEvent op) obj
                (content obj (merged obj rv w3))])%list)) /\
  copy <> obj /\
  heap w1 !! copy = None /\
  (forall l, l <> copy -> content l w2 = content l w1) /\
  get_own "_local" (content copy w2) = None /\
  (forall k, k <> "_local" -> get_own k (content obj w1) = None ->
     get_own k (content copy w2) = None) /\
  (forall k v, k <> "_local" -> get_own k (content obj w1) = Some v ->
     holds_undefined v = false -> get_own k (content copy w2) = Some v) /\
  (forall l, l <> obj -> content l (merged obj rv w3) = content l w3) /\
  (rv <> Ref obj ->
   forall k,
     get_own k (content obj (merged obj rv w3))
     = match get_prop k (fields_of rv w3) with
       | VUndefined =>
           if String.eqb k "_local" then get_own k (content obj w3)
           else None
       | v => Some v
       end).
Proof.
  intros Hop Hb Hobj Ha Hs Hplain.
  assert (Hplain' : has_own "hasOwnProperty" (content obj w3) = false)
    by (unfold has_own; now rewrite Hplain).
  pose proof (BrowserFacts.alloc_fresh (safe_copy (content obj w1)) w1)
    as [Hfresh Hcopy].
  rewrite Ha in Hfresh, Hcopy. cbn [fst snd] in Hfresh, Hcopy.
  assert (Hrun : run runHook store op obj (w, tr)
                 = _cycle runHook store obj (storeFunc op) (beforeEvent op)
                     (afterEvent op) (w, tr)).
  { destruct (run_cases op obj (w, tr)) as [Hc | (Hne & Hnull & _)];
      [exact Hc|].
    cbn [fst] in Hnull. destruct Hop as [-> | Hu]; congruence. }
  split.
  { rewrite Hrun, (cycle_after_the_hook _ _ _ _ _ _ _ Hb), Ha.
    cbn [fst snd]. rewrite Hs.
    destruct (empty_but_local_returns obj w3 Hplain') as (w4 & -> & _).
    now rewrite Hcopy. }
  split.
  { intros ->. destruct Hobj as [o Ho]. congruence. }
  split; [exact Hfresh|]. split.
  { intros l Hl. unfold alloc in Ha. injection Ha as Hc <-.
    apply BrowserFacts.content_set_content_ne. congruence. }
  rewrite Hcopy. split; [apply safe_copy_no_local|]. split.
  { intros k Hk. now apply safe_copy_own. }
  split.
  { intros k v Hk Hv Hdef.
    destruct (safe_copy_own (content obj w1) k Hk) as [Hsome _].
    rewrite (Hsome v Hv); [now rewrite deep_copy_complete|].
    intros ->. discriminate. }
  split.
  { apply (merged_other obj rv w3 Hplain'). }
  intros Hne. now apply merged_own.
Qed.

End Adapter.

(** C2, counterexample. A [create] whose before-hook and backend are
    fulfilled and whose after-hook never runs: the annotation has a property named
    [hasOwnProperty], the backend has been called, and the call is
    rejected after two events, the annotation left as the before-hook
    made it. And a [create] whose before-hook is rejected: the backend is
    not called. *)
Lemma create_without_after_hook :
  marking_hooks (beforeEvent Create) 0%nat
    (page_with [("text", VStr "hi"); ("hasOwnProperty", VNum 1)])
  = (Fulfilled tt,
     page_with [("text", VStr "hi"); ("hasOwnProperty", VNum 1);
                ("hook", VStr "beforeAnnotationCreated")]) /\
  (forall copy w2, fst (returns_id_7 (storeFunc Create) copy w2)
                   = Fulfilled (Val (VObj [("id", VNum 7)]))) /\
  fst (run marking_hooks returns_id_7 Create 0%nat
         (page_with [("text", VStr "hi"); ("hasOwnProperty", VNum 1)], []))
  = Promise (Rejected (TypeError "hasOwnProperty is not a function")) /\
  snd (snd (run marking_hooks returns_id_7 Create 0%nat
              (page_with [("text", VStr "hi"); ("hasOwnProperty", VNum 1)],
               [])))
  = [HookRun "beforeAnnotationCreated" 0%nat
       [("text", VStr "hi"); ("hasOwnProperty", VNum 1)];
     StoreCall "create" 1%nat
       [("text", VStr "hi"); ("hasOwnProperty", VNum 1);
        ("hook", VStr "beforeAnnotationCreated")]] /\
  content 0%nat
    (fst (snd (run marking_hooks returns_id_7 Create 0%nat
                 (page_with [("text", VStr "hi");
                             ("hasOwnProperty", VNum 1)], []))))
  = [("text", VStr "hi"); ("hasOwnProperty", VNum 1);
     ("hook", VStr "beforeAnnotationCreated")] /\
  run (fun _ _ w => (Rejected (TypeError "not now"), w)) returns_id_7
    Create 0%nat (page_with [("text", VStr "hi")], [])
  = (Promise (Rejected (TypeError "not now")),
     (page_with [("text", VStr "hi")],
      [HookRun "beforeAnnotationCreated" 0%nat [("text", VStr "hi")]])).
Proof.
  split; [vm_compute; reflexivity|]. split; [reflexivity|].
  repeat split; vm_compute; reflexivity.
Qed.

Lemma update_and_delete_require_uuid_witness :
  is_nullish (get_prop "uuid" (content 0%nat page)) = true /\
  update marking_hooks returns_id_7 0%nat (page, [])
  = (Thrown (TypeError "annotation must have an id for update()"),
     (page, [])) /\
  delete_ marking_hooks returns_id_7 0%nat (page, [])
  = (Thrown (TypeError "annotation must have an id for delete()"),
     (page, [])).
Proof.
  split; [reflexivity|].
  apply (update_and_delete_require_uuid marking_hooks returns_id_7 0%nat
           page []).
  reflexivity.
Defined.

(** A [create] through the adapter, on the local backend. *)
Example events_of_a_create :
  snd (snd (run marking_hooks local_store Create 0%nat (annotated_page, [])))
  = [HookRun "beforeAnnotationCreated" 0%nat
       [("text", VStr "hi"); ("_local", VObj [("highlights", VArr [])])];
     StoreCall "create" 1%nat
       [("text", VStr "hi"); ("hook", VStr "beforeAnnotationCreated")];
     HookRun "annotationCreated" 0%nat
       [("_local", VObj [("highlights", VArr [])]); ("text", VStr "hi");
        ("hook", VStr "beforeAnnotationCreated");
        ("uri", VStr "http://example.org/doc"); ("uuid", VStr "id-0")]].
Proof. vm_compute. reflexivity. Qed.

Lemma adapter_events_in_order_witness :
  let w1 := page_with [("text", VStr "hi");
                       ("_local", VObj [("highlights", VArr [])]);
                       ("hook", VStr "beforeAnnotationCreated")] in
  let w2 := set_content 1%nat
              [("text", VStr "hi"); ("hook", VStr "beforeAnnotationCreated")]
              w1 in
  let rv := Val (VObj [("id", VNum 7)]) in
  run marking_hooks returns_id_7 Create 0%nat (annotated_page, [])
  = (Promise (Fulfilled 0%nat),
     (snd (marking_hooks (afterEvent Create) 0%nat (merged 0%nat rv w2)),
      ([] ++ [HookRun (beforeEvent Create) 0%nat
                (content 0%nat annotated_page);
              StoreCall (storeFunc Create) 1%nat (content 1%nat w2);
              HookRun (afterEvent Create) 0%nat
                (content 0%nat (merged 0%nat rv w2))])%list)) /\
  1%nat <> 0%nat /\
  heap w1 !! 1%nat = None /\
  (forall l, l <> 1%nat -> content l w2 = content l w1) /\
  get_own "_local" (content 1%nat w2) = None /\
  (forall k, k <> "_local" -> get_own k (content 0%nat w1) = None ->
     get_own k (content 1%nat w2) = None) /\
  (forall k v, k <> "_local" -> get_own k (content 0%nat w1) = Some v ->
     holds_undefined v = false -> get_own k (content 1%nat w2) = Some v) /\
  (forall l, l <> 0%nat -> content l (merged 0%nat rv w2) = content l w2) /\
  (forall k,
     get_own k (content 0%nat (merged 0%nat rv w2))
     = match get_prop k (fields_of rv w2) with
       | VUndefined =>
           if String.eqb k "_local" then get_own k (content 0%nat w2)
           else None
       | v => Some v
       end).
Proof.
  cbv zeta.
  destruct (adapter_events_in_order marking_hooks returns_id_7 Create 0%nat
              annotated_page []
              (page_with [("text", VStr "hi");
                          ("_local", VObj [("highlights", VArr [])]);
                          ("hook", VStr "beforeAnnotationCreated")])
              1%nat
              (set_content 1%nat
                 [("text", VStr "hi");
                  ("hook", VStr "beforeAnnotationCreated")]
                 (page_with [("text", VStr "hi");
                             ("_local", VObj [("highlights", VArr [])]);
                             ("hook", VStr "beforeAnnotationCreated")]))
              (Val (VObj [("id", VNum 7)]))
              (set_content 1%nat
                 [("text", VStr "hi");
                  ("hook", VStr "beforeAnnotationCreated")]
                 (page_with [("text", VStr "hi");
                             ("_local", VObj [("highlights", VArr [])]);
                             ("hook", VStr "beforeAnnotationCreated")])))
    as (H1 & H2 & H3 & H4 & H5 & H6 & H7 & H8 & H9).
  - now left.
  - vm_compute. reflexivity.
  - vm_compute. eauto.
  - vm_compute. reflexivity.
  - reflexivity.
  - vm_compute. reflexivity.
  - repeat split; try assumption. apply H9. discriminate.
Defined.

(** The events of that call, and of the same call on the local backend. *)
Example events_of_a_create_with_an_id :
  snd (snd (run marking_hooks returns_id_7 Create 0%nat (annotated_page, [])))
  = [HookRun "beforeAnnotationCreated" 0%nat
       [("text", VStr "hi"); ("_local", VObj [("highlights", VArr [])])];
     StoreCall "create" 1%nat
       [("text", VStr "hi"); ("hook", VStr "beforeAnnotationCreated")];
     HookRun "annotationCreated" 0%nat
       [("_local", VObj [("highlights", VArr [])]); ("id", VNum 7)]].
Proof. vm_compute. reflexivity. Qed.

(** A [create] on a backend that returns [{id: 7}]: the text is gone, the
    id is there, [_local] is kept, and the after-hook has left its mark. *)
Example fields_after_a_create :
  fst (run marking_hooks returns_id_7 Create 0%nat (annotated_page, []))
  = Promise (Fulfilled 0%nat) /\
  content 0%nat
    (fst (snd (run marking_hooks returns_id_7 Create 0%nat
                 (annotated_page, []))))
  = [("_local", VObj [("highlights", VArr [])]); ("id", VNum 7);
     ("hook", VStr "annotationCreated")].
Proof. split; vm_compute; reflexivity. Qed.

Lemma adapter_replaces_fields_witness :
  let out := run marking_hooks returns_id_7 Create 0%nat (annotated_page, []) in
  0%nat = 0%nat /\
  exists w1 copy w2 rv w3,
    marking_hooks (beforeEvent Create) 0%nat annotated_page
    = (Fulfilled tt, w1) /\
    alloc (safe_copy (content 0%nat w1)) w1 = (copy, w2) /\
    returns_id_7 (storeFunc Create) copy w2 = (Fulfilled rv, w3) /\
    fst (snd out)
    = snd (marking_hooks (afterEvent Create) 0%nat (merged 0%nat rv w3)) /\
    (is_Some (heap w1 !! 0%nat) -> Ref copy <> Ref 0%nat) /\
    (rv <> Ref 0%nat ->
     (forall k, k <> "_local" ->
        get_own k (content 0%nat (merged 0%nat rv w3))
        = match get_prop k (fields_of rv w3) with
          | VUndefined => None
          | v => Some v
          end) /\
     (forall k, k <> "_local" ->
        get_prop k (content 0%nat (merged 0%nat rv w3))
        = get_prop k (fields_of rv w3)) /\
     get_own "_local" (content 0%nat (merged 0%nat rv w3))
     = match get_prop "_local" (fields_of rv w3) with
       | VUndefined => get_own "_local" (content 0%nat w3)
       | v => Some v
       end /\
     (fields_of rv w3 = [("id", VNum 7)] ->
      get_prop "id" (content 0%nat (merged 0%nat rv w3)) = VNum 7 /\
      forall k, k <> "id" -> k <> "_local" ->
        has_own k (content 0%nat (merged 0%nat rv w3)) = false)).
Proof.
  cbv zeta.
  apply (adapter_replaces_fields marking_hooks returns_id_7 Create 0%nat
           annotated_page [] 0%nat _
           (snd (snd (run marking_hooks returns_id_7 Create 0%nat
                        (annotated_page, []))))).
  vm_compute. reflexivity.
Defined.

End AdapterFacts.

(** ** More on the key-value store *)

Module StoreMoreFacts.
Import JS Store Spec Spec2.

Lemma prefixed_inj (k k' : string) : prefixed k = prefixed k' -> k = k'.
Proof.
  unfold prefixed. intros H.
  apply (f_equal (slice (String.length KEY_PREFIX))) in H.
  exact H.
Qed.

(** [set], case by case. *)
Lemma set_equation (fits : storage -> bool) (key : string)
  (value time : JS.value) (ls : storage) :
  set fits key value time ls
  = if has_bigint value then
      Throw (TypeError "Do not know how to serialize a BigInt") ls
    else if truthy time then
      if fits (<[prefixed key := serialized value]> ls)
      then Return tt (<[prefixed key := serialized value]> ls)
      else Throw (TypeError "this.publish is not a function") ls
    else Return tt ls.
Proof.
  unfold set, bind, JSON_stringify.
  destruct (has_bigint value); [reflexivity|].
  destruct value; simpl; destruct (truthy time); try reflexivity;
    unfold try_catch, setItem; simpl; now destruct (fits _).
Qed.

Lemma get_equation (key : string) (ls : storage) :
  get key ls
  = match ls !! prefixed key with
    | None => Return VNull (delete (prefixed key) ls)
    | Some (JsonText d) => Return d ls
    | Some (RawText s) =>
        Throw (SyntaxError "Unexpected token in JSON")
          (if String.eqb s "" then delete (prefixed key) ls else ls)
    end.
Proof.
  unfold get, bind, getItem, gets.
  destruct (ls !! prefixed key) as [[d | s] |]; simpl; try reflexivity.
  now destruct (String.eqb s "").
Qed.

(** X1. What [set] stored is what [get] returns: after a [set] with an
    expiry that returned, [get] of the same key returns the document of the
    value and leaves the storage alone; but [undefined] was stored as the
    text [undefined], and [get] throws on it. *)
Theorem set_then_get (fits : storage -> bool) (key : string)
  (value time : JS.value) (ls ls' : storage) :
  set fits key value time ls = Return tt ls' ->
  truthy time = true ->
  (value <> VUndefined -> get key ls' = Return (json_doc value) ls') /\
  (value = VUndefined ->
   get key ls' = Throw (SyntaxError "Unexpected token in JSON") ls').
Proof.
  intros Hset Ht. rewrite set_equation, Ht in Hset.
  destruct (has_bigint value); [discriminate|].
  destruct (fits _); [|discriminate]. injection Hset as <-.
  rewrite get_equation, lookup_insert_eq. split.
  - intros Hv. destruct value; try reflexivity. congruence.
  - intros ->. reflexivity.
Qed.

Lemma set_then_get_witness :
  (VObj [("user", VNum 1)] <> VUndefined ->
   get "temporary"
     (<[prefixed "temporary" := JsonText (VObj [("user", VNum 1)])]> ∅)
   = Return (json_doc (VObj [("user", VNum 1)]))
       (<[prefixed "temporary" := JsonText (VObj [("user", VNum 1)])]> ∅)) /\
  (VObj [("user", VNum 1)] = VUndefined ->
   get "temporary"
     (<[prefixed "temporary" := JsonText (VObj [("user", VNum 1)])]> ∅)
   = Throw (SyntaxError "Unexpected token in JSON")
       (<[prefixed "temporary" := JsonText (VObj [("user", VNum 1)])]> ∅)).
Proof.
  apply (set_then_get (fun _ => true) "temporary" (VObj [("user", VNum 1)])
           (VNum 3000) ∅); reflexivity.
Defined.

(** X2. [set] touches one entry only: whether it returns or throws, every
    key of the storage other than the prefixed key keeps its entry, and so
    does every other key of the store. *)
Theorem set_touches_one_key (fits : storage -> bool) (key : string)
  (value time : JS.value) (ls : storage) :
  (forall q, q <> prefixed key ->
     final_state (set fits key value time ls) !! q = ls !! q) /\
  (forall key', key' <> key ->
     final_state (set fits key value time ls) !! prefixed key'
     = ls !! prefixed key').
Proof.
  assert (H : forall q, q <> prefixed key ->
            final_state (set fits key value time ls) !! q = ls !! q).
  { intros q Hq. rewrite set_equation.
    destruct (has_bigint value); [reflexivity|].
    destruct (truthy time); [|reflexivity].
    destruct (fits _); [|reflexivity].
    simpl. now rewrite lookup_insert_ne. }
  split; [exact H|].
  intros key' Hk. apply H. intros E. apply Hk. now apply prefixed_inj.
Qed.

(** X3. After [remove], [get] of the key returns [null]; removing again
    changes nothing; and no other key of the storage is touched. *)
Theorem remove_then_get (key : string) (ls : storage) :
  get key (final_state (remove key ls))
  = Return VNull (final_state (remove key ls)) /\
  remove key (final_state (remove key ls))
  = Return tt (final_state (remove key ls)) /\
  (forall q, q <> prefixed key ->
     final_state (remove key ls) !! q = ls !! q).
Proof.
  unfold remove, removeItem, modify. simpl. split; [|split].
  - rewrite get_equation, lookup_delete_eq.
    now rewrite delete_id by apply lookup_delete_eq.
  - now rewrite delete_id by apply lookup_delete_eq.
  - intros q Hq. now rewrite lookup_delete_ne.
Qed.

(** X4. [get] of a key whose text is not JSON throws a SyntaxError, and if
    the text is the empty string the key has been removed by then. *)
Theorem get_of_unparsable_text (key s : string) (ls : storage) :
  ls !! prefixed key = Some (RawText s) ->
  get key ls
  = Throw (SyntaxError "Unexpected token in JSON")
      (if String.eqb s "" then delete (prefixed key) ls else ls).
Proof. intros H. now rewrite get_equation, H. Qed.

Lemma get_of_unparsable_text_witness :
  get "k" (<[prefixed "k" := RawText ""]> ∅)
  = Throw (SyntaxError "Unexpected token in JSON")
      (if String.eqb "" "" then
         delete (prefixed "k") (<[prefixed "k" := RawText ""]> ∅)
       else <[prefixed "k" := RawText ""]> ∅).
Proof.
  apply (get_of_unparsable_text "k" "" (<[prefixed "k" := RawText ""]> ∅)).
  apply lookup_insert_eq.
Defined.

(** *** [all] *)

Lemma key_under (partial k : string) :
  starts_with (prefixed partial) k = true ->
  prefixed (slice (String.length KEY_PREFIX) k) = k.
Proof.
  intros H. apply ObjFacts.prefix_slice.
  exact (ObjFacts.prefix_app KEY_PREFIX partial k H).
Qed.

Lemma all_loop_documents (partial : string) (ls : storage)
  (kts : list (string * text)) (values : list value) :
  (forall k t, In (k, t) kts -> ls !! k = Some t) ->
  (forall k t, In (k, t) kts -> starts_with (prefixed partial) k = true ->
     exists d, t = JsonText d) ->
  all_loop (prefixed partial) (kts.*1) values ls
  = Return (values ++ omap (document_under (prefixed partial)) kts)%list ls.
Proof.
  revert values.
  induction kts as [|[k t] kts IH]; intros values Hin Hjson.
  - simpl. now rewrite app_nil_r.
  - assert (Hk : ls !! k = Some t) by (apply Hin; now left).
    rewrite fmap_cons. cbn [all_loop fst omap list_omap].
    unfold bind at 1, gets at 1. rewrite Hk.
    rewrite bool_decide_true by eauto. rewrite andb_true_l.
    unfold document_under at 1. cbn [fst snd].
    destruct (starts_with (prefixed partial) k) eqn:Hp.
    + destruct (Hjson k t (or_introl eq_refl) Hp) as [d ->].
      unfold bind at 1.
      rewrite get_equation, (key_under partial k Hp), Hk.
      rewrite IH; [now rewrite <- app_assoc | |];
        intros; [apply Hin | eapply Hjson; [|eassumption]]; now right.
    + apply IH; intros; [apply Hin | eapply Hjson; [|eassumption]];
        now right.
Qed.

(** X5. [all(partial)] returns the documents of exactly the entries whose
    key starts with the prefix of the store followed by [partial], in the
    order of the keys, and leaves the storage as it is, provided all those
    entries hold JSON texts; [all()] is [all("")]. *)
Theorem all_returns_the_documents (partial : string) (ls : storage) :
  (forall k t, ls !! k = Some t ->
     starts_with (prefixed partial) k = true -> exists d, t = JsonText d) ->
  all (VStr partial) ls
  = Return (omap (document_under (prefixed partial)) (map_to_list ls)) ls /\
  all VUndefined ls = all (VStr "") ls /\
  (forall v,
     In v (omap (document_under (prefixed partial)) (map_to_list ls)) <->
     exists k, starts_with (prefixed partial) k = true /\
               ls !! k = Some (JsonText v)).
Proof.
  intros Hjson. split; [|split].
  - unfold all, bind, gets.
    assert (Hp : prefixed (to_string
                   (if truthy (VStr partial) then VStr partial else VStr ""))
                 = prefixed partial).
    { simpl. destruct partial; reflexivity. }
    rewrite Hp.
    apply (all_loop_documents partial ls (map_to_list ls) []).
    + intros k t H. apply elem_of_map_to_list. now apply list_elem_of_In.
    + intros k t H. apply Hjson. apply elem_of_map_to_list.
      now apply list_elem_of_In.
  - reflexivity.
  - intros v. rewrite <- list_elem_of_In, list_elem_of_omap. split.
    + intros ([k t] & Hin & Hdoc). apply elem_of_map_to_list in Hin.
      unfold document_under in Hdoc. simpl in Hdoc.
      destruct (starts_with (prefixed partial) k) eqn:Hp; [|discriminate].
      destruct t; [|discriminate]. injection Hdoc as ->. eauto.
    + intros (k & Hp & Hk). exists (k, JsonText v). split.
      * now apply elem_of_map_to_list.
      * unfold document_under. simpl. now rewrite Hp.
Qed.

Lemma all_returns_the_documents_witness :
  all (VStr "annotation.")
    (<["annotator.offline/annotation.1" := JsonText (VNum 1)]>
       (<["other" := RawText "x"]> ∅))
  = Return [VNum 1]
      (<["annotator.offline/annotation.1" := JsonText (VNum 1)]>
         (<["other" := RawText "x"]> ∅)).
Proof.
  destruct (all_returns_the_documents "annotation."
              (<["annotator.offline/annotation.1" := JsonText (VNum 1)]>
                 (<["other" := RawText "x"]> ∅))) as [H _].
  - intros k t Hk Hp.
    destruct (decide (k = "annotator.offline/annotation.1")) as [-> | Hne].
    + rewrite lookup_insert_eq in Hk. injection Hk as <-. eauto.
    + rewrite lookup_insert_ne in Hk by congruence.
      destruct (decide (k = "other")) as [-> | Hne'].
      * discriminate Hp.
      * rewrite lookup_insert_ne, lookup_empty in Hk by congruence.
        discriminate.
  - rewrite H. vm_compute. reflexivity.
Defined.

Lemma all_loop_fails (partial : string) (ls : storage)
  (kts : list (string * text)) (values : list value) (k s : string) :
  (forall k t, In (k, t) kts -> ls !! k = Some t) ->
  In (k, RawText s) kts ->
  starts_with (prefixed partial) k = true ->
  exists ls',
    all_loop (prefixed partial) (kts.*1) values ls
    = Throw (SyntaxError "Unexpected token in JSON") ls'.
Proof.
  revert values.
  induction kts as [|[k0 t0] kts IH]; intros values Hin Hk Hp;
    [destruct Hk|].
  assert (Hk0 : ls !! k0 = Some t0) by (apply Hin; now left).
  rewrite fmap_cons. cbn [all_loop fst].
  unfold bind at 1, gets at 1. rewrite Hk0.
  rewrite bool_decide_true by eauto. rewrite andb_true_l.
  assert (Hrest : forall k t, In (k, t) kts -> ls !! k = Some t)
    by (intros; apply Hin; now right).
  destruct (starts_with (prefixed partial) k0) eqn:Hp0.
  - unfold bind at 1.
    rewrite get_equation, (key_under partial k0 Hp0), Hk0.
    destruct t0 as [d | s0]; [|eauto].
    destruct Hk as [Heq | Hk]; [discriminate Heq|].
    now apply IH.
  - destruct Hk as [Heq | Hk]; [|now apply IH].
    injection Heq as -> _. congruence.
Qed.

Lemma all_throws (partial k s : string) (ls : storage) :
  ls !! k = Some (RawText s) ->
  starts_with (prefixed partial) k = true ->
  exists ls',
    all (VStr partial) ls = Throw (SyntaxError "Unexpected token in JSON") ls'.
Proof.
  intros Hk Hp. unfold all, bind, gets.
  assert (Hpre : prefixed (to_string
                   (if truthy (VStr partial) then VStr partial else VStr ""))
                 = prefixed partial).
  { simpl. destruct partial; reflexivity. }
  rewrite Hpre.
  apply (all_loop_fails partial ls (map_to_list ls) [] k s).
  - intros k' t H. apply elem_of_map_to_list. now apply list_elem_of_In.
  - apply list_elem_of_In. now apply elem_of_map_to_list.
  - exact Hp.
Qed.

(** X6. One entry under the prefix that is not a JSON text makes [all]
    throw a SyntaxError: no document is returned, whatever else is
    stored. *)
Theorem all_fails_on_unparsable_text (partial k s : string) (ls : storage) :
  ls !! k = Some (RawText s) ->
  starts_with (prefixed partial) k = true ->
  exists ls',
    all (VStr partial) ls = Throw (SyntaxError "Unexpected token in JSON") ls'.
Proof. apply all_throws. Qed.

Lemma all_fails_on_unparsable_text_witness :
  exists ls',
    all (VStr "annotation.")
      (<["annotator.offline/annotation.1" := JsonText (VNum 1)]>
         (<["annotator.offline/annotation.2" := RawText "oops"]> ∅))
    = Throw (SyntaxError "Unexpected token in JSON") ls'.
Proof.
  apply (all_fails_on_unparsable_text "annotation."
           "annotator.offline/annotation.2" "oops").
  - vm_compute. reflexivity.
  - reflexivity.
Defined.

(** X7. [isSupported] answers [true] whether or not the browser has the
    Storage interface: [typeof] gives a string that is not empty. *)
Theorem isSupported_always (Storage_defined : bool) :
  StoreProbe.isSupported Storage_defined = true.
Proof. now destruct Storage_defined. Qed.

End StoreMoreFacts.

(** ** More on the local backend *)

Module LocalMoreFacts.
Import JS Browser LocalStorage Spec Spec2.

(** *** The identifier *)

Lemma getUniqueKey_equation (annotation : loc) (w : world) :
  getUniqueKey annotation w
  = Return (chosen annotation w) (keyed annotation w).
Proof.
  unfold getUniqueKey, bind, read, write, gets, modify, UUID, ret, keyed,
    chosen.
  destruct (truthy (get_prop "uuid" (content annotation w))); cbv beta iota;
    change (content annotation (with_entropy (S (entropy w)) w))
      with (content annotation w);
    rewrite ?BrowserFacts.content_set_content_eq;
    now rewrite ObjFacts.get_prop_set_prop_eq.
Qed.

Lemma keyed_frame (annotation : loc) (w : world) :
  localStorage (keyed annotation w) = localStorage w /\
  cache (keyed annotation w) = cache w /\
  href (keyed annotation w) = href w /\
  uuid_source (keyed annotation w) = uuid_source w /\
  quota (keyed annotation w) = quota w /\
  reported (keyed annotation w) = reported w.
Proof.
  unfold keyed.
  now destruct (truthy (get_prop "uuid" (content annotation w))).
Qed.

Lemma content_keyed (annotation : loc) (w : world) :
  content annotation (keyed annotation w)
  = set_prop "uuid" (chosen annotation w) (content annotation w).
Proof. apply BrowserFacts.content_set_content_eq. Qed.

Lemma uuid_keyed (annotation : loc) (w : world) :
  get_prop "uuid" (content annotation (keyed annotation w))
  = chosen annotation w.
Proof. rewrite content_keyed. apply ObjFacts.get_prop_set_prop_eq. Qed.

(** A second [getUniqueKey] keeps a truthy identifier. *)
Lemma chosen_keyed (annotation : loc) (w : world) :
  truthy (chosen annotation w) = true ->
  chosen annotation (keyed annotation w) = chosen annotation w.
Proof.
  intros Ht. unfold chosen at 1. now rewrite uuid_keyed, Ht.
Qed.

Lemma chosen_truthy (annotation : loc) (w : world) :
  generates_identifiers w -> truthy (chosen annotation w) = true.
Proof.
  intros Hgen. unfold chosen.
  destruct (truthy (get_prop "uuid" (content annotation w))) eqn:E;
    [exact E|].
  simpl. specialize (Hgen (entropy w)).
  destruct (String.eqb (uuid_source w (entropy w)) "") eqn:E';
    [|reflexivity].
  apply String.eqb_eq in E'. contradiction.
Qed.

Lemma entropy_keyed (annotation : loc) (w : world) :
  entropy (keyed annotation w)
  = if truthy (get_prop "uuid" (content annotation w)) then entropy w
    else S (entropy w).
Proof.
  unfold keyed.
  now destruct (truthy (get_prop "uuid" (content annotation w))).
Qed.

Lemma other_props_keyed (annotation : loc) (w : world) (k : string) :
  k <> "uuid" ->
  get_own k (content annotation (keyed annotation w))
  = get_own k (content annotation w).
Proof.
  intros Hk. rewrite content_keyed.
  apply ObjFacts.get_own_set_prop_ne. congruence.
Qed.

(** *** The methods, step by step *)

Lemma keyForStore_equation (annotation : loc) (w : world) :
  keyForStore annotation w
  = Return (ANNOTATION_PREFIX +:+ to_string (chosen annotation w))
      (keyed annotation w).
Proof.
  unfold keyForStore, keyForAnnotation, bind.
  now rewrite getUniqueKey_equation.
Qed.

Lemma removeStoredAnnotation_equation (annotation : loc) (w : world) :
  removeStoredAnnotation annotation w
  = Return annotation
      (with_cache
         (delete (to_string (chosen annotation w)) (cache w))
         (with_localStorage
            (delete (record_key (chosen annotation (keyed annotation w)))
               (localStorage w))
            (keyed annotation (keyed annotation w)))).
Proof.
  unfold removeStoredAnnotation, keyForAnnotation, bind.
  rewrite getUniqueKey_equation, keyForStore_equation.
  unfold on_localStorage, Store.remove, Store.removeItem, modify, ret.
  destruct (keyed_frame annotation (keyed annotation w))
    as (Hl2 & Hc2 & _).
  destruct (keyed_frame annotation w) as (Hl1 & Hc1 & _).
  cbv beta iota.
  change (cache (with_localStorage ?ls ?x)) with (cache x).
  rewrite Hl2, Hl1, Hc2, Hc1. reflexivity.
Qed.

Lemma stored_equation (annotation : loc) (w : world) :
  addAnnotation annotation w
  = match Store.set (quota w)
            (ANNOTATION_PREFIX
             +:+ to_string (chosen annotation (keyed annotation w)))
            (VObj (content annotation (keyed annotation (keyed annotation w))))
            (VNum 3600) (localStorage w) with
    | Return _ ls =>
        Return annotation
          (with_localStorage ls (keyed annotation (keyed annotation w)))
    | Throw e ls =>
        Throw e (with_localStorage ls (keyed annotation (keyed annotation w)))
    end /\
  updateStoredAnnotation annotation w = addAnnotation annotation w.
Proof.
  unfold addAnnotation, updateStoredAnnotation, keyForAnnotation, bind.
  rewrite getUniqueKey_equation, keyForStore_equation.
  unfold gets, on_localStorage, ret.
  destruct (keyed_frame annotation (keyed annotation w))
    as (Hl2 & _ & _ & _ & Hq2 & _).
  destruct (keyed_frame annotation w) as (Hl1 & _ & _ & _ & Hq1 & _).
  rewrite Hl2, Hl1, Hq2, Hq1.
  split; now destruct (Store.set _ _ _ _ _).
Qed.


Lemma chosen_uri_set (annotation : loc) (w : world) :
  chosen annotation (uri_set annotation w) = chosen annotation w.
Proof.
  unfold chosen, uri_set. rewrite BrowserFacts.content_set_content_eq.
  now rewrite ObjFacts.get_prop_set_prop_ne by discriminate.
Qed.

(** The world after the two calls of [getUniqueKey] that every method
    makes. *)
Lemma keyed_twice_frame (annotation : loc) (w : world) :
  localStorage (keyed annotation (keyed annotation w)) = localStorage w /\
  cache (keyed annotation (keyed annotation w)) = cache w /\
  href (keyed annotation (keyed annotation w)) = href w /\
  quota (keyed annotation (keyed annotation w)) = quota w /\
  reported (keyed annotation (keyed annotation w)) = reported w /\
  get_prop "uuid" (content annotation (keyed annotation (keyed annotation w)))
  = chosen annotation (keyed annotation w) /\
  (forall k, k <> "uuid" ->
     get_own k (content annotation (keyed annotation (keyed annotation w)))
     = get_own k (content annotation w)).
Proof.
  destruct (keyed_frame annotation (keyed annotation w))
    as (Hl2 & Hc2 & Hh2 & _ & Hq2 & Hr2).
  destruct (keyed_frame annotation w) as (Hl1 & Hc1 & Hh1 & _ & Hq1 & Hr1).
  repeat split; try congruence.
  - apply uuid_keyed.
  - intros k Hk. now rewrite !other_props_keyed.
Qed.

(** How [create], [update] and [delete] end. *)
Lemma create_cases (annotation : loc) (w : world) :
  let w2 := keyed annotation (keyed annotation (uri_set annotation w)) in
  let uuid := chosen annotation (keyed annotation (uri_set annotation w)) in
  exists w1,
    create annotation w = Return annotation w1 /\
    heap w1 = heap w2 /\ entropy w1 = entropy w2 /\ href w1 = href w /\
    (uuid_source w1 = uuid_source w /\ quota w1 = quota w) /\
    match Store.set (quota w) (ANNOTATION_PREFIX +:+ to_string uuid)
            (VObj (content annotation w2)) (VNum 3600) (localStorage w) with
    | Return _ ls =>
        localStorage w1 = ls /\ reported w1 = reported w /\
        cache w1
        = <[to_string (get_prop "id" (content annotation w2))
            := Ref annotation]> (cache w)
    | Throw e ls =>
        localStorage w1 = ls /\ reported w1 = (reported w ++ [e])%list /\
        cache w1 = cache w
    end.
Proof.
  intros w2 uuid.
  unfold create, bind at 1, try_catch, bind at 1, URI, gets, bind at 1, write,
    modify. fold (uri_set annotation w).
  unfold bind at 1.
  destruct (stored_equation annotation (uri_set annotation w)) as [Hadd _].
  rewrite Hadd. fold w2. fold uuid.
  change (quota (uri_set annotation w)) with (quota w).
  change (localStorage (uri_set annotation w)) with (localStorage w).
  destruct (keyed_twice_frame annotation (uri_set annotation w))
    as (Hl & Hc & Hh & Hq & Hr & _). fold w2 in Hl, Hc, Hh, Hq, Hr.
  assert (Hu : uuid_source w2 = uuid_source w).
  { unfold w2.
    destruct (keyed_frame annotation (keyed annotation (uri_set annotation w)))
      as (_ & _ & _ & -> & _).
    now destruct (keyed_frame annotation (uri_set annotation w))
      as (_ & _ & _ & -> & _). }
  clear Hadd. clearbody w2 uuid.
  destruct (Store.set _ _ _ _ _) as [[] ls | e ls].
  - unfold bind, read, gets, onError, modify, ret. eexists.
    split; [reflexivity|]. simpl. rewrite Hc. repeat split; auto.
  - unfold onError, modify, ret. eexists. split; [reflexivity|].
    simpl. rewrite Hr. repeat split; auto.
Qed.

Lemma update_cases (annotation : loc) (w : world) :
  let w2 := keyed annotation (keyed annotation w) in
  let uuid := chosen annotation (keyed annotation w) in
  exists w1,
    update annotation w = Return annotation w1 /\
    heap w1 = heap w2 /\ entropy w1 = entropy w2 /\ cache w1 = cache w /\
    match Store.set (quota w) (ANNOTATION_PREFIX +:+ to_string uuid)
            (VObj (content annotation w2)) (VNum 3600) (localStorage w) with
    | Return _ ls => localStorage w1 = ls /\ reported w1 = reported w
    | Throw e ls =>
        localStorage w1 = ls /\ reported w1 = (reported w ++ [e])%list
    end.
Proof.
  intros w2 uuid.
  unfold update, bind at 1, try_catch, bind at 1.
  destruct (stored_equation annotation w) as [Hadd Hupd].
  rewrite Hupd, Hadd. fold w2. fold uuid.
  destruct (keyed_twice_frame annotation w)
    as (Hl & Hc & Hh & Hq & Hr & _). fold w2 in Hl, Hc, Hh, Hq, Hr.
  clear Hadd Hupd. clearbody w2 uuid.
  destruct (Store.set _ _ _ _ _) as [[] ls | e ls].
  - unfold ret. eexists. split; [reflexivity|]. simpl. auto.
  - unfold onError, modify, ret. eexists. split; [reflexivity|].
    simpl. rewrite Hr. auto.
Qed.

Lemma delete_equation (annotation : loc) (w : world) :
  delete_ annotation w
  = Return annotation
      (with_cache
         (delete (to_string (chosen annotation w)) (cache w))
         (with_localStorage
            (delete (record_key (chosen annotation (keyed annotation w)))
               (localStorage w))
            (keyed annotation (keyed annotation w)))).
Proof.
  unfold delete_, bind at 1, try_catch, bind at 1.
  now rewrite removeStoredAnnotation_equation.
Qed.

Lemma content_of_heap (l : loc) (w w' : world) :
  heap w = heap w' -> content l w = content l w'.
Proof. unfold content. now intros ->. Qed.

Lemma set_record (fits : gmap string text -> bool) (key : string)
  (fields : obj) (ls : gmap string text) :
  match Store.set fits key (VObj fields) (VNum 3600) ls with
  | Return _ ls' =>
      ls' = <[Store.prefixed key := JsonText (json_doc (VObj fields))]> ls
  | Throw e ls' => ls' = ls /\ exists msg, e = TypeError msg
  end.
Proof.
  rewrite StoreMoreFacts.set_equation.
  destruct (has_bigint (VObj fields)); [eauto|].
  cbn [truthy Z.eqb negb]. destruct (fits _); eauto.
Qed.


(** X9. An [update] that reported no error has stored the annotation as it
    is under the key of its [uuid]: [get] of that key returns the document
    of its properties. [update] changes no property but [uuid], which it
    keeps when it is truthy; in particular it does not set [uri]. *)
Theorem update_then_get (annotation : loc) (w w1 : world) :
  update annotation w = Return annotation w1 ->
  reported w1 = reported w ->
  Store.get
    (ANNOTATION_PREFIX
     +:+ to_string (get_prop "uuid" (content annotation w1)))
    (localStorage w1)
  = Return (json_doc (VObj (content annotation w1))) (localStorage w1) /\
  (forall k, k <> "uuid" ->
     get_own k (content annotation w1) = get_own k (content annotation w)) /\
  (truthy (get_prop "uuid" (content annotation w)) = true ->
   get_prop "uuid" (content annotation w1)
   = get_prop "uuid" (content annotation w)).
Proof.
  intros Hupd Hrep.
  destruct (update_cases annotation w) as (w1' & Hu & Hheap & _ & _ & Hs).
  rewrite Hupd in Hu. injection Hu as <-.
  rewrite (content_of_heap annotation _ _ Hheap).
  destruct (keyed_twice_frame annotation w) as (_ & _ & _ & _ & _ & Hid & Ho).
  rewrite Hid. split; [|split].
  - pose proof (set_record (quota w)
      (ANNOTATION_PREFIX +:+ to_string (chosen annotation (keyed annotation w)))
      (content annotation (keyed annotation (keyed annotation w)))
      (localStorage w)) as Hset.
    destruct (Store.set _ _ _ _ _) as [[] ls | e ls].
    + destruct Hs as [-> _]. subst ls.
      now rewrite StoreMoreFacts.get_equation, lookup_insert_eq.
    + destruct Hs as [_ Hr]. rewrite Hrep in Hr. symmetry in Hr.
      now apply LocalFacts.app_one_neq in Hr.
  - exact Ho.
  - intros Ht.
    assert (Hc : chosen annotation w = get_prop "uuid" (content annotation w))
      by (unfold chosen; now rewrite Ht).
    rewrite chosen_keyed; [exact Hc | now rewrite Hc].
Qed.

Lemma update_then_get_witness :
  let w1 := final_state (update 0%nat page) in
  Store.get
    (ANNOTATION_PREFIX +:+ to_string (get_prop "uuid" (content 0%nat w1)))
    (localStorage w1)
  = Return (json_doc (VObj (content 0%nat w1))) (localStorage w1) /\
  (forall k, k <> "uuid" ->
     get_own k (content 0%nat w1) = get_own k (content 0%nat page)) /\
  (truthy (get_prop "uuid" (content 0%nat page)) = true ->
   get_prop "uuid" (content 0%nat w1) = get_prop "uuid" (content 0%nat page)).
Proof.
  cbv zeta.
  apply (update_then_get 0%nat page (final_state (update 0%nat page))).
  - vm_compute. reflexivity.
  - reflexivity.
Defined.

Lemma generates_frame (w w' : world) :
  uuid_source w' = uuid_source w ->
  generates_identifiers w -> generates_identifiers w'.
Proof. unfold generates_identifiers. now intros ->. Qed.

(** The identifier [create] leaves on the annotation is truthy, and a
    later method settles on it again. *)
Lemma created_identifier (annotation : loc) (w w1 : world) :
  generates_identifiers w ->
  create annotation w = Return annotation w1 ->
  truthy (get_prop "uuid" (content annotation w1)) = true /\
  chosen annotation w1 = get_prop "uuid" (content annotation w1) /\
  chosen annotation (keyed annotation w1)
  = get_prop "uuid" (content annotation w1) /\
  get_prop "uuid" (content annotation w1)
  = chosen annotation (keyed annotation (uri_set annotation w)).
Proof.
  intros Hgen Hc.
  destruct (create_cases annotation w) as (w1' & Hc' & Hheap & _).
  rewrite Hc in Hc'. injection Hc' as <-.
  rewrite (content_of_heap annotation _ _ Hheap).
  destruct (keyed_twice_frame annotation (uri_set annotation w))
    as (_ & _ & _ & _ & _ & Hid & _).
  rewrite Hid.
  assert (Ht : truthy (chosen annotation
                         (keyed annotation (uri_set annotation w))) = true).
  { apply chosen_truthy. eapply generates_frame; [|exact Hgen].
    now destruct (keyed_frame annotation (uri_set annotation w))
      as (_ & _ & _ & -> & _). }
  assert (Hch : chosen annotation w1
                = chosen annotation (keyed annotation (uri_set annotation w))).
  { unfold chosen at 1. rewrite (content_of_heap annotation _ _ Hheap), Hid.
    now rewrite Ht. }
  repeat split; auto.
  rewrite chosen_keyed; [exact Hch | now rewrite Hch].
Qed.

(** X10. [delete] undoes [create]: after a [create] that reported no error,
    on a page whose generated identifiers are non-empty, [delete] of the
    same annotation reports nothing and removes the record [create] stored,
    so that the storage is what it was before the [create] if the key was
    free, and [get] of the key returns [null]. *)
Theorem create_then_delete (annotation : loc) (w w1 : world) :
  generates_identifiers w ->
  create annotation w = Return annotation w1 ->
  reported w1 = reported w ->
  exists w2,
    delete_ annotation w1 = Return annotation w2 /\
    reported w2 = reported w /\
    localStorage w2
    = delete (record_key (get_prop "uuid" (content annotation w1)))
        (localStorage w) /\
    (localStorage w !! record_key (get_prop "uuid" (content annotation w1))
     = None -> localStorage w2 = localStorage w) /\
    Store.get
      (ANNOTATION_PREFIX
       +:+ to_string (get_prop "uuid" (content annotation w1)))
      (localStorage w2)
    = Return VNull (localStorage w2).
Proof.
  intros Hgen Hc Hrep.
  destruct (created_identifier annotation w w1 Hgen Hc)
    as (Ht & Hch & Hch2 & Hid).
  destruct (create_cases annotation w)
    as (w1' & Hc' & Hheap & _ & _ & _ & Hs).
  rewrite Hc in Hc'. injection Hc' as <-.
  pose proof (set_record (quota w)
    (ANNOTATION_PREFIX +:+ to_string
       (chosen annotation (keyed annotation (uri_set annotation w))))
    (content annotation
       (keyed annotation (keyed annotation (uri_set annotation w))))
    (localStorage w)) as Hset.
  destruct (Store.set _ _ _ _ _) as [[] ls | e ls].
  2:{ destruct Hs as (_ & Hr & _). rewrite Hrep in Hr. symmetry in Hr.
      now apply LocalFacts.app_one_neq in Hr. }
  destruct Hs as (Hl & _ & _). rewrite Hset in Hl. clear Hset.
  rewrite delete_equation. eexists. split; [reflexivity|].
  destruct (keyed_twice_frame annotation w1) as (_ & _ & _ & _ & Hr2 & _).
  cbn [reported localStorage with_cache with_localStorage].
  rewrite Hch2, Hr2, Hrep, Hl, <- Hid.
  assert (Hdel :
    delete (record_key (get_prop "uuid" (content annotation w1)))
      (<[Store.prefixed
           (ANNOTATION_PREFIX
            +:+ to_string (get_prop "uuid" (content annotation w1))) :=
         JsonText
           (json_doc
              (VObj
                 (content annotation
                    (keyed annotation
                       (keyed annotation (uri_set annotation w))))))]>
         (localStorage w))
    = delete (record_key (get_prop "uuid" (content annotation w1)))
        (localStorage w)).
  { unfold record_key. apply delete_insert_eq. }
  rewrite Hdel. repeat split.
  - intros Hfree. now apply delete_id.
  - rewrite StoreMoreFacts.get_equation. fold (record_key
      (get_prop "uuid" (content annotation w1))).
    rewrite lookup_delete_eq.
    now rewrite delete_id by apply lookup_delete_eq.
Qed.

Lemma page_generates : generates_identifiers page.
Proof. intros n. discriminate. Qed.

Lemma create_then_delete_witness :
  exists w2,
    delete_ 0%nat (final_state (create 0%nat page)) = Return 0%nat w2 /\
    reported w2 = reported page /\
    localStorage w2
    = delete
        (record_key
           (get_prop "uuid" (content 0%nat (final_state (create 0%nat page)))))
        (localStorage page) /\
    (localStorage page
     !! record_key
          (get_prop "uuid" (content 0%nat (final_state (create 0%nat page))))
     = None -> localStorage w2 = localStorage page) /\
    Store.get
      (ANNOTATION_PREFIX
       +:+ to_string
             (get_prop "uuid"
                (content 0%nat (final_state (create 0%nat page)))))
      (localStorage w2)
    = Return VNull (localStorage w2).
Proof.
  apply (create_then_delete 0%nat page (final_state (create 0%nat page))).
  - exact page_generates.
  - vm_compute. reflexivity.
  - reflexivity.
Defined.

(** X11. One string under the annotation prefix that is not a JSON text
    hides every annotation: [query] reports a SyntaxError and returns no
    results and a total of 0, whatever records are stored. *)
Theorem query_hides_all_on_unparsable_text (queryObj : jsref) (w : world)
  (k s : string) :
  localStorage w !! k = Some (RawText s) ->
  starts_with annotation_namespace k = true ->
  exists w1,
    query queryObj w
    = Return (VObj [("results", VArr []);
                    ("meta", VObj [("total", VNum 0)])]) w1 /\
    reported w1
    = (reported w ++ [SyntaxError "Unexpected token in JSON"])%list.
Proof.
  intros Hk Hp.
  destruct (StoreMoreFacts.all_throws ANNOTATION_PREFIX k s (localStorage w)
              Hk Hp) as (ls' & Hall).
  unfold query, bind at 1, try_catch, loadAnnotationsFromStore, bind at 1,
    on_localStorage.
  rewrite Hall. unfold bind, onError, modify, ret.
  eexists. split; reflexivity.
Qed.

Lemma query_hides_all_on_unparsable_text_witness :
  exists w1,
    query (Val VUndefined)
      (with_localStorage
         (<["annotator.offline/annotation.x" := RawText "oops"]>
            (localStorage (final_state (create 0%nat page))))
         (final_state (create 0%nat page)))
    = Return (VObj [("results", VArr []);
                    ("meta", VObj [("total", VNum 0)])]) w1 /\
    reported w1
    = (reported
         (with_localStorage
            (<["annotator.offline/annotation.x" := RawText "oops"]>
               (localStorage (final_state (create 0%nat page))))
            (final_state (create 0%nat page)))
       ++ [SyntaxError "Unexpected token in JSON"])%list.
Proof.
  apply (query_hides_all_on_unparsable_text (Val VUndefined) _
           "annotator.offline/annotation.x" "oops").
  - apply lookup_insert_eq.
  - reflexivity.
Defined.

(** X12. [create] files the annotation in the cache under its [id], and
    [delete] evicts the entry under its [uuid]: after a [create] that
    reported no error and a [delete], the entry is still in the cache
    unless [id] and [uuid] have the same string. *)
Theorem delete_evicts_another_key (annotation : loc) (w w1 w2 : world) :
  generates_identifiers w ->
  create annotation w = Return annotation w1 ->
  reported w1 = reported w ->
  delete_ annotation w1 = Return annotation w2 ->
  cache w1 !! to_string (get_prop "id" (content annotation w))
  = Some (Ref annotation) /\
  cache w2
  = delete (to_string (get_prop "uuid" (content annotation w1))) (cache w1) /\
  (to_string (get_prop "id" (content annotation w))
   <> to_string (get_prop "uuid" (content annotation w1)) ->
   cache w2 !! to_string (get_prop "id" (content annotation w))
   = Some (Ref annotation)).
Proof.
  intros Hgen Hc Hrep Hd.
  destruct (created_identifier annotation w w1 Hgen Hc)
    as (Ht & Hch & Hch2 & Hid).
  destruct (create_cases annotation w)
    as (w1' & Hc' & Hheap & _ & _ & _ & Hs).
  rewrite Hc in Hc'. injection Hc' as <-.
  assert (Hcache : cache w1 !! to_string (get_prop "id" (content annotation w))
                   = Some (Ref annotation)).
  { destruct (Store.set _ _ _ _ _) as [[] ls | e ls].
    - destruct Hs as (_ & _ & ->).
      destruct (keyed_twice_frame annotation (uri_set annotation w))
        as (_ & _ & _ & _ & _ & _ & Ho).
      assert (Hsame :
        get_prop "id"
          (content annotation
             (keyed annotation (keyed annotation (uri_set annotation w))))
        = get_prop "id" (content annotation w)).
      { unfold get_prop. rewrite (Ho "id") by discriminate.
        unfold uri_set. rewrite BrowserFacts.content_set_content_eq.
        now rewrite ObjFacts.get_own_set_prop_ne by discriminate. }
      rewrite Hsame. apply lookup_insert_eq.
    - destruct Hs as (_ & Hr & _). rewrite Hrep in Hr. symmetry in Hr.
      now apply LocalFacts.app_one_neq in Hr. }
  rewrite delete_equation in Hd. injection Hd as <-.
  cbn [cache with_cache]. rewrite Hch.
  repeat split; auto.
  intros Hne. now rewrite lookup_delete_ne.
Qed.

Lemma delete_evicts_another_key_witness :
  cache (final_state (create 0%nat page))
  !! to_string (get_prop "id" (content 0%nat page))
  = Some (Ref 0%nat) /\
  cache (final_state (delete_ 0%nat (final_state (create 0%nat page))))
  = delete
      (to_string
         (get_prop "uuid" (content 0%nat (final_state (create 0%nat page)))))
      (cache (final_state (create 0%nat page))) /\
  (to_string (get_prop "id" (content 0%nat page))
   <> to_string
        (get_prop "uuid" (content 0%nat (final_state (create 0%nat page)))) ->
   cache (final_state (delete_ 0%nat (final_state (create 0%nat page))))
   !! to_string (get_prop "id" (content 0%nat page))
   = Some (Ref 0%nat)).
Proof.
  apply (delete_evicts_another_key 0%nat page
           (final_state (create 0%nat page))
           (final_state (delete_ 0%nat (final_state (create 0%nat page))))).
  - exact page_generates.
  - vm_compute. reflexivity.
  - reflexivity.
  - vm_compute. reflexivity.
Defined.

(** X13. [create] never throws; it sets [uri] to the location of the page
    and settles the [uuid] whether or not the record could be stored: a
    truthy [uuid] is kept and no identifier is generated; otherwise the
    next generated identifier, if it is not empty, becomes the [uuid]. *)
Theorem create_stamps_the_annotation (annotation : loc) (w : world) :
  exists w1,
    create annotation w = Return annotation w1 /\
    get_prop "uri" (content annotation w1) = VStr (href w) /\
    (truthy (get_prop "uuid" (content annotation w)) = true ->
     get_prop "uuid" (content annotation w1)
     = get_prop "uuid" (content annotation w) /\
     entropy w1 = entropy w) /\
    (truthy (get_prop "uuid" (content annotation w)) = false ->
     uuid_source w (entropy w) <> "" ->
     get_prop "uuid" (content annotation w1)
     = VStr (uuid_source w (entropy w)) /\
     entropy w1 = S (entropy w)).
Proof.
  destruct (create_cases annotation w)
    as (w1 & Hc & Hheap & Hent & _ & _ & _).
  exists w1. split; [exact Hc|].
  rewrite (content_of_heap annotation _ _ Hheap), Hent.
  destruct (keyed_twice_frame annotation (uri_set annotation w))
    as (_ & _ & _ & _ & _ & Hid & Ho).
  rewrite Hid.
  assert (Hold : get_prop "uuid" (content annotation (uri_set annotation w))
                 = get_prop "uuid" (content annotation w)).
  { unfold uri_set. rewrite BrowserFacts.content_set_content_eq.
    now apply ObjFacts.get_prop_set_prop_ne. }
  split; [|split].
  - unfold get_prop. rewrite (Ho "uri") by discriminate.
    unfold uri_set. rewrite BrowserFacts.content_set_content_eq.
    now rewrite ObjFacts.get_own_set_prop_eq.
  - intros Ht.
    assert (Hch : chosen annotation (uri_set annotation w)
                  = get_prop "uuid" (content annotation w))
      by (unfold chosen; now rewrite Hold, Ht).
    rewrite chosen_keyed by now rewrite Hch.
    split; [exact Hch|].
    rewrite !entropy_keyed, uuid_keyed, Hch, Ht, Hold, Ht. reflexivity.
  - intros Hf Hne.
    assert (Hch : chosen annotation (uri_set annotation w)
                  = VStr (uuid_source w (entropy w)))
      by (unfold chosen; now rewrite Hold, Hf).
    assert (Ht : truthy (VStr (uuid_source w (entropy w))) = true).
    { simpl. destruct (String.eqb (uuid_source w (entropy w)) "") eqn:E;
        [|reflexivity]. apply String.eqb_eq in E. contradiction. }
    rewrite chosen_keyed by now rewrite Hch.
    split; [exact Hch|].
    rewrite !entropy_keyed, uuid_keyed, Hch, Ht, Hold, Hf. reflexivity.
Qed.

Lemma calls_keep_the_records (cs : list local_call) (w : world) :
  well_formed (localStorage w) ->
  ordinary_records (localStorage w) ->
  ordinary_calls cs w ->
  well_formed (localStorage (after_calls cs w)) /\
  ordinary_records (localStorage (after_calls cs w)).
Proof.
  revert w. induction cs as [|c cs IH]; intros w Hwf Hord Hcs;
    [now split|].
  destruct Hcs as [Hc Hcs]. apply IH; [| |exact Hcs].
  - destruct c as [l | l | l | q];
      [ destruct (LocalFacts.local_backend_keeps_well_formed l
                    (Val VUndefined) w Hwf) as (H & _)
      | destruct (LocalFacts.local_backend_keeps_well_formed l
                    (Val VUndefined) w Hwf) as (_ & H & _)
      | destruct (LocalFacts.local_backend_keeps_well_formed l
                    (Val VUndefined) w Hwf) as (_ & _ & H & _)
      | destruct (LocalFacts.local_backend_keeps_well_formed 0%nat q
                    w Hwf) as (_ & _ & _ & H) ];
      exact H.
  - destruct c as [l | l | l | q];
      [ destruct (LocalFacts.local_backend_keeps_ordinary l
                    (Val VUndefined) w Hwf Hord) as (H & _);
        exact (H Hc)
      | destruct (LocalFacts.local_backend_keeps_ordinary l
                    (Val VUndefined) w Hwf Hord) as (_ & H & _);
        exact (H Hc)
      | destruct (LocalFacts.local_backend_keeps_ordinary l
                    (Val VUndefined) w Hwf Hord) as (_ & _ & H & _);
        exact H
      | destruct (LocalFacts.local_backend_keeps_ordinary 0%nat q
                    w Hwf Hord) as (_ & _ & _ & H);
        exact H ].
Qed.



End LocalMoreFacts.

(** ** More of the HTTP backend *)

Module HttpMoreFacts.
Import JS Browser HttpStorage Spec Spec2.

Lemma append_empty (s : string) : s +:+ "" = s.
Proof.
  induction s as [|c s IH]; [reflexivity|].
  change (String c (s +:+ "") = String c s). now rewrite IH.
Qed.

Lemma append_assoc (a b c : string) : (a +:+ b) +:+ c = a +:+ (b +:+ c).
Proof.
  induction a as [|x a IH]; [reflexivity|].
  change (String x ((a +:+ b) +:+ c) = String x (a +:+ (b +:+ c))).
  now rewrite IH.
Qed.

Lemma no_brace_app (a b : string) :
  no_brace (a +:+ b) = no_brace a && no_brace b.
Proof.
  induction a as [|x a IH]; [reflexivity|].
  change (no_brace (String x (a +:+ b))
          = no_brace (String x a) && no_brace b).
  cbn [no_brace]. rewrite IH. now rewrite andb_assoc.
Qed.

(** A replacement without dollars is put in as it is. *)
Lemma substitution_plain (matched before after rep : string) :
  no_dollar rep = true -> substitution matched before after rep = rep.
Proof.
  induction rep as [|c rep IH]; intros Hn; [reflexivity|].
  cbn [no_dollar] in Hn. apply andb_true_iff in Hn as [Hc Hrep].
  cbn [substitution]. apply negb_true_iff in Hc. rewrite Hc.
  now rewrite IH.
Qed.

(** A template with one [{id}] and no brace before it. *)
Lemma find_first_id (a b : string) :
  no_brace a = true -> find_first "{id}" (a +:+ "{id}" +:+ b) = Some (a, b).
Proof.
  induction a as [|x a IH]; intros Hn.
  - destruct b; reflexivity.
  - cbn [no_brace] in Hn. apply andb_true_iff in Hn as [Hx Ha].
    change (find_first "{id}" (String x (a +:+ "{id}" +:+ b))
            = Some (String x a, b)).
    cbn [find_first String.prefix].
    destruct (ascii_dec "{" x) as [<- | Hne]; [discriminate|].
    now rewrite IH.
Qed.

(** A template without braces has no place for an id. *)
Lemma find_first_none (pat_rest s : string) :
  no_brace s = true -> find_first (String "{" pat_rest) s = None.
Proof.
  induction s as [|x s IH]; intros Hn.
  - reflexivity.
  - cbn [no_brace] in Hn. apply andb_true_iff in Hn as [Hx Hs].
    cbn [find_first String.prefix].
    destruct (ascii_dec "{" x) as [<- | Hne]; [discriminate|].
    now rewrite IH.
Qed.

Lemma replace_first_id (rep a b : string) :
  no_brace a = true -> no_dollar rep = true ->
  replace_first "{id}" rep (a +:+ "{id}" +:+ b) = a +:+ rep +:+ b.
Proof.
  intros Ha Hrep. unfold replace_first.
  now rewrite find_first_id, substitution_plain.
Qed.

Lemma replace_first_none (pat_rest rep s : string) :
  no_brace s = true -> replace_first (String "{" pat_rest) rep s = s.
Proof. intros Hn. unfold replace_first. now rewrite find_first_none. Qed.

Section Instance.

Variable this : options.
Variable _t : string -> string.

(** [_urlFor] with a prefix and a string as template. *)
Lemma urlFor_of_template (action p t : string) (id : value) :
  prefix this = Some p ->
  get_prop action (urls this) = VStr t ->
  _urlFor this action id
  = replace_first "{id}" (id_text id) (p +:+ t) +:+ "/".
Proof.
  intros Hp Hu. unfold _urlFor. rewrite Hp, Hu. cbn [to_string].
  assert (Hid : to_string (if is_nullish id then VStr "" else id)
                = id_text id)
    by (unfold id_text; now destruct (is_nullish id)).
  now rewrite Hid.
Qed.


(** A template without braces gives the same URL for every id. *)
Lemma urlFor_without_place (action p a : string) (id : value) :
  prefix this = Some p ->
  get_prop action (urls this) = VStr a ->
  no_brace (p +:+ a) = true ->
  _urlFor this action id = p +:+ a +:+ "/".
Proof.
  intros Hp Hu Hn. rewrite (urlFor_of_template action p a id Hp Hu).
  rewrite replace_first_none by exact Hn. now rewrite append_assoc.
Qed.

End Instance.


(** An id that holds a pattern is not put in as it is: [$&] stands for
    the match, so the place stays as it was; and a number from 10^21 on is
    put in in exponent notation. *)
Example urlFor_of_a_pattern :
  _urlFor default_options "update" (VStr "$&") = "/store/annotations/{id}/" /\
  _urlFor default_options "update" (VNum (10 ^ 21))
  = "/store/annotations/1e+21/".
Proof. split; vm_compute; reflexivity. Qed.

Lemma world_eq (w w' : world) :
  heap w = heap w' -> localStorage w = localStorage w' ->
  cache w = cache w' -> href w = href w' ->
  uuid_source w = uuid_source w' -> entropy w = entropy w' ->
  quota w = quota w' -> self_onError w = self_onError w' ->
  reported w = reported w' -> notified w = notified w' ->
  sent w = sent w' -> w = w'.
Proof. destruct w, w'. simpl. intros. now subst. Qed.

Lemma answered_frame (_t : string -> string) (action : string)
  (resp : response) (w : world) :
  heap (answered _t action resp w) = heap w /\
  sent (answered _t action resp w) = sent w /\
  href (answered _t action resp w) = href w /\
  localStorage (answered _t action resp w) = localStorage w.
Proof.
  unfold answered. destruct resp; [auto|]. now destruct (self_onError w).
Qed.

Section Requests.

Variable this : options.
Variable _t : string -> string.

(** [_apiRequest], whatever the transport: the world in which the request
    went out, and what the answer of the transport does to it. *)
Lemma apiRequest_shape (action : string) (obj : loc) (w : world) :
  exists w1,
    self_onError w1 = self_onError w /\
    content obj w1 = stamped obj w /\
    (forall l, l <> obj -> content l w1 = content l w) /\
    sent w1 = (sent w ++ [request_of this action obj w])%list /\
    forall axios,
      _apiRequest this _t axios action obj w
      = Return obj
          (answered _t action
             (axios (length (sent w)) (request_of this action obj w)) w1).
Proof.
  unfold _apiRequest, UUID, URI, bind, read, write, gets, modify, ret.
  cbv beta iota.
  change (content obj (with_entropy (S (entropy w)) w)) with (content obj w).
  rewrite !BrowserFacts.content_set_content_eq.
  change (href (set_content obj _ (with_entropy _ w))) with (href w).
  fold (stamped obj w).
  set (w1 := set_content obj (stamped obj w) _).
  assert (Hc : content obj w1 = stamped obj w)
    by (subst w1; apply BrowserFacts.content_set_content_eq).
  assert (Hs : sent w1 = sent w) by reflexivity.
  assert (Hg : self_onError w1 = self_onError w) by reflexivity.
  assert (Hf : forall l, l <> obj -> content l w1 = content l w).
  { intros l Hl. subst w1.
    rewrite !BrowserFacts.content_set_content_ne by congruence.
    reflexivity. }
  clearbody w1.
  assert (Hreq :
    {| method := _methodFor action;
       url := _urlFor this action (get_prop "id" (content obj w));
       data := if is_method "PUT" (_methodFor action)
                  || is_method "POST" (_methodFor action)
               then content obj w1 else [];
       params := if String.eqb action "search"
                 then [("uri", get_prop "uri" (content obj w1));
                       ("user", get_prop "user" (content obj w1))]
                 else [] |} = request_of this action obj w).
  { unfold request_of.
    rewrite Hc, HttpFacts.stamped_uri, HttpFacts.stamped_user. reflexivity. }
  exists (with_sent (sent w ++ [request_of this action obj w])%list w1).
  split; [exact Hg|]. split; [exact Hc|]. split; [exact Hf|].
  split; [reflexivity|]. intros axios. revert Hreq.
  destruct (is_method "PUT" (_methodFor action)
            || is_method "POST" (_methodFor action));
    destruct (String.eqb action "search");
    cbv beta iota; intros Hreq;
    unfold try_catch, await_axios; rewrite Hreq; clear Hreq; rewrite Hs;
    (destruct (axios (length (sent w)) (request_of this action obj w));
     [ reflexivity
     | unfold _onError, bind, gets, has_onError, answered; simpl; rewrite ?Hg;
       destruct (self_onError w); reflexivity ]).
Qed.

(** X15. On a page whose global object has no [onError] function, what an
    operation of the HTTP backend returns and the world it leaves are the
    same whatever the transport does: an answer, of any content, and a
    failure, of any status, cannot be told apart. *)
Theorem outcome_does_not_depend_on_the_transport
  (axios axios' : nat -> request -> response) (obj : loc) (w : world) :
  self_onError w = false ->
  create this _t axios obj w = create this _t axios' obj w /\
  update this _t axios obj w = update this _t axios' obj w /\
  delete_ this _t axios obj w = delete_ this _t axios' obj w /\
  query this _t axios obj w = query this _t axios' obj w.
Proof.
  intros Hg.
  assert (H : forall action,
            _apiRequest this _t axios action obj w
            = _apiRequest this _t axios' action obj w).
  { intros action.
    destruct (apiRequest_shape action obj w) as (w1 & Hg1 & _ & _ & _ & Heq).
    rewrite !Heq. f_equal. unfold answered. rewrite Hg1, Hg.
    now destruct (axios _ _), (axios' _ _). }
  repeat split; try apply H.
  unfold query, bind. now rewrite H.
Qed.

End Requests.

Lemma outcome_does_not_depend_on_the_transport_witness :
  create default_options (fun s => s) one_row 0%nat page
  = create default_options (fun s => s) (failing 500) 0%nat page /\
  update default_options (fun s => s) one_row 0%nat page
  = update default_options (fun s => s) (failing 500) 0%nat page /\
  delete_ default_options (fun s => s) one_row 0%nat page
  = delete_ default_options (fun s => s) (failing 500) 0%nat page /\
  query default_options (fun s => s) one_row 0%nat page
  = query default_options (fun s => s) (failing 500) 0%nat page.
Proof.
  apply (outcome_does_not_depend_on_the_transport default_options
           (fun s => s) one_row (failing 500) 0%nat page).
  reflexivity.
Defined.



End HttpMoreFacts.

(** ** Headers and request options of the HTTP backend *)

Module HttpOptionsFacts.
Import JS HttpStorage HttpRequestOptions.

Lemma extend_one (target : obj) (k : string) (v : value) :
  v <> VUndefined ->
  StorageAdapter.extend target [(k, v)] = set_prop k v target.
Proof.
  intros Hv. unfold StorageAdapter.extend, keys, get_prop.
  cbn [map fst fold_left get_own]. rewrite String.eqb_refl.
  destruct v; congruence.
Qed.

(** What [_apiRequestOptions] does to the headers of the storage. *)
Lemma headers_after (action : string) (obj : value) (this : options) :
  let this' := final_state (_apiRequestOptions action obj this) in
  emulateHTTP this' = emulateHTTP this /\
  emulateJSON this' = emulateJSON this /\
  headers this'
  = if emulateHTTP this
       && (is_string "PUT" (_methodFor action)
           || is_string "DELETE" (_methodFor action))
    then set_prop "X-HTTP-Method-Override" (_methodFor action) (headers this)
    else headers this.
Proof.
  cbv zeta. unfold _apiRequestOptions, bind, gets, modify, ret.
  destruct (emulateHTTP this
            && (is_string "PUT" (_methodFor action)
                || is_string "DELETE" (_methodFor action))) eqn:E.
  - assert (Hm : _methodFor action <> VUndefined).
    { apply andb_true_iff in E as [_ E].
      destruct (_methodFor action); try discriminate. }
    cbv beta iota. rewrite (extend_one _ _ _ Hm).
    destruct (String.eqb action "search"); [now repeat split|].
    destruct (truthy obj);
      [|destruct (emulateJSON this) eqn:EJ; repeat split; exact EJ].
    unfold JSON_stringify, throw, ret.
    destruct (has_bigint obj); [now repeat split|].
    destruct obj; destruct (emulateJSON this) eqn:EJ; repeat split;
      exact EJ.
  - cbv beta iota.
    destruct (String.eqb action "search"); [now repeat split|].
    destruct (truthy obj);
      [|destruct (emulateJSON this) eqn:EJ; repeat split; exact EJ].
    unfold JSON_stringify, throw, ret.
    destruct (has_bigint obj); [now repeat split|].
    destruct obj; destruct (emulateJSON this) eqn:EJ; repeat split;
      exact EJ.
Qed.

(** The type of the request [_apiRequestOptions] describes. *)
Lemma type_of_options (action : string) (obj : value) (this this' : options)
  (opts : ajax_options) :
  _apiRequestOptions action obj this = Return opts this' ->
  type opts
  = if emulateHTTP this
       && (is_string "PUT" (_methodFor action)
           || is_string "DELETE" (_methodFor action))
    then VStr "POST" else _methodFor action.
Proof.
  unfold _apiRequestOptions, bind, gets, modify, ret.
  destruct (emulateHTTP this
            && (is_string "PUT" (_methodFor action)
                || is_string "DELETE" (_methodFor action)));
    (destruct (String.eqb action "search"); [now intros [= <- _]|]);
    (destruct (truthy obj);
     [ unfold JSON_stringify; destruct (has_bigint obj); [discriminate|];
       destruct obj; destruct (emulateJSON this); now intros [= <- _]
     | destruct (emulateJSON this); now intros [= <- _] ]).
Qed.

(** X17. A header set with [setHeader] is kept in the headers of the
    storage, and reaches no request: [create], [update], [delete] and
    [query] do and return the same with and without it. *)
Theorem setHeader_reaches_no_request (key : string) (value : JS.value)
  (this : options) (_t : string -> string)
  (axios : nat -> Browser.request -> Browser.response)
  (obj : Browser.loc) (w : Browser.world) :
  exists this',
    setHeader key value this = Return tt this' /\
    get_prop key (headers this') = value /\
    create this' _t axios obj w = create this _t axios obj w /\
    update this' _t axios obj w = update this _t axios obj w /\
    delete_ this' _t axios obj w = delete_ this _t axios obj w /\
    query this' _t axios obj w = query this _t axios obj w.
Proof.
  eexists. split; [reflexivity|]. split.
  - apply ObjFacts.get_prop_set_prop_eq.
  - repeat split.
Qed.

(** X18. With [emulateHTTP], the override header that
    [_apiRequestOptions] sets for an update or a delete is set in the headers
    of the storage, whether or not the call returns, and stays there: the
    options of a later create or search have the method of their own action
    as type, and share headers that still name the method of the earlier
    one. *)
Theorem override_header_stays (this : options) (action action' : string)
  (obj obj' : value) (opts : ajax_options) (this2 : options) :
  emulateHTTP this = true ->
  action = "update" \/ action = "destroy" ->
  action' = "create" \/ action' = "search" ->
  _apiRequestOptions action' obj'
    (final_state (_apiRequestOptions action obj this))
  = Return opts this2 ->
  type opts = _methodFor action' /\
  get_prop "X-HTTP-Method-Override" (headers this2) = _methodFor action.
Proof.
  intros He Ha Ha' Hcall.
  destruct (headers_after action obj this) as (He1 & _ & Hh1).
  destruct (headers_after action' obj'
              (final_state (_apiRequestOptions action obj this)))
    as (_ & _ & Hh2).
  rewrite Hcall in Hh2. cbn [final_state] in Hh2.
  pose proof (type_of_options _ _ _ _ _ Hcall) as Ht.
  rewrite He1, He in Hh2, Ht. rewrite He in Hh1.
  assert (Hm : is_string "PUT" (_methodFor action)
               || is_string "DELETE" (_methodFor action) = true)
    by now destruct Ha as [-> | ->].
  assert (Hm' : is_string "PUT" (_methodFor action')
                || is_string "DELETE" (_methodFor action') = false)
    by now destruct Ha' as [-> | ->].
  rewrite Hm in Hh1. rewrite Hm' in Hh2, Ht. cbn [andb] in *.
  split; [exact Ht|]. rewrite Hh2, Hh1.
  apply ObjFacts.get_prop_set_prop_eq.
Qed.

Lemma override_header_stays_witness :
  type {| type := VStr "POST"; dataType := "json";
          error_receiver := Browser.TheStorage;
          data := JsonData (Serialized (JsonText (VObj [])));
          contentType := Some "application/json; charset=utf-8" |}
  = _methodFor "create" /\
  get_prop "X-HTTP-Method-Override"
    (headers
       (Options true false [("X-HTTP-Method-Override", VStr "PUT")] true
          (Some "/store") []))
  = _methodFor "update".
Proof.
  apply (override_header_stays
           (Options true false [] true (Some "/store") [])
           "update" "create" (VObj [("id", VNum 1)]) (VObj [])).
  - reflexivity.
  - now left.
  - now left.
  - reflexivity.
Defined.

(** Without [emulateHTTP], [_apiRequestOptions] leaves the headers of the
    storage as they are. *)
Lemma headers_kept_without_emulation (action : string) (obj : value)
  (this : options) :
  emulateHTTP this = false ->
  headers (final_state (_apiRequestOptions action obj this)) = headers this.
Proof.
  intros He. destruct (headers_after action obj this) as (_ & _ & ->).
  now rewrite He.
Qed.

End HttpOptionsFacts.

(** ** More of the adapter *)

Module AdapterMoreFacts.
Import JS Browser StorageAdapter Spec Spec2.

Lemma copy_is_new (o : obj) (obj : loc) (w : world) :
  is_Some (heap w !! obj) ->
  fst (alloc o w) <> obj /\
  content obj (snd (alloc o w)) = content obj w /\
  content (fst (alloc o w)) (snd (alloc o w)) = o.
Proof.
  intros [x Hx].
  destruct (BrowserFacts.alloc_fresh o w) as [Hf Hc].
  assert (Hne : fst (alloc o w) <> obj) by congruence.
  repeat split; auto.
  unfold alloc. simpl. now apply BrowserFacts.content_set_content_ne.
Qed.

Lemma json_doc_lacks (k : string) (fields : obj) :
  get_own k fields = None -> lacks k (json_doc (VObj fields)).
Proof.
  unfold lacks. induction fields as [|[k' x] fields IH]; intros Hk.
  - now exists [].
  - simpl in Hk. destruct (String.eqb k k') eqn:E; [discriminate|].
    destruct (IH Hk) as (fields' & Hj & Hg). simpl in Hj.
    injection Hj as Hj.
    destruct x;
      (eexists; split; [simpl; rewrite Hj; reflexivity|];
       simpl; rewrite ?E; exact Hg).
Qed.

Section Adapter.

Variable runHook : string -> loc -> world -> settled unit * world.
Variable store : string -> loc -> world -> settled jsref * world.

Lemma run_is_a_cycle (op : operation) (obj : loc) (w : world)
  (tr : list event) :
  op = Create \/ is_nullish (get_prop "uuid" (content obj w)) = false ->
  run runHook store op obj (w, tr)
  = _cycle runHook store obj (storeFunc op) (beforeEvent op) (afterEvent op)
      (w, tr).
Proof.
  intros H. destruct op; simpl; [reflexivity| |];
    (destruct H as [H | H]; [discriminate|]);
    unfold update, delete_; simpl; now rewrite H.
Qed.

(** The cycle, when the before-hook and the store are fulfilled and the
    annotation can be emptied. *)
Lemma cycle_fulfilled (obj : loc) (f b a : string) (w w1 w2 w3 : world)
  (copy : loc) (rv : jsref) (tr : list event) :
  runHook b obj w = (Fulfilled tt, w1) ->
  alloc (safe_copy (content obj w1)) w1 = (copy, w2) ->
  store f copy w2 = (Fulfilled rv, w3) ->
  get_own "hasOwnProperty" (content obj w3) = None ->
  _cycle runHook store obj f b a (w, tr)
  = (Promise (Fulfilled obj),
     (snd (runHook a obj (merged obj rv w3)),
      (tr ++ [HookRun b obj (content obj w);
              StoreCall f copy (safe_copy (content obj w1));
              HookRun a obj (content obj (merged obj rv w3))])%list)).
Proof.
  intros Hb Ha Hs Hplain.
  rewrite (AdapterFacts.cycle_after_the_hook runHook store _ _ _ _ _ _ _ Hb).
  rewrite Ha. cbn [fst snd]. rewrite Hs.
  destruct (AdapterFacts.empty_but_local_returns obj w3) as (w4 & -> & _);
    [|reflexivity].
  unfold has_own. now rewrite Hplain.
Qed.

(** X19. A before-hook that is rejected cancels the operation: the call is
    rejected with the reason of the hook, the store is not called, and the
    world is as the hook left it. *)
Theorem rejected_before_hook_cancels (op : operation) (obj : loc)
  (w w1 : world) (tr : list event) (e : error) :
  op = Create \/ is_nullish (get_prop "uuid" (content obj w)) = false ->
  runHook (beforeEvent op) obj w = (Rejected e, w1) ->
  run runHook store op obj (w, tr)
  = (Promise (Rejected e),
     (w1, (tr ++ [HookRun (beforeEvent op) obj (content obj w)])%list)).
Proof.
  intros Hop Hb. rewrite run_is_a_cycle by exact Hop.
  unfold _cycle. now rewrite Hb.
Qed.

(** X20. When the store rejects, the call is rejected with the reason of
    the store, the after-hook is not run, and the adapter has touched
    nothing of the annotation: the store was given another object, and the
    world is as the store left it. *)
Theorem rejecting_store_keeps_the_annotation (op : operation) (obj : loc)
  (w w1 w2 w3 : world) (copy : loc) (tr : list event) (e : error) :
  op = Create \/ is_nullish (get_prop "uuid" (content obj w)) = false ->
  runHook (beforeEvent op) obj w = (Fulfilled tt, w1) ->
  is_Some (heap w1 !! obj) ->
  alloc (safe_copy (content obj w1)) w1 = (copy, w2) ->
  store (storeFunc op) copy w2 = (Rejected e, w3) ->
  copy <> obj /\
  content obj w2 = content obj w1 /\
  run runHook store op obj (w, tr)
  = (Promise (Rejected e),
     (w3, (tr ++ [HookRun (beforeEvent op) obj (content obj w);
                  StoreCall (storeFunc op) copy
                    (safe_copy (content obj w1))])%list)).
Proof.
  intros Hop Hb Hlive Ha Hs.
  destruct (copy_is_new (safe_copy (content obj w1)) obj w1 Hlive)
    as (Hne & Hc & _).
  rewrite Ha in Hne, Hc. cbn [fst snd] in Hne, Hc.
  repeat split; auto.
  rewrite run_is_a_cycle by exact Hop.
  rewrite (AdapterFacts.cycle_after_the_hook runHook store _ _ _ _ _ _ _ Hb).
  rewrite Ha. cbn [fst snd]. now rewrite Hs.
Qed.

End Adapter.

Lemma rejected_before_hook_cancels_witness :
  run (fun _ _ w => (Rejected (TypeError "not now"), w)) returns_id_7
    Delete 0%nat (page_with [("uuid", VStr "u")], [])
  = (Promise (Rejected (TypeError "not now")),
     (page_with [("uuid", VStr "u")],
      ([] ++ [HookRun (beforeEvent Delete) 0%nat
                (content 0%nat (page_with [("uuid", VStr "u")]))])%list)).
Proof.
  apply (rejected_before_hook_cancels
           (fun _ _ w => (Rejected (TypeError "not now"), w)) returns_id_7
           Delete 0%nat (page_with [("uuid", VStr "u")])).
  - right. reflexivity.
  - reflexivity.
Defined.

Lemma rejecting_store_keeps_the_annotation_witness :
  1%nat <> 0%nat /\
  content 0%nat (snd (alloc (safe_copy (content 0%nat annotated_page))
                        annotated_page))
  = content 0%nat annotated_page /\
  run silent_hooks (fun _ _ w => (Rejected QuotaExceededError, w))
    Create 0%nat (annotated_page, [])
  = (Promise (Rejected QuotaExceededError),
     (snd (alloc (safe_copy (content 0%nat annotated_page)) annotated_page),
      ([] ++ [HookRun (beforeEvent Create) 0%nat
                (content 0%nat annotated_page);
              StoreCall (storeFunc Create) 1%nat
                (safe_copy (content 0%nat annotated_page))])%list)).
Proof.
  apply (rejecting_store_keeps_the_annotation silent_hooks
           (fun _ _ w => (Rejected QuotaExceededError, w))
           Create 0%nat annotated_page annotated_page
           (snd (alloc (safe_copy (content 0%nat annotated_page))
                   annotated_page))
           (snd (alloc (safe_copy (content 0%nat annotated_page))
                   annotated_page))
           1%nat [] QuotaExceededError).
  - now left.
  - reflexivity.
  - vm_compute. eauto.
  - vm_compute. reflexivity.
  - reflexivity.
Defined.

(** *** The adapter over the local backend *)

Lemma keyed_other (annotation l : loc) (w : world) :
  l <> annotation -> content l (keyed annotation w) = content l w.
Proof.
  intros Hl. unfold keyed.
  rewrite BrowserFacts.content_set_content_ne by congruence.
  now destruct (truthy (get_prop "uuid" (content annotation w))).
Qed.

Lemma uri_set_other (annotation l : loc) (w : world) :
  l <> annotation -> content l (uri_set annotation w) = content l w.
Proof.
  intros Hl. unfold uri_set.
  now rewrite BrowserFacts.content_set_content_ne by congruence.
Qed.

Lemma chosen_defined (annotation : loc) (w : world) :
  chosen annotation w <> VUndefined.
Proof.
  unfold chosen.
  destruct (get_prop "uuid" (content annotation w)) as [| |b|n|n|u|l|fs];
    simpl; try discriminate.
  - now destruct b.
  - now destruct (n =? 0)%Z.
  - now destruct (n =? 0)%Z.
  - now destruct (String.eqb u "").
Qed.

Lemma get_prop_merged (obj : loc) (rv : jsref) (w : world) (k : string)
  (v : value) :
  rv <> Ref obj -> get_own "hasOwnProperty" (content obj w) = None ->
  get_prop k (fields_of rv w) = v -> v <> VUndefined ->
  get_prop k (content obj (merged obj rv w)) = v.
Proof.
  intros Hne Hplain Hk Hv. unfold get_prop at 1.
  rewrite (AdapterFacts.merged_own obj rv w Hne), Hk;
    [now destruct v|].
  unfold has_own. now rewrite Hplain.
Qed.

Lemma local_kept_by_merge (obj : loc) (rv : jsref) (w : world) :
  rv <> Ref obj -> get_own "hasOwnProperty" (content obj w) = None ->
  get_own "_local" (fields_of rv w) = None ->
  get_own "_local" (content obj (merged obj rv w))
  = get_own "_local" (content obj w).
Proof.
  intros Hne Hplain Hk.
  rewrite (AdapterFacts.merged_own obj rv w Hne).
  - unfold get_prop. now rewrite Hk.
  - unfold has_own. now rewrite Hplain.
Qed.

Section OverTheBackends.

Variable runHook : string -> loc -> world -> settled unit * world.

(** X21. A [create] through the adapter over the local backend, of an
    annotation that has no property of its own named [hasOwnProperty]
    once the before-hook has run, is
    fulfilled with the annotation as soon as the before-hook is, also when
    the storage refuses the record. Afterwards the annotation has the
    address of the page as [uri], the [uuid] of the copy that was stored,
    and the [_local] it had. If no error was reported, the record stored
    under that [uuid] is a document without [_local]. *)
Theorem create_over_the_local_backend (obj : loc) (w w1 : world)
  (tr : list event) :
  runHook "beforeAnnotationCreated" obj w = (Fulfilled tt, w1) ->
  is_Some (heap w1 !! obj) ->
  get_own "hasOwnProperty" (content obj w1) = None ->
  exists copy w3,
    run runHook local_store Create obj (w, tr)
    = (Promise (Fulfilled obj),
       (snd (runHook "annotationCreated" obj (merged obj (Ref copy) w3)),
        (tr ++ [HookRun "beforeAnnotationCreated" obj (content obj w);
                StoreCall "create" copy (safe_copy (content obj w1));
                HookRun "annotationCreated" obj
                  (content obj (merged obj (Ref copy) w3))])%list)) /\
    get_prop "uri" (content obj (merged obj (Ref copy) w3))
    = VStr (href w1) /\
    get_prop "uuid" (content obj (merged obj (Ref copy) w3))
    = get_prop "uuid" (content copy w3) /\
    get_own "_local" (content obj (merged obj (Ref copy) w3))
    = get_own "_local" (content obj w1) /\
    (reported w3 = reported w1 ->
     exists doc,
       localStorage w3
       !! record_key (get_prop "uuid" (content obj (merged obj (Ref copy) w3)))
       = Some (JsonText doc) /\
       lacks "_local" doc).
Proof.
  intros Hb Hlive Hplain.
  rewrite run_is_a_cycle by now left.
  change (beforeEvent Create) with "beforeAnnotationCreated".
  change (afterEvent Create) with "annotationCreated".
  change (storeFunc Create) with "create".
  destruct (copy_is_new (safe_copy (content obj w1)) obj w1 Hlive)
    as (Hne & Hobj & Hcopy).
  destruct (alloc (safe_copy (content obj w1)) w1) as [copy w2] eqn:Ha.
  cbn [fst snd] in Hne, Hobj, Hcopy.
  assert (Hw2 : href w2 = href w1 /\ reported w2 = reported w1 /\
                localStorage w2 = localStorage w1).
  { unfold alloc in Ha. injection Ha as _ <-. repeat split. }
  destruct Hw2 as (Hhref & Hrep2 & Hls2).
  destruct (LocalMoreFacts.create_cases copy w2)
    as (w3 & Hc & Hheap & _ & _ & _ & Hs).
  assert (Hstore : local_store "create" copy w2 = (Fulfilled (Ref copy), w3)).
  { change (local_store "create" copy w2)
      with (as_store LocalStorage.create copy w2).
    unfold as_store. now rewrite Hc. }
  exists copy, w3.
  assert (Href : Ref copy <> Ref obj) by congruence.
  destruct (LocalMoreFacts.keyed_twice_frame copy (uri_set copy w2))
    as (_ & _ & _ & _ & _ & Hid & Ho).
  assert (Hfields : content copy w3
            = content copy (keyed copy (keyed copy (uri_set copy w2))))
    by now apply LocalMoreFacts.content_of_heap.
  assert (Huuid : get_prop "uuid" (content copy w3)
                  = chosen copy (keyed copy (uri_set copy w2)))
    by now rewrite Hfields.
  assert (Hlocal : get_own "_local" (content copy w3) = None).
  { rewrite Hfields, (Ho "_local") by discriminate.
    unfold uri_set. rewrite BrowserFacts.content_set_content_eq.
    rewrite ObjFacts.get_own_set_prop_ne by discriminate.
    rewrite Hcopy. apply AdapterFacts.safe_copy_no_local. }
  assert (Hkept : content obj w3 = content obj w1).
  { rewrite (LocalMoreFacts.content_of_heap obj _ _ Hheap).
    now rewrite !keyed_other, uri_set_other by congruence. }
  assert (Hplain3 : get_own "hasOwnProperty" (content obj w3) = None)
    by now rewrite Hkept.
  assert (Hmuuid : get_prop "uuid" (content obj (merged obj (Ref copy) w3))
                   = get_prop "uuid" (content copy w3)).
  { apply get_prop_merged; [exact Href | exact Hplain3 | reflexivity|].
    rewrite Huuid. apply chosen_defined. }
  split; [now apply (cycle_fulfilled runHook local_store) with (w2 := w2)|].
  split; [|split; [exact Hmuuid | split]].
  - apply get_prop_merged; [exact Href | exact Hplain3 | | discriminate].
    cbn [fields_of]. unfold get_prop.
    rewrite Hfields, (Ho "uri") by discriminate.
    unfold uri_set. rewrite BrowserFacts.content_set_content_eq.
    now rewrite ObjFacts.get_own_set_prop_eq, Hhref.
  - rewrite local_kept_by_merge by assumption. now rewrite Hkept.
  - intros Hrep. rewrite Hmuuid, Huuid.
    pose proof (LocalMoreFacts.set_record (quota w2)
      (LocalStorage.ANNOTATION_PREFIX +:+ to_string
         (chosen copy (keyed copy (uri_set copy w2))))
      (content copy (keyed copy (keyed copy (uri_set copy w2))))
      (localStorage w2)) as Hset.
    destruct (Store.set _ _ _ _ _) as [[] ls | e ls].
    + destruct Hs as (Hl & _ & _). rewrite Hset in Hl.
      eexists. split.
      * rewrite Hl. unfold record_key. apply lookup_insert_eq.
      * apply json_doc_lacks. now rewrite <- Hfields.
    + destruct Hs as (_ & Hr & _). rewrite Hrep2, <- Hrep in Hr.
      symmetry in Hr. now apply LocalFacts.app_one_neq in Hr.
Qed.


End OverTheBackends.

Lemma create_over_the_local_backend_witness :
  exists copy w3,
    run silent_hooks local_store Create 0%nat (annotated_page, [])
    = (Promise (Fulfilled 0%nat),
       (snd (silent_hooks "annotationCreated" 0%nat
               (merged 0%nat (Ref copy) w3)),
        ([] ++ [HookRun "beforeAnnotationCreated" 0%nat
                  (content 0%nat annotated_page);
                StoreCall "create" copy
                  (safe_copy (content 0%nat annotated_page));
                HookRun "annotationCreated" 0%nat
                  (content 0%nat (merged 0%nat (Ref copy) w3))])%list)) /\
    get_prop "uri" (content 0%nat (merged 0%nat (Ref copy) w3))
    = VStr (href annotated_page) /\
    get_prop "uuid" (content 0%nat (merged 0%nat (Ref copy) w3))
    = get_prop "uuid" (content copy w3) /\
    get_own "_local" (content 0%nat (merged 0%nat (Ref copy) w3))
    = get_own "_local" (content 0%nat annotated_page) /\
    (reported w3 = reported annotated_page ->
     exists doc,
       localStorage w3
       !! record_key
            (get_prop "uuid" (content 0%nat (merged 0%nat (Ref copy) w3)))
       = Some (JsonText doc) /\
       lacks "_local" doc).
Proof.
  apply (create_over_the_local_backend silent_hooks 0%nat annotated_page
           annotated_page []).
  - reflexivity.
  - vm_compute. eauto.
  - reflexivity.
Defined.


End AdapterMoreFacts.

(** ** Loading through the adapter *)

Module LoadingFacts.
Import JS Browser StorageAdapter AdapterLoading Spec Spec2.

Section Loading.

Variable runHook : string -> list value -> world -> settled unit * world.



End Loading.


(** The hook of that run is given the record that was created. *)
Example loaded_after_a_create :
  List.filter (on_page (href (after_calls [Creating 0%nat] page))) (stored_records (localStorage (after_calls [Creating 0%nat] page)))
  = [VObj [("text", VStr "hi"); ("uri", VStr "http://example.org/doc");
           ("uuid", VStr "id-0")]].
Proof. vm_compute. reflexivity. Qed.

End LoadingFacts.

(** ** The [noop] store and the identifiers of a session *)

Module SimpleStoresFacts.
Import JS Browser SimpleStores Spec2.

Lemma add_one_below (n : Z) : (n < 2 ^ 53)%Z -> add_one n = (n + 1)%Z.
Proof.
  intros H. unfold add_one.
  destruct (Z.ltb_spec n (2 ^ 53)); [reflexivity | lia].
Qed.

(** [create] of [noop] on an annotation without [id]. *)
Lemma noop_create_new (l : loc) (s : session) :
  is_nullish (id_in s l) = true ->
  (counter s < 2 ^ 53)%Z ->
  noop.create l s
  = Return l
      (Session
         (set_content l
            (set_prop "id" (VNum (counter s + 1)) (content l (browser s)))
            (browser s))
         (counter s + 1) (console s)).
Proof.
  intros Hid Hc. unfold noop.create, bind, on_browser, read, write, gets,
    modify, id, ret. cbn [browser counter console].
  unfold id_in in Hid. rewrite Hid. cbn [browser counter console].
  now rewrite add_one_below.
Qed.

(** X25. In a session, [create] of [noop] numbers the annotations that
    have no [id]: created one after the other, distinct annotations get
    the numbers that follow the counter, in turn, so that no two of them
    have the same [id]; no other object is touched. The counter is a
    double, and the numbering holds up to 2^53. *)
Theorem noop_numbers_the_annotations (annotations : list loc) (s : session) :
  List.NoDup annotations ->
  (forall l, In l annotations -> is_nullish (id_in s l) = true) ->
  (-1 <= counter s)%Z ->
  (counter s + Z.of_nat (length annotations) <= 2 ^ 53)%Z ->
  exists s',
    created_in_turn noop.create annotations s = Return tt s' /\
    counter s' = (counter s + Z.of_nat (length annotations))%Z /\
    (forall i l,
       nth_error annotations i = Some l ->
       id_in s' l = VNum (counter s + 1 + Z.of_nat i)) /\
    (forall i j l l',
       nth_error annotations i = Some l ->
       nth_error annotations j = Some l' ->
       i <> j -> id_in s' l <> id_in s' l') /\
    (forall l, ~ In l annotations ->
       content l (browser s') = content l (browser s)).
Proof.
  intros Hnd Hnew Hlo Hhi.
  assert (H : exists s',
    created_in_turn noop.create annotations s = Return tt s' /\
    counter s' = (counter s + Z.of_nat (length annotations))%Z /\
    (forall i l,
       nth_error annotations i = Some l ->
       id_in s' l = VNum (counter s + 1 + Z.of_nat i)) /\
    (forall l, ~ In l annotations ->
       content l (browser s') = content l (browser s))).
  { clear Hlo. revert s Hnew Hhi.
    induction annotations as [|a rest IH]; intros s Hnew Hhi.
    - exists s. split; [reflexivity|]. split; [simpl; lia|].
      split; [intros [|i] l; discriminate | reflexivity].
    - apply List.NoDup_cons_iff in Hnd as [Ha Hnd].
      cbn [length] in Hhi.
      cbn [created_in_turn]. unfold bind at 1.
      rewrite noop_create_new; [|apply Hnew; now left | lia].
      set (s1 := Session _ _ _).
      assert (Hother : forall l, l <> a ->
                content l (browser s1) = content l (browser s)).
      { intros l Hl. subst s1. cbn [browser].
        apply BrowserFacts.content_set_content_ne. congruence. }
      destruct (IH Hnd s1) as (s' & Hrun & Hc & Hids & Hframe).
      + intros l Hl. unfold id_in. rewrite Hother.
        * apply Hnew. now right.
        * intros ->. contradiction.
      + subst s1. cbn [counter]. lia.
      + exists s'. split; [exact Hrun|]. split; [|split].
        * rewrite Hc. subst s1. cbn [counter length]. lia.
        * intros [|i] l Hl.
          -- injection Hl as <-. unfold id_in.
             rewrite (Hframe a Ha). subst s1. cbn [browser].
             rewrite BrowserFacts.content_set_content_eq.
             rewrite ObjFacts.get_prop_set_prop_eq. f_equal. lia.
          -- rewrite (Hids i l Hl). subst s1. cbn [counter]. f_equal. lia.
        * intros l Hl. rewrite Hframe.
          -- apply Hother. intros ->. apply Hl. now left.
          -- intros Hin. apply Hl. now right. }
  destruct H as (s' & Hrun & Hc & Hids & Hframe).
  exists s'. repeat split; auto.
  intros i j l l' Hi Hj Hij. rewrite (Hids i l Hi), (Hids j l' Hj).
  intros [= Heq]. lia.
Qed.

Lemma noop_numbers_the_annotations_witness :
  exists s',
    created_in_turn noop.create [0%nat; 1%nat] (start Spec.page)
    = Return tt s' /\
    counter s'
    = (counter (start Spec.page) + Z.of_nat (length [0%nat; 1%nat]))%Z /\
    (forall i l,
       nth_error [0%nat; 1%nat] i = Some l ->
       id_in s' l = VNum (counter (start Spec.page) + 1 + Z.of_nat i)) /\
    (forall i j l l',
       nth_error [0%nat; 1%nat] i = Some l ->
       nth_error [0%nat; 1%nat] j = Some l' ->
       i <> j -> id_in s' l <> id_in s' l') /\
    (forall l, ~ In l [0%nat; 1%nat] ->
       content l (browser s') = content l (browser (start Spec.page))).
Proof.
  apply (noop_numbers_the_annotations [0%nat; 1%nat] (start Spec.page)).
  - repeat constructor; simpl; intuition discriminate.
  - intros l [<- | [<- | []]]; reflexivity.
  - simpl. lia.
  - simpl. lia.
Defined.

(** An annotation that has an [id] keeps it, and no number is used. *)
Lemma noop_create_keeps_an_id (l : loc) (s : session) :
  is_nullish (id_in s l) = false -> noop.create l s = Return l s.
Proof.
  intros Hid. unfold noop.create, bind, on_browser, read, gets, ret.
  unfold id_in in Hid. rewrite Hid. now destruct s.
Qed.

Lemma has_bigint_set_prop (k : string) (n : Z) (o : obj) :
  has_bigint (VObj (set_prop k (VNum n) o))
  = has_bigint (VObj (delete_prop k o)).
Proof.
  induction o as [|[k' v] o IH]; [reflexivity|].
  cbn [set_prop delete_prop]. destruct (String.eqb k k'); [reflexivity|].
  cbn [has_bigint existsb snd] in *. now rewrite IH.
Qed.

(** X26. [create] of [debug] numbers every annotation, whatever [id] it
    came with: when the rest of the annotation can be serialized, the call
    returns the annotation with the number after the counter as [id], and
    the console has been given one more entry, the JSON copy of the
    annotation as it is now. *)
Theorem debug_create_renumbers (l : loc) (s : session) :
  (-1 <= counter s < 2 ^ 53)%Z ->
  has_bigint (VObj (delete_prop "id" (content l (browser s)))) = false ->
  exists s',
    debug.create l s = Return l s' /\
    id_in s' l = VNum (counter s + 1) /\
    counter s' = (counter s + 1)%Z /\
    console s'
    = (console s
       ++ [("annotator.storage.debug: create",
            json_doc (VObj (content l (browser s'))))])%list /\
    (forall l', l' <> l ->
       content l' (browser s') = content l' (browser s)).
Proof.
  intros Hc Hb.
  unfold debug.create, bind, on_browser, write, gets, modify, id, trace, ret.
  cbn [browser counter console].
  rewrite add_one_below by lia.
  rewrite BrowserFacts.content_set_content_eq.
  unfold bind, JSON_stringify, throw, ret.
  rewrite has_bigint_set_prop, Hb.
  unfold JSON_parse, modify, ret. cbn [browser counter console].
  eexists. split; [reflexivity|]. cbn [browser counter console].
  unfold id_in. cbn [browser].
  rewrite BrowserFacts.content_set_content_eq.
  repeat split.
  - apply ObjFacts.get_prop_set_prop_eq.
  - intros l' Hl. apply BrowserFacts.content_set_content_ne. congruence.
Qed.

Lemma debug_create_renumbers_witness :
  exists s',
    debug.create 0%nat
      (start (Spec.page_with [("id", VBigInt 5); ("text", VStr "hi")]))
    = Return 0%nat s' /\
    id_in s' 0%nat
    = VNum (counter
              (start (Spec.page_with
                        [("id", VBigInt 5); ("text", VStr "hi")])) + 1) /\
    counter s'
    = (counter
         (start (Spec.page_with [("id", VBigInt 5); ("text", VStr "hi")]))
       + 1)%Z /\
    console s'
    = (console
         (start (Spec.page_with [("id", VBigInt 5); ("text", VStr "hi")]))
       ++ [("annotator.storage.debug: create",
            json_doc (VObj (content 0%nat (browser s'))))])%list /\
    (forall l', l' <> 0%nat ->
       content l' (browser s')
       = content l'
           (browser
              (start (Spec.page_with
                        [("id", VBigInt 5); ("text", VStr "hi")])))).
Proof.
  apply (debug_create_renumbers 0%nat
           (start (Spec.page_with [("id", VBigInt 5); ("text", VStr "hi")]))).
  - simpl. lia.
  - reflexivity.
Defined.

End SimpleStoresFacts.
